(** * shopanalyzer: the per-site detection and correlation engine

    A shallow embedding of [src/parsers/request_parser.py],
    [src/analyzers/site_analyzer.py], [src/testers/site_tester.py] and the
    pattern registries of [src/constants.py], with the properties of the
    analysis session proved over it.

    Python strings are modelled as [string] (sequences of 8-bit characters);
    [str.lower] is modelled on the ASCII letters.  Python dictionaries used as
    flag bags are [gmap string _]; JSON payloads are values of [pyval]. *)

From Stdlib Require Import Ascii ZArith Bool Lia.
From stdpp Require Import gmap strings list fin_maps pretty.

Local Arguments String.append !_ _ / : simpl nomatch.

(** ** Python string primitives *)

Module PyStr.

(** [c.lower()] on one character: [A]..[Z] move to [a]..[z]. *)
Definition lower_ascii (c : ascii) : ascii :=
  let n := Ascii.N_of_ascii c in
  if ((65 <=? n) && (n <=? 90))%N then Ascii.ascii_of_N (n + 32) else c.

(** [s.lower()] *)
Fixpoint lower (s : string) : string :=
  match s with
  | EmptyString => EmptyString
  | String c r => String (lower_ascii c) (lower r)
  end.

(** [s.startswith(p)] *)
Fixpoint startswith (p s : string) : bool :=
  match p, s with
  | EmptyString, _ => true
  | String a p', String b s' => Ascii.eqb a b && startswith p' s'
  | String _ _, EmptyString => false
  end.

(** [p in s]: [p] occurs in [s] as a contiguous substring. *)
Fixpoint str_in (p s : string) : bool :=
  startswith p s ||
  match s with
  | EmptyString => false
  | String _ s' => str_in p s'
  end.

(** [bool(s)] for a string: non-empty. *)
Definition nonempty (s : string) : bool :=
  match s with EmptyString => false | String _ _ => true end.

(** The mathematical reading of [p in s]. *)
Definition occurs (p s : string) : Prop :=
  ∃ a b : string, s = a +:+ p +:+ b.

End PyStr.

Import PyStr.

(** ** Python values

    What [json.loads] can return, and what the parsers pass around.  JSON
    numbers are modelled on the integers. *)

#[warnings="-register-all"]
Inductive pyval : Type :=
  | PNone
  | PBool (b : bool)
  | PInt (n : Z)
  | PStr (s : string)
  | PList (l : list pyval)
  | PDict (d : list (string * pyval)).

Module PyVal.

(** Lookup in a dictionary kept in insertion order. *)
Fixpoint assoc_get {A : Type} (k : string) (d : list (string * A)) : option A :=
  match d with
  | [] => None
  | (k', v) :: r => if String.eqb k k' then Some v else assoc_get k r
  end.

(** [bool(v)] *)
Definition truthy (v : pyval) : bool :=
  match v with
  | PNone => false
  | PBool b => b
  | PInt n => negb (n =? 0)%Z
  | PStr s => nonempty s
  | PList l => match l with [] => false | _ => true end
  | PDict d => match d with [] => false | _ => true end
  end.

(** [v == s] for a string [s]: only an equal string compares equal. *)
Definition eq_str (v : pyval) (s : string) : bool :=
  match v with
  | PStr t => String.eqb t s
  | _ => false
  end.

(** [v.get(k, dflt)]; [None] is the [AttributeError] of a value that is
    not a dictionary. *)
Definition get (v : pyval) (k : string) (dflt : pyval) : option pyval :=
  match v with
  | PDict d => Some (default dflt (assoc_get k d))
  | _ => None
  end.

End PyVal.

(** ** The Python runtime the analyzer calls into

    [json.loads], [urllib.parse.urlparse], [urllib.parse.parse_qs] and the
    builtin [str] are library code.  The analyzer is written against this
    interface; [None] stands for a raised exception. *)

Record ParseResult := {
  netloc : string;
  query : string
}.

Class PyLib := {
  json_loads : string → option pyval;
  urlparse : string → option ParseResult;
  parse_qs : string → gmap string (list string);
  py_str : pyval → string
}.

(** ** src/parsers/request_parser.py *)

Module RequestParser.
Section with_lib.
Context `{!PyLib}.

Definition parse_v1_request (json_data : pyval) : option (pyval * pyval) :=
  event_name ← PyVal.get json_data "name" (PStr "");
  applovin_data ← PyVal.get json_data "applovin" (PDict []);
  if negb (PyVal.truthy applovin_data) then
    applovin_data ← PyVal.get json_data "axon" (PDict []);
    Some (event_name, applovin_data)
  else Some (event_name, applovin_data).

Definition parse_v2_request (json_data : pyval)
    : option (pyval * pyval * pyval) :=
  applovin_data ← PyVal.get json_data "applovin" (PDict []);
  event_data ← PyVal.get json_data "event" (PDict []);
  event_name ← PyVal.get event_data "name" (PStr "");
  request_art ← PyVal.get applovin_data "art" (PStr "");
  request_event_id ← PyVal.get applovin_data "eventId" (PStr "");
  Some (event_name, request_art, request_event_id).

Definition parse_url_parameters (url : string) : option (string * string) :=
  parsed_url ← urlparse url;
  let url_params := parse_qs (query parsed_url) in
  alart ← head (default [""] (url_params !! "alart"));
  aleid ← head (default [""] (url_params !! "aleid"));
  Some (alart, aleid).

End with_lib.
End RequestParser.

(** ** src/constants.py *)

Module Constants.

Record DomainInfo := {
  type : string;
  critical : bool
}.

Definition DOMAINS_OF_INTEREST : list (string * DomainInfo) :=
  [ ("applovin.com", {| type := "tracking"; critical := true |});
    ("axon.ai", {| type := "analytics"; critical := false |});
    ("albss.com", {| type := "analytics"; critical := false |}) ].

(** The character [0x22], which two of the Shopify patterns contain. *)
Definition dquote : string := String (Ascii.ascii_of_N 34) EmptyString.

Definition TRACKING_INDICATORS : list (string * list string) :=
  [ ("shopify",
      [ "myshopify.com"; "shopify.shop";
        "link[href*=" +:+ dquote +:+ "shopify" +:+ dquote +:+ "]";
        "script[src*=" +:+ dquote +:+ "shopify" +:+ dquote +:+ "]" ]);
    ("gtm", ["gtm.start"]);
    ("axon", ["axon"]);
    ("ga", ["ga.js"; "analytics.js"]);
    ("ga4", ["gtag"]) ].

Record HeadlessPatterns := {
  api_endpoints : list string;
  script_patterns : list string;
  meta_tags : list string;
  request_headers : list string
}.

Definition HEADLESS_SHOPIFY_INDICATORS : HeadlessPatterns := {|
  api_endpoints :=
    [ "store.myshopify.com/api/graphql";
      "shopify.com/api/graphql";
      "shopify.com/api/2023-01/graphql.json";
      "shopify.com/api/2022-10/graphql.json" ];
  script_patterns :=
    [ "@shopify/hydrogen";
      "@shopify/storefront-api";
      "shopify.loadFeatures";
      "shopify.buy.Button";
      "shopify-buy" ];
  meta_tags :=
    [ "shopify-digital-wallet";
      "shopify-checkout-api-token";
      "shopify-storefront-api-token" ];
  request_headers :=
    [ "X-Shopify-Storefront-Access-Token";
      "X-Shopify-Storefront-API-Version" ]
|}.

(** Non-critical errors that should be ignored. *)
Definition IGNORED_ERRORS : list string :=
  [ "ERR_ABORTED"; "NS_BINDING_ABORTED"; "net::ERR_BLOCKED_BY_CLIENT";
    "NS_ERROR_NET_INTERRUPT" ].

End Constants.

(** ** The browser objects handed to the analyzer

    Each record holds what the Playwright calls made by the analyzer return
    on that object.  A call that may fail with an exception returns an
    [option], [None] being the exception.  Reading an attribute of an element
    handle returns [None] for a missing attribute, as [get_attribute] does. *)

Module Element.
Record t := {
  get_attribute : string → option string;
  inner_text : option string
}.
End Element.

Module Page.
Record t := {
  url : string;
  content : option string;
  query_selector_all : string → option (list Element.t);
  query_selector : string → option (option Element.t)
}.
End Page.

Module Response.
Record t := {
  headers : list (string * string)
}.
End Response.

Module Request.
Record t := {
  url : string;
  method : string;
  resource_type : string;
  headers : list (string * string);
  post_data : option string;
  frame_page_url : option string
}.
End Request.

(** ** src/analyzers/site_analyzer.py *)

Module SiteAnalyzer.
Import Constants.

(** The entries of the [network_requests] lists: the dictionary built by
    [check_request], the one built by [_log_shopify_api_request], and the
    summary string of [log_event_data]. *)
Inductive request_info : Type :=
  | DomainRequest (url method type : string) (critical : bool)
  | ApiRequest (url method type : string) (headers : list (string * string))
  | TrackingEvent (summary : string).

(** The five attributes that [reset_flags] creates on the analyzer. *)
Record analyzer := {
  content_indicators : gmap string bool;
  network_requests : gmap string (list request_info);
  events : gmap string bool;
  parameter_matches : gmap string bool;
  headless_indicators : gmap string bool
}.

(** [self.content_indicators[k] = v] and its four siblings. *)
Definition set_content_indicator (k : string) (v : bool) (self : analyzer) :=
  {| content_indicators := <[k := v]> (content_indicators self);
     network_requests := network_requests self;
     events := events self;
     parameter_matches := parameter_matches self;
     headless_indicators := headless_indicators self |}.

Definition set_event (k : string) (v : bool) (self : analyzer) :=
  {| content_indicators := content_indicators self;
     network_requests := network_requests self;
     events := <[k := v]> (events self);
     parameter_matches := parameter_matches self;
     headless_indicators := headless_indicators self |}.

Definition set_parameter_match (k : string) (v : bool) (self : analyzer) :=
  {| content_indicators := content_indicators self;
     network_requests := network_requests self;
     events := events self;
     parameter_matches := <[k := v]> (parameter_matches self);
     headless_indicators := headless_indicators self |}.

Definition set_headless_indicator (k : string) (v : bool) (self : analyzer) :=
  {| content_indicators := content_indicators self;
     network_requests := network_requests self;
     events := events self;
     parameter_matches := parameter_matches self;
     headless_indicators := <[k := v]> (headless_indicators self) |}.

(** [self.network_requests[k].append(r)]; every key used below is created
    by [reset_flags] and never removed. *)
Definition append_request (k : string) (r : request_info) (self : analyzer) :=
  {| content_indicators := content_indicators self;
     network_requests := alter (λ l, l ++ [r]) k (network_requests self);
     events := events self;
     parameter_matches := parameter_matches self;
     headless_indicators := headless_indicators self |}.

(** [len(self.network_requests[k])] *)
Definition request_count (k : string) (self : analyzer) : nat :=
  length (default [] (network_requests self !! k)).

Definition reset_flags (self : analyzer) : analyzer :=
  {| content_indicators :=
       list_to_map
         [ ("shopify", false); ("headless_shopify", false); ("axon", false);
           ("gtm", false); ("ga", false); ("ga4", false) ];
     network_requests :=
       list_to_map
         [ ("axon_ai", []); ("albss", []); ("applovin", []);
           ("tracking", []); ("shopify_api", []) ];
     events :=
       list_to_map [ ("land", false); ("page_view", false); ("page_viewed", false) ];
     parameter_matches :=
       list_to_map [ ("aleid", false); ("alart", false) ];
     headless_indicators :=
       list_to_map
         [ ("api_calls", false); ("storefront_api", false);
           ("hydrogen", false); ("buy_sdk", false) ] |}.

(** The analyzer as [__init__] leaves it. *)
Definition init : analyzer :=
  reset_flags
    {| content_indicators := ∅; network_requests := ∅; events := ∅;
       parameter_matches := ∅; headless_indicators := ∅ |}.

Section with_lib.
Context `{!PyLib}.

(** *** Headless-Shopify checks on the page *)

(** The inner loop over [script_patterns], left at the first match. *)
Fixpoint inline_scan (patterns : list string) (script_content : string)
    (found : nat) : nat :=
  match patterns with
  | [] => found
  | pattern :: rest =>
      if str_in (lower pattern) script_content then S found
      else inline_scan rest script_content found
  end.

(** One turn of the loop over the script elements. *)
Definition script_step (st : analyzer * nat) (script : Element.t)
    : analyzer * nat :=
  let '(self, found) := st in
  let src := default "" (Element.get_attribute script "src") in
  let '(self, found) :=
    if str_in "@shopify/hydrogen" src
    then (set_headless_indicator "hydrogen" true self, S found)
    else (self, found) in
  let '(self, found) :=
    if str_in "@shopify/storefront-api" src
    then (set_headless_indicator "storefront_api" true self, S found)
    else (self, found) in
  let '(self, found) :=
    if str_in "shopify-buy" src
    then (set_headless_indicator "buy_sdk" true self, S found)
    else (self, found) in
  match Element.inner_text script with
  | Some text =>
      (self, inline_scan (script_patterns HEADLESS_SHOPIFY_INDICATORS)
                         (lower text) found)
  | None => (self, found)
  end.

Definition _check_headless_shopify_scripts (self : analyzer) (page : Page.t)
    : analyzer :=
  match Page.query_selector_all page "script" with
  | Some scripts =>
      let '(self, headless_indicators_found) :=
        foldl script_step (self, 0) scripts in
      if 2 <=? headless_indicators_found
      then set_content_indicator "headless_shopify" true self
      else self
  | None => self
  end.

(** The inner loop over [meta_tags]: every matching pattern counts. *)
Fixpoint meta_scan (patterns : list string) (name content : string)
    (found : nat) : nat :=
  match patterns with
  | [] => found
  | pattern :: rest =>
      meta_scan rest name content
        (if str_in (lower pattern) (lower name)
            || str_in (lower pattern) (lower content)
         then S found else found)
  end.

Definition meta_step (found : nat) (meta : Element.t) : nat :=
  let name := default "" (Element.get_attribute meta "name") in
  let content := default "" (Element.get_attribute meta "content") in
  meta_scan (meta_tags HEADLESS_SHOPIFY_INDICATORS) name content found.

Definition _check_headless_shopify_meta_tags (self : analyzer) (page : Page.t)
    : analyzer :=
  match Page.query_selector_all page "meta" with
  | Some meta_tags =>
      let meta_indicators_found := foldl meta_step 0 meta_tags in
      if 2 <=? meta_indicators_found
      then set_content_indicator "headless_shopify" true self
      else self
  | None => self
  end.

(** *** Stage 1: page content *)

Definition indicator_step (content : string) (self : analyzer)
    (item : string * list string) : analyzer :=
  let '(indicator, patterns) := item in
  set_content_indicator indicator
    (existsb (λ pattern, str_in (lower pattern) content) patterns) self.

Definition check_page_content (self : analyzer) (page : Page.t) : analyzer :=
  match Page.content page with
  | Some text =>
      let content := lower text in
      let self := foldl (indicator_step content) self TRACKING_INDICATORS in
      let self := _check_headless_shopify_scripts self page in
      _check_headless_shopify_meta_tags self page
  | None => self
  end.

(** *** Stage 2: network requests *)

Definition _log_shopify_api_request (self : analyzer) (request : Request.t)
    : analyzer :=
  let request_info :=
    ApiRequest (Request.url request) (Request.method request)
               (Request.resource_type request) (Request.headers request) in
  append_request "shopify_api" request_info self.

(** [str(headers)] of the request's header dictionary. *)
Definition str_headers (headers : list (string * string)) : string :=
  py_str (PDict (map (λ kv, (kv.1, PStr kv.2)) headers)).

(** The loop over [api_endpoints], left at the first match. *)
Fixpoint endpoint_scan (endpoints : list string) (url : string)
    (request : Request.t) (st : analyzer * nat) : analyzer * nat :=
  match endpoints with
  | [] => st
  | endpoint :: rest =>
      if str_in (lower endpoint) url then
        let '(self, api_indicators) := st in
        let self := set_headless_indicator "api_calls" true self in
        (_log_shopify_api_request self request, S api_indicators)
      else endpoint_scan rest url request st
  end.

(** The loop over [request_headers], left at the first match. *)
Fixpoint header_scan (names : list string) (headers : list (string * string))
    (request : Request.t) (st : analyzer * nat) : analyzer * nat :=
  match names with
  | [] => st
  | header :: rest =>
      if str_in (lower header) (lower (str_headers headers)) then
        let '(self, api_indicators) := st in
        let self := set_headless_indicator "api_calls" true self in
        (_log_shopify_api_request self request, S api_indicators)
      else header_scan rest headers request st
  end.

Definition _check_shopify_api_request (self : analyzer) (request : Request.t)
    : analyzer :=
  let url := lower (Request.url request) in
  let headers := Request.headers request in
  let st := (self, 0) in
  let st := endpoint_scan (api_endpoints HEADLESS_SHOPIFY_INDICATORS)
                          url request st in
  let st := header_scan (request_headers HEADLESS_SHOPIFY_INDICATORS)
                        headers request st in
  let '(self, api_indicators) := st in
  if 2 <=? api_indicators
  then set_content_indicator "headless_shopify" true self
  else self.

Definition log_event_data (self : analyzer) (event_name : pyval)
    (version : string) (art event_id : pyval) (url_alart url_aleid : string)
    : analyzer :=
  let self :=
    if PyVal.eq_str event_name "land" then set_event "land" true self
    else if PyVal.eq_str event_name "page_view"
         then set_event "page_view" true self
    else if PyVal.eq_str event_name "page_viewed"
         then set_event "page_viewed" true self
    else self in
  let self :=
    if PyVal.truthy art && nonempty url_alart then
      if PyVal.eq_str art url_alart
      then set_parameter_match "alart" true self else self
    else self in
  let self :=
    if PyVal.truthy event_id && nonempty url_aleid then
      if PyVal.eq_str event_id url_aleid
      then set_parameter_match "aleid" true self else self
    else self in
  let request_info := "Axon Event: " +:+ py_str event_name in
  append_request "tracking" (TrackingEvent request_info) self.

(** The body of the [try] block of [_process_pixel_request]; [None] is an
    exception raised inside it. *)
Definition pixel_request_body (self : analyzer) (request : Request.t)
    : option analyzer :=
  current_url ← Request.frame_page_url request;
  '(url_alart, url_aleid) ← RequestParser.parse_url_parameters current_url;
  match Request.post_data request with
  | None => Some self
  | Some post_data =>
      if negb (nonempty post_data) then Some self
      else
        json_data ← json_loads post_data;
        let url := Request.url request in
        if str_in "/shopify/v2/pixel" url || str_in "/v2/pixel" url then
          '(event_name, art, event_id) ←
            RequestParser.parse_v2_request json_data;
          Some (log_event_data self event_name url art event_id
                               url_alart url_aleid)
        else
          '(event_name, axon_data) ← RequestParser.parse_v1_request json_data;
          art ← PyVal.get axon_data "art" (PStr "");
          event_id ← PyVal.get axon_data "eventId" (PStr "");
          Some (log_event_data self event_name url art event_id
                               url_alart url_aleid)
  end.

(** [except Exception]: the warning is printed and the call returns. *)
Definition _process_pixel_request (self : analyzer) (request : Request.t)
    : analyzer :=
  match pixel_request_body self request with
  | Some self' => self'
  | None => self
  end.

(** One turn of the loop over [DOMAINS_OF_INTEREST]. *)
Definition domain_step (url : string) (request : Request.t) (self : analyzer)
    (item : string * DomainInfo) : analyzer :=
  let '(domain, info) := item in
  if str_in domain url then
    let request_info :=
      DomainRequest url (Request.method request)
                    (Request.resource_type request) (critical info) in
    if String.eqb domain "applovin.com"
    then append_request "applovin" request_info self
    else if String.eqb domain "axon.ai"
    then append_request "axon_ai" request_info self
    else if String.eqb domain "albss.com"
    then append_request "albss" request_info self
    else self
  else self.

Definition check_request (self : analyzer) (request : Request.t) : analyzer :=
  let url := lower (Request.url request) in
  let self := _check_shopify_api_request self request in
  let self := foldl (domain_step url request) self DOMAINS_OF_INTEREST in
  if str_in "https://b.applovin.com/" url && str_in "pixel" url
     && String.eqb (Request.method request) "POST"
  then _process_pixel_request self request
  else self.

(** *** Shopify indicators *)

(** The body of the [try] block of [check_shopify_indicators]. *)
Definition shopify_indicators_body (self : analyzer) (page : Page.t)
    (response : option Response.t) : option analyzer :=
  let by_server :=
    match response with
    | Some r =>
        str_in "shopify"
          (lower (default "" (PyVal.assoc_get "server" (Response.headers r))))
    | None => false
    end in
  if by_server then Some (set_content_indicator "shopify" true self)
  else
    let url := Page.url page in
    if str_in "myshopify.com" url
    then Some (set_content_indicator "shopify" true self)
    else
      link ← Page.query_selector page
                ("link[href*=" +:+ dquote +:+ "shopify" +:+ dquote +:+ "]");
      script ← Page.query_selector page
                ("script[src*=" +:+ dquote +:+ "shopify" +:+ dquote +:+ "]");
      text ← Page.content page;
      Some (set_content_indicator "shopify"
              (bool_decide (is_Some link) || bool_decide (is_Some script)
               || str_in "Shopify.shop" text) self).

Definition check_shopify_indicators (self : analyzer) (page : Page.t)
    (response : option Response.t) : analyzer :=
  match shopify_indicators_body self page response with
  | Some self' => self'
  | None => self
  end.

(** *** Results *)

Record HeadlessDetails := {
  uses_storefront_api : bool;
  uses_hydrogen : bool;
  uses_buy_sdk : bool;
  has_api_calls : bool;
  api_calls_count : nat
}.

(** [site] and [url] hold the two arguments of [get_results] as they were
    passed: the tester passes the values of a site entry, which are JSON
    values of any type. *)
Record Results := {
  site : pyval;
  url : pyval;
  is_shopify : bool;
  is_headless_shopify : bool;
  headless_shopify_details : HeadlessDetails;
  has_axon : bool;
  has_gtm : bool;
  has_ga : bool;
  has_ga4 : bool;
  has_land_event : bool;
  has_page_view_event : bool;
  has_page_viewed_event : bool;
  has_axon_ai_requests : nat;
  has_albss_requests : nat;
  has_matching_aleid : bool;
  has_matching_alart : bool;
  has_applovin_requests : nat;
  warning : option string
}.

Definition get_results (self : analyzer) (site_name site_url : pyval)
    (warning : option string) : Results :=
  {| site := site_name;
     url := site_url;
     is_shopify := content_indicators self !!! "shopify";
     is_headless_shopify := content_indicators self !!! "headless_shopify";
     headless_shopify_details :=
       {| uses_storefront_api := headless_indicators self !!! "storefront_api";
          uses_hydrogen := headless_indicators self !!! "hydrogen";
          uses_buy_sdk := headless_indicators self !!! "buy_sdk";
          has_api_calls := headless_indicators self !!! "api_calls";
          api_calls_count := request_count "shopify_api" self |};
     has_axon := content_indicators self !!! "axon";
     has_gtm := content_indicators self !!! "gtm";
     has_ga := content_indicators self !!! "ga";
     has_ga4 := content_indicators self !!! "ga4";
     has_land_event := events self !!! "land";
     has_page_view_event := events self !!! "page_view";
     has_page_viewed_event := events self !!! "page_viewed";
     has_axon_ai_requests := request_count "axon_ai" self;
     has_albss_requests := request_count "albss" self;
     has_matching_aleid := parameter_matches self !!! "aleid";
     has_matching_alart := parameter_matches self !!! "alart";
     has_applovin_requests := request_count "applovin" self;
     warning :=
       match warning with
       | Some w => if nonempty w then Some w else None
       | None => None
       end |}.

(** *** Static analysis *)

Record StaticResults := {
  static_site : pyval;
  static_url : string;
  analysis_type : string;
  domain : string;
  tracking_parameters : gmap string bool;
  indicator_shopify : bool;
  indicator_tracking_present : bool;
  event_land : bool
}.

(** One turn of the loop over [tracking_params]; [None] is the [IndexError]
    of an empty value list. *)
Definition tracking_param_step (query_params : gmap string (list string))
    (st : option (analyzer * gmap string bool)) (param : string)
    : option (analyzer * gmap string bool) :=
  '(self, tracking_params) ← st;
  match query_params !! param with
  | Some values =>
      let tracking_params := <[param := true]> tracking_params in
      first ← head values;
      if String.eqb (lower first) "applovin"
      then Some (set_event "land" true self, tracking_params)
      else Some (self, tracking_params)
  | None => Some (self, tracking_params)
  end.

(** [None] is an exception leaving [analyze_static].  [site_name] is
    stored as passed; [url] is a string, the only kind of value [urlparse]
    accepts. *)
Definition analyze_static (self : analyzer) (site_name : pyval) (url : string)
    : option (analyzer * StaticResults) :=
  let self := reset_flags self in
  parsed_url ← urlparse url;
  let query_params := parse_qs (query parsed_url) in
  let domain := lower (netloc parsed_url) in
  let self :=
    if str_in ".myshopify.com" domain || str_in "shopify.com" domain
    then set_content_indicator "shopify" true self else self in
  let self :=
    if bool_decide (is_Some (query_params !! "aleid"))
    then set_parameter_match "aleid" true self else self in
  let self :=
    if bool_decide (is_Some (query_params !! "alart"))
    then set_parameter_match "alart" true self else self in
  let tracking_params : gmap string bool :=
    list_to_map [ ("utm_source", false); ("utm_medium", false);
                  ("utm_campaign", false) ] in
  '(self, tracking_params) ←
    foldl (tracking_param_step query_params) (Some (self, tracking_params))
          ["utm_source"; "utm_medium"; "utm_campaign"];
  let results :=
    {| static_site := site_name;
       static_url := url;
       analysis_type := "static";
       domain := domain;
       tracking_parameters :=
         tracking_params ∪
         list_to_map [ ("aleid", parameter_matches self !!! "aleid");
                       ("alart", parameter_matches self !!! "alart") ];
       indicator_shopify := content_indicators self !!! "shopify";
       indicator_tracking_present :=
         existsb id (map_to_list tracking_params).*2
         || parameter_matches self !!! "aleid"
         || parameter_matches self !!! "alart";
       event_land := events self !!! "land" |} in
  Some (self, results).

End with_lib.
End SiteAnalyzer.

(** ** src/utils/request_handlers.py *)

Module RequestHandlers.
Import Constants.

(** The loop of [is_domain_of_interest] over the registry, left with a
    [return] at the first domain found in the URL. *)
Fixpoint domain_scan (items : list (string * DomainInfo)) (url_lower : string)
    : bool * bool :=
  match items with
  | [] => (false, false)
  | (domain, info) :: rest =>
      if str_in domain url_lower then (true, critical info)
      else domain_scan rest url_lower
  end.

Definition is_domain_of_interest (url : string) : bool * bool :=
  let url_lower := lower url in
  domain_scan DOMAINS_OF_INTEREST url_lower.

Definition should_ignore_error (error_text : string) : bool :=
  existsb (λ err, str_in err error_text) IGNORED_ERRORS.

Record RequestInfo := {
  info_url : string;
  info_method : string;
  info_type : string
}.

Definition create_request_info (request : Request.t) : RequestInfo :=
  {| info_url := Request.url request;
     info_method := Request.method request;
     info_type := Request.resource_type request |}.

Record FailedRequestInfo := {
  url : string;
  method : string;
  resource_type : string;
  error : string;
  headers : list (string * string)
}.

Definition create_failed_request_info (request : Request.t)
    (error_text : string) : FailedRequestInfo :=
  {| url := Request.url request;
     method := Request.method request;
     resource_type := Request.resource_type request;
     error := error_text;
     headers := match Request.headers request with
                | [] => []
                | h => h
                end |}.

End RequestHandlers.

(** ** src/browser/browser_manager.py

    The manager's bookkeeping: the list of recorded failures and the set of
    pending URLs.  The browser, context and page handles are Playwright
    objects and are not part of the state modelled here. *)

Module BrowserManager.
Import Constants RequestHandlers.

Record manager := {
  failed_requests : list FailedRequestInfo;
  pending_requests : gset string
}.

(** The manager as [__init__] leaves it. *)
Definition init : manager :=
  {| failed_requests := []; pending_requests := ∅ |}.

Definition _handle_request (self : manager) (request : Request.t) : manager :=
  let url := Request.url request in
  {| failed_requests := failed_requests self;
     pending_requests := pending_requests self ∪ {[url]} |}.

(** [failure] is [request.failure], the error text Playwright attaches to a
    failed request, [None] when it has none. *)
Definition _handle_request_failed (self : manager) (request : Request.t)
    (failure : option string) : manager :=
  let url := Request.url request in
  let self := {| failed_requests := failed_requests self;
                 pending_requests := pending_requests self ∖ {[url]} |} in
  let '(is_interesting, is_critical) := is_domain_of_interest url in
  if negb is_interesting then self
  else
    let error_text :=
      match failure with
      | Some text => if nonempty text then text else "Unknown error"
      | None => "Unknown error"
      end in
    if negb is_critical
       && negb (existsb (λ item, str_in item.1 (lower url))
                        (List.filter (λ item, critical item.2)
                                     DOMAINS_OF_INTEREST))
    then self
    else
      {| failed_requests :=
           failed_requests self
           ++ [create_failed_request_info request error_text];
         pending_requests := pending_requests self |}.

Definition _handle_request_finished (self : manager) (request : Request.t)
    : manager :=
  let url := Request.url request in
  {| failed_requests := failed_requests self;
     pending_requests := pending_requests self ∖ {[url]} |}.

(** The notifications of the page the three handlers are subscribed to. *)
Inductive event : Type :=
  | Requested (request : Request.t)
  | RequestFailed (request : Request.t) (failure : option string)
  | RequestFinished (request : Request.t).

(** What [initialize_browser] wires with [page.on]. *)
Definition dispatch (self : manager) (ev : event) : manager :=
  match ev with
  | Requested request => _handle_request self request
  | RequestFailed request failure => _handle_request_failed self request failure
  | RequestFinished request => _handle_request_finished self request
  end.

(** What the browser does during one [load_page]: the notifications
    delivered while [page.goto] runs and its outcome (the response, or the
    text of the exception it raised), then the notifications delivered
    while [page.wait_for_load_state] runs and the text of the exception it
    raised, if any. *)
Record navigation := {
  goto_events : list event;
  goto_outcome : string + option Response.t;
  idle_events : list event;
  idle_outcome : option string
}.

(** The set comprehension of [load_page]: the pending URLs in which a
    domain of interest occurs. *)
Definition important_pending (pending : gset string) : gset string :=
  filter (λ url, existsb (λ item, str_in item.1 (lower url))
                         DOMAINS_OF_INTEREST = true) pending.

Definition load_page (self : manager) (url : string) (nav : navigation)
    : manager * (option string * option Response.t * list FailedRequestInfo) :=
  let self := {| failed_requests := [];
                 pending_requests := pending_requests self |} in
  let self := {| failed_requests := failed_requests self;
                 pending_requests := ∅ |} in
  let self := foldl dispatch self (goto_events nav) in
  match goto_outcome nav with
  | inl e =>
      let warning := "Page load timeout: " +:+ e in
      (self, (Some warning, None, failed_requests self))
  | inr response =>
      let self := foldl dispatch self (idle_events nav) in
      match idle_outcome nav with
      | None => (self, (None, response, failed_requests self))
      | Some e =>
          let important := important_pending (pending_requests self) in
          if bool_decide (important ≠ ∅) then
            let pending_count := size important in
            let warning :=
              "Network idle timeout: " +:+ e +:+ ". " +:+ pretty pending_count
              +:+ " important requests still pending." in
            (self, (Some warning, response, failed_requests self))
          else (self, (None, response, failed_requests self))
      end
  end.

End BrowserManager.

(** ** src/testers/site_tester.py *)

Module SiteTester.

Definition prepare_url (url : string) : string :=
  if negb (str_in "aleid=" url) && negb (str_in "alart=" url) then
    let separator := if str_in "?" url then "&" else "?" in
    url +:+ separator +:+ "alart=test_identifier1234&aleid=test_identifier5678"
  else url.

(** The two switches of [TesterConfig] that select a path through
    [analyze_single_site]; the file names and the sleep length do not. *)
Record TesterConfig := {
  intercept_requests : bool;
  static_analysis_only : bool
}.

(** The exceptions that leave [analyze_single_site] and [run_tests]. *)
Inductive exn : Type := ValueError | TypeError.

(** [needle in v] for a string [needle]: a substring test on a string,
    equality with an item of a list, with a key of a dictionary.  [None]
    is the [TypeError] of a value that is not iterable: [None], a boolean,
    a number. *)
Definition contains (needle : string) (v : pyval) : option bool :=
  match v with
  | PStr s => Some (str_in needle s)
  | PList l => Some (existsb (λ item, PyVal.eq_str item needle) l)
  | PDict d => Some (existsb (λ kv, String.eqb kv.1 needle) d)
  | PNone | PBool _ | PInt _ => None
  end.

(** The characters of a string, as strings of length one. *)
Fixpoint characters (s : string) : list pyval :=
  match s with
  | EmptyString => []
  | String c rest => PStr (String c EmptyString) :: characters rest
  end.

(** The items a [for] loop draws from a value: those of a list, the keys
    of a dictionary, the characters of a string; [None] is the [TypeError]
    of a value that is not iterable.  The keys and the characters are
    strings, none of which [analyze_single_site] accepts as an entry. *)
Definition iterate (v : pyval) : option (list pyval) :=
  match v with
  | PList l => Some l
  | PDict d => Some ((λ kv, PStr kv.1) <$> d)
  | PStr s => Some (characters s)
  | PNone | PBool _ | PInt _ => None
  end.

(** The dictionaries [analyze_single_site] returns.  The error dictionary
    also holds [error] and [error_type], the text and the class name of the
    exception, which are not modelled. *)
Inductive site_result : Type :=
  | StaticResult (results : SiteAnalyzer.StaticResults)
  | DynamicResult (results : SiteAnalyzer.Results)
      (failed_requests : option (list RequestHandlers.FailedRequestInfo))
  | ErrorResult (site url : pyval)
      (failed_requests : list RequestHandlers.FailedRequestInfo).

(** How the browser-driven statements of [analyze_single_site] ended, from
    [load_page] up to the settle wait: with an exception, or with the
    analyzer the request callbacks and the two page checks left, the
    warning and the failure list of [load_page].  Either way the failure
    list is the manager's. *)
Inductive browsed : Type :=
  | BrowseRaised (self : SiteAnalyzer.analyzer)
      (failed_requests : list RequestHandlers.FailedRequestInfo)
  | Browsed (self : SiteAnalyzer.analyzer) (warning : option string)
      (failed_requests : list RequestHandlers.FailedRequestInfo).

Section with_lib.
Context `{!PyLib}.

(** The browser-driven statements, for a configuration, the prepared URL
    and the analyzer after [reset_flags]. *)
Variable browse : TesterConfig → pyval → SiteAnalyzer.analyzer → browsed.

(** [prepare_url] on the [url] of a site entry, a JSON value of any type.
    On a string it is [prepare_url] above.  On a list or a dictionary the
    two [in] tests are membership tests and the f-string formats the value
    with [str]; on any other value the first [in] raises the [TypeError]
    that [None] stands for. *)
Definition prepare_url_value (url : pyval) : option pyval :=
  match url with
  | PStr u => Some (PStr (prepare_url u))
  | _ =>
      has_aleid ← contains "aleid=" url;
      has_alart ← contains "alart=" url;
      if negb has_aleid && negb has_alart then
        has_query ← contains "?" url;
        let separator := if has_query : bool then "&" else "?" in
        Some (PStr (py_str url +:+ separator
                    +:+ "alart=test_identifier1234&aleid=test_identifier5678"))
      else Some url
  end.

(** The analyzer [analyze_static] leaves behind when it raises: the one
    [reset_flags] made when [urlparse] raised, the one the UTM loop had
    reached when a value list was empty. *)
Fixpoint tracking_param_state (query_params : gmap string (list string))
    (self : SiteAnalyzer.analyzer) (params : list string)
    : SiteAnalyzer.analyzer :=
  match params with
  | [] => self
  | param :: rest =>
      match query_params !! param with
      | Some [] => self
      | Some (first :: _) =>
          tracking_param_state query_params
            (if String.eqb (lower first) "applovin"
             then SiteAnalyzer.set_event "land" true self else self) rest
      | None => tracking_param_state query_params self rest
      end
  end.

Definition static_failure_state (self : SiteAnalyzer.analyzer) (url : string)
    : SiteAnalyzer.analyzer :=
  let self := SiteAnalyzer.reset_flags self in
  match urlparse url with
  | None => self
  | Some parsed_url =>
      let query_params := parse_qs (query parsed_url) in
      let domain := lower (netloc parsed_url) in
      let self :=
        if str_in ".myshopify.com" domain || str_in "shopify.com" domain
        then SiteAnalyzer.set_content_indicator "shopify" true self
        else self in
      let self :=
        if bool_decide (is_Some (query_params !! "aleid"))
        then SiteAnalyzer.set_parameter_match "aleid" true self else self in
      let self :=
        if bool_decide (is_Some (query_params !! "alart"))
        then SiteAnalyzer.set_parameter_match "alart" true self else self in
      tracking_param_state query_params self
        ["utm_source"; "utm_medium"; "utm_campaign"]
  end.

(** [site] is an item of the [sites] value of sites.json.  The result is
    the exception that leaves the call, or the analyzer the call leaves
    and the dictionary it returns.  [prepare_url] runs before the [try]:
    its [TypeError] leaves the call, where an exception of the analysis
    gives the error dictionary.  In the static mode a prepared URL that is
    not a string makes [urlparse] raise, right after the [reset_flags] of
    [analyze_static]. *)
Definition analyze_single_site (config : TesterConfig)
    (self : SiteAnalyzer.analyzer) (site : pyval)
    : exn + SiteAnalyzer.analyzer * site_result :=
  match site with
  | PDict entry =>
      match PyVal.assoc_get "name" entry, PyVal.assoc_get "url" entry with
      | Some name, Some site_url =>
          let self := SiteAnalyzer.reset_flags self in
          match prepare_url_value site_url with
          | None => inl TypeError
          | Some url =>
              if static_analysis_only config then
                match url with
                | PStr u =>
                    match SiteAnalyzer.analyze_static self name u with
                    | Some (self, results) => inr (self, StaticResult results)
                    | None =>
                        inr (static_failure_state self u,
                             ErrorResult name url [])
                    end
                | _ =>
                    inr (SiteAnalyzer.reset_flags self, ErrorResult name url [])
                end
              else
                match browse config url self with
                | Browsed self warning failed_requests =>
                    let results :=
                      SiteAnalyzer.get_results self name url warning in
                    inr (self,
                         DynamicResult results
                           (match failed_requests with
                            | [] => None
                            | _ => Some failed_requests
                            end))
                | BrowseRaised self failed_requests =>
                    inr (self, ErrorResult name url failed_requests)
                end
          end
      | _, _ => inl ValueError
      end
  | _ => inl ValueError
  end.

(** The loop of [run_tests] over the site entries.  An exception leaves
    the loop: the results file is not written. *)
Fixpoint run_sites (config : TesterConfig) (self : SiteAnalyzer.analyzer)
    (sites : list pyval) (results : list site_result)
    : exn + list site_result :=
  match sites with
  | [] => inr results
  | site :: rest =>
      match analyze_single_site config self site with
      | inl e => inl e
      | inr (self, result) => run_sites config self rest (results ++ [result])
      end
  end.

(** [run_tests] from the value [json.load] returned for sites.json, up to
    the end of the loop. *)
Definition run_tests (config : TesterConfig) (self : SiteAnalyzer.analyzer)
    (sites_config : pyval) : exn + list site_result :=
  match sites_config with
  | PDict d =>
      match PyVal.assoc_get "sites" d with
      | Some sites =>
          match iterate sites with
          | Some sites => run_sites config self sites []
          | None => inl TypeError
          end
      | None => inl ValueError
      end
  | _ => inl ValueError
  end.

End with_lib.

End SiteTester.

(** ** src/utils/gen_matrix.py *)

Module GenMatrix.
Section with_lib.
Context `{!PyLib}.

(** The line feed. *)
Definition nl : string := String (Ascii.ascii_of_N 10) EmptyString.

Definition check_mark : string := "✅".
Definition cross_mark : string := "❌".

Definition bool_to_mark (value : pyval) : string :=
  if PyVal.truthy value then check_mark else cross_mark.

Definition headers : list string :=
  [ "Site"; "Shopify"; "Headless"; "Axon"; "GTM"; "GA"; "GA4"; "Land";
    "Page View"; "Page Viewed"; "ALEID"; "ALART"; "Axon Reqs"; "ALBSS Reqs";
    "AppLovin Reqs" ].

(** [sep.join(items)] *)
Fixpoint join (sep : string) (items : list string) : string :=
  match items with
  | [] => EmptyString
  | [x] => x
  | x :: rest => x +:+ sep +:+ join sep rest
  end.

(** [result.get(key, dflt)] on a dictionary. *)
Definition field (d : list (string * pyval)) (key : string) (dflt : pyval)
    : pyval :=
  default dflt (PyVal.assoc_get key d).

(** The cells of one data row.  [None] is an exception: the [TypeError]
    of subscripting a value that is not a dictionary, the [KeyError] of a
    missing [site], the [TypeError] of joining a [site] that is not a
    string. *)
Definition row (result : pyval) : option (list string) :=
  match result with
  | PDict d =>
      match PyVal.assoc_get "site" d with
      | Some (PStr site) =>
          Some [ site;
                 bool_to_mark (field d "is_shopify" (PBool false));
                 bool_to_mark (field d "is_headless_shopify" (PBool false));
                 bool_to_mark (field d "has_axon" (PBool false));
                 bool_to_mark (field d "has_gtm" (PBool false));
                 bool_to_mark (field d "has_ga" (PBool false));
                 bool_to_mark (field d "has_ga4" (PBool false));
                 bool_to_mark (field d "has_land_event" (PBool false));
                 bool_to_mark (field d "has_page_view_event" (PBool false));
                 bool_to_mark (field d "has_page_viewed_event" (PBool false));
                 bool_to_mark (field d "has_matching_aleid" (PBool false));
                 bool_to_mark (field d "has_matching_alart" (PBool false));
                 py_str (field d "has_axon_ai_requests" (PInt 0));
                 py_str (field d "has_albss_requests" (PInt 0));
                 py_str (field d "has_applovin_requests" (PInt 0)) ]
      | _ => None
      end
  | _ => None
  end.

Definition row_line (cells : list string) : string :=
  "| " +:+ join " | " cells +:+ " |".

(** The loop over the results, appending one line per result. *)
Fixpoint data_rows (results : list pyval) (matrix : list string)
    : option (list string) :=
  match results with
  | [] => Some matrix
  | result :: rest =>
      cells ← row result;
      data_rows rest (matrix ++ [row_line cells])
  end.

Definition summary : list string :=
  [ nl +:+ "## Summary" +:+ nl;
    "- " +:+ check_mark +:+ " = Feature detected";
    "- " +:+ cross_mark +:+ " = Feature not detected";
    "- Numbers indicate request count";
    nl +:+ "## Notes" +:+ nl;
    "- Shopify: Traditional Shopify implementation";
    "- Headless: Headless Shopify implementation";
    "- Axon: Axon pixel detected";
    "- GTM: Google Tag Manager";
    "- GA: Universal Analytics";
    "- GA4: Google Analytics 4";
    "- Land/Page View/Page Viewed: Tracking events";
    "- ALEID/ALART: Parameter matching";
    "- Reqs: Network requests count" ].

(** The header row: the three items [matrix] starts with. *)
Definition heading : list string :=
  [ "# Site Analysis Matrix" +:+ nl;
    "| " +:+ join " | " headers +:+ " |";
    "|" +:+ join "|" (map (λ _, "---") headers) +:+ "|" ].

(** The items of [matrix] that [generate_matrix] joins with line feeds. *)
Definition matrix_lines (results : list pyval) : option (list string) :=
  let matrix := heading in
  matrix ← data_rows results matrix;
  Some (matrix ++ summary).

Definition generate_matrix (results : list pyval) : option string :=
  matrix ← matrix_lines results;
  Some (join nl matrix).

End with_lib.
End GenMatrix.

(** ** An executable model of the runtime

    A reference instance of [PyLib] for running the analyzer on concrete
    inputs.  It follows CPython's [urllib.parse] and [json] on ASCII text:
    URLs without control characters, JSON with integer numerals and escapes
    below [0x80].  The general theorems below hold for every instance and do
    not depend on it. *)

Module PyModel.

Definition char (n : N) : ascii := Ascii.ascii_of_N n.
Definition code (c : ascii) : N := Ascii.N_of_ascii c.
Definition between (lo hi : N) (c : ascii) : bool :=
  ((lo <=? code c) && (code c <=? hi))%N.
Definition is_digit := between 48 57.
Definition is_alpha (c : ascii) : bool := between 65 90 c || between 97 122 c.
Definition is_char (n : N) (c : ascii) : bool := (code c =? n)%N.

(** [s.split(sep, 1)] for a one-character separator, when it occurs. *)
Fixpoint split_once (sep : ascii → bool) (s : string) : option (string * string) :=
  match s with
  | EmptyString => None
  | String c r =>
      if sep c then Some (EmptyString, r)
      else '(a, b) ← split_once sep r; Some (String c a, b)
  end.

(** [s.split(sep)] for a one-character separator. *)
Fixpoint split_all (sep : ascii → bool) (s : string) : list string :=
  match s with
  | EmptyString => [EmptyString]
  | String c r =>
      if sep c then EmptyString :: split_all sep r
      else match split_all sep r with
           | [] => [String c EmptyString]
           | w :: ws => String c w :: ws
           end
  end.

(** The text before the first character satisfying [stop], and the rest. *)
Fixpoint span_until (stop : ascii → bool) (s : string) : string * string :=
  match s with
  | EmptyString => (EmptyString, EmptyString)
  | String c r =>
      if stop c then (EmptyString, s)
      else let '(a, b) := span_until stop r in (String c a, b)
  end.

Fixpoint forallb_str (P : ascii → bool) (s : string) : bool :=
  match s with
  | EmptyString => true
  | String c r => P c && forallb_str P r
  end.

(** *** urllib.parse.urlsplit, the components the analyzer reads *)

Definition is_scheme_char (c : ascii) : bool :=
  is_alpha c || is_digit c || is_char 43 c || is_char 45 c || is_char 46 c.

Definition strip_scheme (url : string) : string :=
  match split_once (is_char 58) url with
  | Some (String c0 pre, rest) =>
      if is_alpha c0 && forallb_str is_scheme_char pre then rest else url
  | _ => url
  end.

Definition model_urlparse (url : string) : option ParseResult :=
  let url := strip_scheme url in
  let '(netloc, url) :=
    if startswith "//" url then
      span_until (λ c, is_char 47 c || is_char 63 c || is_char 35 c)
                 (String.substring 2 (String.length url) url)
    else (EmptyString, url) in
  if xorb (str_in "[" netloc) (str_in "]" netloc) then None
  else
    let url := match split_once (is_char 35) url with
               | Some (a, _) => a
               | None => url
               end in
    let query := match split_once (is_char 63) url with
                 | Some (_, q) => q
                 | None => EmptyString
                 end in
    Some {| netloc := netloc; query := query |}.

(** *** urllib.parse.parse_qs *)

Definition hex_value (c : ascii) : option N :=
  if is_digit c then Some (code c - 48)%N
  else if between 97 102 c then Some (code c - 87)%N
  else if between 65 70 c then Some (code c - 55)%N
  else None.

(** [urllib.parse.unquote] *)
Fixpoint unquote (s : string) : string :=
  match s with
  | String c (String h (String l r) as rest) =>
      match (if is_char 37 c then
               hi ← hex_value h; lo ← hex_value l; Some (char (16 * hi + lo))
             else None) with
      | Some b => String b (unquote r)
      | None => String c (unquote rest)
      end
  | String c r => String c (unquote r)
  | EmptyString => EmptyString
  end.

Fixpoint plus_to_space (s : string) : string :=
  match s with
  | EmptyString => EmptyString
  | String c r => String (if is_char 43 c then char 32 else c) (plus_to_space r)
  end.

Definition parse_qs_step (m : gmap string (list string)) (name_value : string)
    : gmap string (list string) :=
  match split_once (is_char 61) name_value with
  | Some (n, v) =>
      if nonempty v then
        let name := unquote (plus_to_space n) in
        let value := unquote (plus_to_space v) in
        <[name := default [] (m !! name) ++ [value]]> m
      else m
  | None => m
  end.

Definition model_parse_qs (qs : string) : gmap string (list string) :=
  foldl parse_qs_step ∅ (split_all (is_char 38) qs).

(** *** json.loads *)

Definition is_ws (c : ascii) : bool :=
  is_char 32 c || is_char 9 c || is_char 10 c || is_char 13 c.

Fixpoint skip_ws (s : string) : string :=
  match s with
  | String c r => if is_ws c then skip_ws r else s
  | EmptyString => s
  end.

(** [d[k] = v] on a dictionary kept in insertion order. *)
Fixpoint dict_set (k : string) (v : pyval) (d : list (string * pyval))
    : list (string * pyval) :=
  match d with
  | [] => [(k, v)]
  | (k', v') :: r =>
      if String.eqb k k' then (k, v) :: r else (k', v') :: dict_set k v r
  end.

(** The characters of a string literal after its opening quote. *)
Fixpoint scan_string (s : string) : option (string * string) :=
  match s with
  | EmptyString => None
  | String c r =>
      if is_char 34 c then Some (EmptyString, r)
      else if (code c <? 32)%N then None
      else if is_char 92 c then
        match r with
        | String e r' =>
            let simple (b : N) :=
              '(t, rest) ← scan_string r'; Some (String (char b) t, rest) in
            if is_char 34 e then simple 34%N
            else if is_char 92 e then simple 92%N
            else if is_char 47 e then simple 47%N
            else if is_char 98 e then simple 8%N
            else if is_char 102 e then simple 12%N
            else if is_char 110 e then simple 10%N
            else if is_char 114 e then simple 13%N
            else if is_char 116 e then simple 9%N
            else if is_char 117 e then
              match r' with
              | String h3 (String h2 (String h1 (String h0 r''))) =>
                  a ← hex_value h3; b ← hex_value h2;
                  c ← hex_value h1; d ← hex_value h0;
                  let n := (4096 * a + 256 * b + 16 * c + d)%N in
                  if (n <? 128)%N then
                    '(t, rest) ← scan_string r''; Some (String (char n) t, rest)
                  else None
              | _ => None
              end
            else None
        | EmptyString => None
        end
      else '(t, rest) ← scan_string r; Some (String c t, rest)
  end.

Fixpoint digits_value (s : string) (acc : N) : N :=
  match s with
  | EmptyString => acc
  | String c r => digits_value r (10 * acc + (code c - 48))%N
  end.

(** An integer numeral: an optional minus sign, then a single zero or a
    digit string without leading zero; a fraction or an exponent after it
    is outside the model. *)
Definition scan_int (s : string) : option (pyval * string) :=
  let '(neg, s) :=
    match s with
    | String c r => if is_char 45 c then (true, r) else (false, s)
    | EmptyString => (false, s)
    end in
  let '(ds, rest) := span_until (λ c, negb (is_digit c)) s in
  match ds with
  | EmptyString => None
  | String d0 more =>
      let ds' := if is_char 48 d0 then String d0 EmptyString else ds in
      let rest' := if is_char 48 d0 then more +:+ rest else rest in
      match rest' with
      | String c _ =>
          if is_char 46 c || is_char 101 c || is_char 69 c then None
          else Some (PInt (if neg then - Z.of_N (digits_value ds' 0)
                           else Z.of_N (digits_value ds' 0)), rest')
      | EmptyString =>
          Some (PInt (if neg then - Z.of_N (digits_value ds' 0)
                      else Z.of_N (digits_value ds' 0)), rest')
      end
  end.

Definition expect (lit : string) (v : pyval) (s : string)
    : option (pyval * string) :=
  if startswith lit s
  then Some (v, String.substring (String.length lit) (String.length s) s)
  else None.

Fixpoint scan_value (fuel : nat) (s : string) : option (pyval * string) :=
  match fuel with
  | O => None
  | S fuel =>
      match skip_ws s with
      | EmptyString => None
      | String c r as s' =>
          if is_char 123 c then
            match skip_ws r with
            | String c' r' as r0 =>
                if is_char 125 c' then Some (PDict [], r')
                else scan_members fuel r0 []
            | EmptyString => None
            end
          else if is_char 91 c then
            match skip_ws r with
            | String c' r' as r0 =>
                if is_char 93 c' then Some (PList [], r')
                else scan_elements fuel r0 []
            | EmptyString => None
            end
          else if is_char 34 c then
            '(t, rest) ← scan_string r; Some (PStr t, rest)
          else if is_char 116 c then expect "true" (PBool true) s'
          else if is_char 102 c then expect "false" (PBool false) s'
          else if is_char 110 c then expect "null" PNone s'
          else scan_int s'
      end
  end
with scan_elements (fuel : nat) (s : string) (acc : list pyval)
    : option (pyval * string) :=
  match fuel with
  | O => None
  | S fuel =>
      '(v, rest) ← scan_value fuel s;
      match skip_ws rest with
      | String c r =>
          if is_char 44 c then scan_elements fuel r (acc ++ [v])
          else if is_char 93 c then Some (PList (acc ++ [v]), r)
          else None
      | EmptyString => None
      end
  end
with scan_members (fuel : nat) (s : string) (acc : list (string * pyval))
    : option (pyval * string) :=
  match fuel with
  | O => None
  | S fuel =>
      match skip_ws s with
      | String q r =>
          if is_char 34 q then
            '(k, rest) ← scan_string r;
            match skip_ws rest with
            | String c r1 =>
                if is_char 58 c then
                  '(v, rest) ← scan_value fuel r1;
                  match skip_ws rest with
                  | String c r2 =>
                      if is_char 44 c
                      then scan_members fuel r2 (dict_set k v acc)
                      else if is_char 125 c
                      then Some (PDict (dict_set k v acc), r2)
                      else None
                  | EmptyString => None
                  end
                else None
            | EmptyString => None
            end
          else None
      | EmptyString => None
      end
  end.

Definition model_json_loads (s : string) : option pyval :=
  '(v, rest) ← scan_value (2 * String.length s + 2) s;
  match skip_ws rest with
  | EmptyString => Some v
  | String _ _ => None
  end.

(** *** The builtins [repr] and [str] *)

Definition hex_digit (n : N) : ascii :=
  if (n <? 10)%N then char (48 + n) else char (87 + n).

Fixpoint repr_chars (quote : N) (s : string) : string :=
  match s with
  | EmptyString => EmptyString
  | String c r =>
      let esc (e : N) := String (char 92) (String (char e) (repr_chars quote r)) in
      if is_char 92 c then esc 92%N
      else if is_char quote c then esc quote
      else if is_char 9 c then esc 116%N
      else if is_char 10 c then esc 110%N
      else if is_char 13 c then esc 114%N
      else if (code c <? 32)%N || is_char 127 c then
        String (char 92) (String (char 120)
          (String (hex_digit (code c / 16)) (String (hex_digit (code c mod 16))
             (repr_chars quote r))))
      else String c (repr_chars quote r)
  end.

(** [repr(s)] of a string: single quotes, unless the text has a single
    quote and no double quote. *)
Definition repr_str (s : string) : string :=
  let quote :=
    if str_in (String (char 39) EmptyString) s
       && negb (str_in (String (char 34) EmptyString) s)
    then 34%N else 39%N in
  String (char quote) (repr_chars quote s +:+ String (char quote) EmptyString).

Fixpoint join (sep : string) (l : list string) : string :=
  match l with
  | [] => EmptyString
  | [x] => x
  | x :: r => x +:+ sep +:+ join sep r
  end.

Fixpoint repr (v : pyval) : string :=
  match v with
  | PNone => "None"
  | PBool true => "True"
  | PBool false => "False"
  | PInt n => pretty n
  | PStr s => repr_str s
  | PList l => "[" +:+ join ", " (map repr l) +:+ "]"
  | PDict d =>
      "{" +:+ join ", " (map (λ kv, repr_str kv.1 +:+ ": " +:+ repr kv.2) d)
          +:+ "}"
  end.

Definition model_str (v : pyval) : string :=
  match v with
  | PStr s => s
  | _ => repr v
  end.

Definition lib : PyLib := {|
  json_loads := model_json_loads;
  urlparse := model_urlparse;
  parse_qs := model_parse_qs;
  py_str := model_str
|}.

End PyModel.

(** ** The session as a sequence of operations *)

Module Session.
Import SiteAnalyzer.

(** The calls a session receives between two [reset_flags]. *)
Inductive operation : Type :=
  | CheckPageContent (page : Page.t)
  | CheckRequest (request : Request.t)
  | CheckShopifyIndicators (page : Page.t) (response : option Response.t)
  | LogEventData (event_name : pyval) (version : string)
                 (art event_id : pyval) (url_alart url_aleid : string).

Definition apply `{!PyLib} (self : analyzer) (op : operation) : analyzer :=
  match op with
  | CheckPageContent page => check_page_content self page
  | CheckRequest request => check_request self request
  | CheckShopifyIndicators page response =>
      check_shopify_indicators self page response
  | LogEventData event_name version art event_id url_alart url_aleid =>
      log_event_data self event_name version art event_id url_alart url_aleid
  end.

Definition run `{!PyLib} (self : analyzer) (ops : list operation) : analyzer :=
  foldl apply self ops.

(** A flag bag grows: every key that is true stays true. *)
Definition flags_le (m m' : gmap string bool) : Prop :=
  ∀ k, m !! k = Some true → m' !! k = Some true.

(** The order on sessions under which the analyzer only moves upwards: the
    event, match and headless flags, and the [headless_shopify] verdict. *)
Record grows (s s' : analyzer) : Prop := {
  grows_events : flags_le (events s) (events s');
  grows_matches : flags_le (parameter_matches s) (parameter_matches s');
  grows_headless : flags_le (headless_indicators s) (headless_indicators s');
  grows_verdict :
    content_indicators s !! "headless_shopify" = Some true →
    content_indicators s' !! "headless_shopify" = Some true
}.

End Session.

(** ** Sample browser objects *)

Module Samples.

(** A page with the given URL and HTML, whose DOM holds the listed script
    and meta elements and matches no [link]/[script] Shopify selector. *)
Definition page (url html : string) (scripts metas : list Element.t) : Page.t :=
  {| Page.url := url;
     Page.content := Some html;
     Page.query_selector_all sel :=
       if String.eqb sel "script" then Some scripts
       else if String.eqb sel "meta" then Some metas
       else Some [];
     Page.query_selector _ := Some None |}.

(** [<script src=...>text</script>] *)
Definition script (src : option string) (text : string) : Element.t :=
  {| Element.get_attribute a := if String.eqb a "src" then src else None;
     Element.inner_text := Some text |}.

(** [<meta name=... content=...>] *)
Definition meta (name content : string) : Element.t :=
  {| Element.get_attribute a :=
       if String.eqb a "name" then Some name
       else if String.eqb a "content" then Some content
       else None;
     Element.inner_text := Some EmptyString |}.

Definition request (url method : string) (headers : list (string * string))
    (post_data : option string) (page_url : string) : Request.t :=
  {| Request.url := url;
     Request.method := method;
     Request.resource_type := "fetch";
     Request.headers := headers;
     Request.post_data := post_data;
     Request.frame_page_url := Some page_url |}.

(** A storefront that links to a partner shop and loads the GA4 tag. *)
Definition partner_page : Page.t :=
  page "https://example.com/"
       "<a href='https://partner.myshopify.com/'>partner</a><script>gtag('js')</script>"
       [script None "gtag('js')"] [].

(** The same site after the tag was removed. *)
Definition plain_page : Page.t :=
  page "https://example.com/" "<p>hello</p>" [] [].

(** A JSON string literal. *)
Definition quoted (s : string) : string :=
  Constants.dquote +:+ s +:+ Constants.dquote.

(** The v2 pixel body
    [{applovin: {art: A1, eventId: E1}, event: {name: page_view}}]. *)
Definition v2_body : string :=
  "{" +:+ quoted "applovin" +:+ ": {" +:+ quoted "art" +:+ ": " +:+ quoted "A1"
  +:+ ", " +:+ quoted "eventId" +:+ ": " +:+ quoted "E1" +:+ "}, "
  +:+ quoted "event" +:+ ": {" +:+ quoted "name" +:+ ": "
  +:+ quoted "page_view" +:+ "}}".

(** The v2 pixel request of a page opened with [alart=A1] and [aleid=E1]. *)
Definition v2_pixel : Request.t :=
  request "https://b.applovin.com/shopify/v2/pixel" "POST"
    [("content-type", "application/json")] (Some v2_body)
    "https://shop.example/?alart=A1&aleid=E1".

(** A beacon sent to the analytics host. *)
Definition axon_beacon : Request.t :=
  request "https://cdn.axon.ai/t.gif" "GET" [] None "https://shop.example/".

End Samples.

Import SiteAnalyzer Session Constants.

(** ** The vocabulary of the properties *)

(** A payload value and a URL value correlate: both are non-empty strings
    and they are equal. *)
Definition correlates (payload_value : pyval) (url_value : string) : Prop :=
  ∃ a, payload_value = PStr a ∧ a ≠ "" ∧ url_value ≠ "" ∧ a = url_value.

Definition test_parameters : string :=
  "alart=test_identifier1234&aleid=test_identifier5678".

(** The vendor data as C6 words it: [applovin] when the payload has that
    key, [axon] (or the empty dictionary) only when it has not. *)
Definition vendor_data_if_absent (d : list (string * pyval)) : pyval :=
  match PyVal.assoc_get "applovin" d with
  | Some v => v
  | None => default (PDict []) (PyVal.assoc_get "axon" d)
  end.

Module Headless.

Definition src_of (script : Element.t) : string :=
  default "" (Element.get_attribute script "src").

(** The signals one script element contributes: one per package path
    found in its [src], one if its text holds any script pattern. *)
Definition script_signals (script : Element.t) : nat :=
  Nat.b2n (str_in "@shopify/hydrogen" (src_of script))
  + Nat.b2n (str_in "@shopify/storefront-api" (src_of script))
  + Nat.b2n (str_in "shopify-buy" (src_of script))
  + match Element.inner_text script with
    | Some text =>
        Nat.b2n (existsb (λ p, str_in (lower p) (lower text))
                         (script_patterns HEADLESS_SHOPIFY_INDICATORS))
    | None => 0
    end.

Definition script_signal_count (scripts : list Element.t) : nat :=
  sum_list (script_signals <$> scripts).

(** The signals one meta element contributes: one per meta pattern found
    in its name or its content. *)
Definition meta_signals (meta : Element.t) : nat :=
  length
    (List.filter
       (λ p, str_in (lower p)
               (lower (default "" (Element.get_attribute meta "name")))
             || str_in (lower p)
                  (lower (default "" (Element.get_attribute meta "content"))))
       (meta_tags HEADLESS_SHOPIFY_INDICATORS)).

Definition meta_signal_count (metas : list Element.t) : nat :=
  sum_list (meta_signals <$> metas).

(** The sub-flags and the package path each one stands for. *)
Definition sub_flags : list (string * string) :=
  [ ("hydrogen", "@shopify/hydrogen");
    ("storefront_api", "@shopify/storefront-api");
    ("buy_sdk", "shopify-buy") ].

(** What the DOM queries of a page check return, an exception counting as
    no element. *)
Definition scripts_of (page : Page.t) : list Element.t :=
  default [] (Page.query_selector_all page "script").
Definition metas_of (page : Page.t) : list Element.t :=
  default [] (Page.query_selector_all page "meta").

End Headless.

Module ApiCheck.
Section with_lib.
Context `{!PyLib}.

(** Some API endpoint occurs in the lower-cased URL of the request. *)
Definition endpoint_match (request : Request.t) : bool :=
  existsb (λ e, str_in (lower e) (lower (Request.url request)))
          (api_endpoints HEADLESS_SHOPIFY_INDICATORS).

(** Some Shopify header name occurs in the lower-cased [str(headers)]. *)
Definition header_match (request : Request.t) : bool :=
  existsb (λ h, str_in (lower h)
                  (lower (str_headers (Request.headers request))))
          (request_headers HEADLESS_SHOPIFY_INDICATORS).

(** The record [_log_shopify_api_request] appends. *)
Definition api_record (request : Request.t) : request_info :=
  ApiRequest (Request.url request) (Request.method request)
             (Request.resource_type request) (Request.headers request).

End with_lib.
End ApiCheck.

(** One match: the flag is set and the record appended. *)
Definition log_match (request : Request.t) (s : analyzer) : analyzer :=
  append_request "shopify_api" (ApiCheck.api_record request)
    (set_headless_indicator "api_calls" true s).

(** Between [s] and [s'], at most [n] records were appended to the list of
    category [k], and none was removed. *)
Definition appends_to (k : string) (n : nat) (s s' : analyzer) : Prop :=
  ∃ extra, length extra ≤ n ∧
    network_requests s' !! k = (λ l, l ++ extra) <$> network_requests s !! k.

(** The category a domain of interest is filed under by [check_request]. *)
Definition category_of (domain : string) : option string :=
  if String.eqb domain "applovin.com" then Some "applovin"
  else if String.eqb domain "axon.ai" then Some "axon_ai"
  else if String.eqb domain "albss.com" then Some "albss"
  else None.

(** The categories [check_request] files domains of interest under. *)
Definition is_domain_category (k : string) : bool :=
  bool_decide (k = "applovin") || bool_decide (k = "axon_ai")
  || bool_decide (k = "albss").

(** A Storefront API call: the URL holds an API endpoint and the headers
    hold a Shopify header name. *)
Definition storefront_call : Request.t :=
  Samples.request "https://store.myshopify.com/api/graphql" "POST"
    [ ("content-type", "application/json");
      ("x-shopify-storefront-access-token", "0f3e") ]
    None "https://shop.example/".

Module Static.

(** The UTM parameters [analyze_static] looks at. *)
Definition utm_parameters : list string :=
  ["utm_source"; "utm_medium"; "utm_campaign"].

(** The first value of [param] in the query is [applovin], in any case. *)
Definition names_applovin (query_params : gmap string (list string))
    (param : string) : Prop :=
  ∃ v vs, query_params !! param = Some (v :: vs) ∧ lower v = "applovin".

Definition names_applovin_test (query_params : gmap string (list string))
    (param : string) : bool :=
  match query_params !! param with
  | Some (v :: _) => String.eqb (lower v) "applovin"
  | _ => false
  end.

End Static.

(** ** The vocabulary of the further properties *)

(** The domains of the registry. *)
Definition registry_domains : list string := DOMAINS_OF_INTEREST.*1.

(** The records [check_request] files under category [k] for a request
    with lower-cased URL [url]: one per registry domain of that category
    found in the URL. *)
Definition filed_under (k url : string) (request : Request.t)
    : list request_info :=
  flat_map
    (λ item : string * DomainInfo,
       if str_in item.1 url && bool_decide (category_of item.1 = Some k)
       then [DomainRequest url (Request.method request)
                           (Request.resource_type request) (critical item.2)]
       else [])
    DOMAINS_OF_INTEREST.

(** The condition under which [check_request] routes a request to the
    pixel procedure. *)
Definition is_pixel_request (request : Request.t) : bool :=
  str_in "https://b.applovin.com/" (lower (Request.url request))
  && str_in "pixel" (lower (Request.url request))
  && String.eqb (Request.method request) "POST".

(** The notification ends a request to URL [u]. *)
Definition completes (u : string) (ev : BrowserManager.event) : Prop :=
  match ev with
  | BrowserManager.Requested _ => False
  | BrowserManager.RequestFailed r _ | BrowserManager.RequestFinished r =>
      Request.url r = u
  end.

(** In the trace a request to [u] was started and no later notification
    ended a request to [u]. *)
Definition in_flight (u : string) (trace : list BrowserManager.event) : Prop :=
  ∃ pre r post,
    trace = pre ++ BrowserManager.Requested r :: post ∧ Request.url r = u ∧
    ∀ ev, ev ∈ post → ¬ completes u ev.

(** The error text [_handle_request_failed] records. *)
Definition failure_text (failure : option string) : string :=
  match failure with
  | Some text => if nonempty text then text else "Unknown error"
  | None => "Unknown error"
  end.

(** The failures of a trace that reach the failure list: those of requests
    whose lower-cased URL holds [applovin.com]. *)
Definition recorded_failures (trace : list BrowserManager.event)
    : list RequestHandlers.FailedRequestInfo :=
  flat_map
    (λ ev, match ev with
           | BrowserManager.RequestFailed r failure =>
               if str_in "applovin.com" (lower (Request.url r))
               then [RequestHandlers.create_failed_request_info r
                       (failure_text failure)]
               else []
           | _ => []
           end)
    trace.

(** The notifications delivered during one [load_page]. *)
Definition delivered (nav : BrowserManager.navigation)
    : list BrowserManager.event :=
  BrowserManager.goto_events nav
  ++ match BrowserManager.goto_outcome nav with
     | inr _ => BrowserManager.idle_events nav
     | inl _ => []
     end.

(** The keys [reset_flags] creates in the five dictionaries. *)
Definition content_keys : gset string :=
  list_to_set ["shopify"; "headless_shopify"; "axon"; "gtm"; "ga"; "ga4"].
Definition request_keys : gset string :=
  list_to_set ["axon_ai"; "albss"; "applovin"; "tracking"; "shopify_api"].
Definition event_keys : gset string :=
  list_to_set ["land"; "page_view"; "page_viewed"].
Definition match_keys : gset string := list_to_set ["aleid"; "alart"].
Definition headless_keys : gset string :=
  list_to_set ["api_calls"; "storefront_api"; "hydrogen"; "buy_sdk"].

(** The five dictionaries of a session hold exactly those keys. *)
Record well_keyed (s : analyzer) : Prop := {
  keys_content : dom (content_indicators s) = content_keys;
  keys_requests : dom (network_requests s) = request_keys;
  keys_events : dom (events s) = event_keys;
  keys_matches : dom (parameter_matches s) = match_keys;
  keys_headless : dom (headless_indicators s) = headless_keys
}.

(** The response names Shopify in its [server] header. *)
Definition server_says_shopify (response : option Response.t) : Prop :=
  ∃ r, response = Some r ∧
       occurs "shopify"
         (lower (default "" (PyVal.assoc_get "server" (Response.headers r)))).

(** The two selectors [check_shopify_indicators] probes the DOM with. *)
Definition link_selector : string :=
  "link[href*=" +:+ dquote +:+ "shopify" +:+ dquote +:+ "]".
Definition script_selector : string :=
  "script[src*=" +:+ dquote +:+ "shopify" +:+ dquote +:+ "]".

(** The event names [log_event_data] knows. *)
Definition known_events : list string := ["land"; "page_view"; "page_viewed"].

(** The request lists, the event flags and the match flags are the same. *)
Definition same_records (s s' : analyzer) : Prop :=
  network_requests s' = network_requests s ∧ events s' = events s ∧
  parameter_matches s' = parameter_matches s.

(** The query parameters [analyze_static] reports on. *)
Definition tracked_parameters : list string :=
  ["aleid"; "alart"; "utm_source"; "utm_medium"; "utm_campaign"].

(** The loop of [analyze_static] as far as [tracking_params] goes: a
    parameter present in the query is marked. *)
Definition mark_present (query_params : gmap string (list string))
    (tracking_params : gmap string bool) (param : string) : gmap string bool :=
  if bool_decide (is_Some (query_params !! param))
  then <[param := true]> tracking_params else tracking_params.

(** The [site] and [url] entries of a dictionary returned by
    [analyze_single_site]. *)
Definition result_site (r : SiteTester.site_result) : pyval :=
  match r with
  | SiteTester.StaticResult results => static_site results
  | SiteTester.DynamicResult results _ => site results
  | SiteTester.ErrorResult site _ _ => site
  end.

Definition result_url (r : SiteTester.site_result) : pyval :=
  match r with
  | SiteTester.StaticResult results => PStr (static_url results)
  | SiteTester.DynamicResult results _ => SiteAnalyzer.url results
  | SiteTester.ErrorResult _ url _ => url
  end.

(** A site entry is an object with a [name] and a [url]. *)
Definition has_name_and_url (site : pyval) : Prop :=
  ∃ entry, site = PDict entry ∧
    is_Some (PyVal.assoc_get "name" entry) ∧
    is_Some (PyVal.assoc_get "url" entry).

(** The values the operator [in] searches: strings, lists and
    dictionaries. *)
Definition searchable (v : pyval) : Prop :=
  match v with
  | PStr _ | PList _ | PDict _ => True
  | PNone | PBool _ | PInt _ => False
  end.

(** A site entry the tester analyses: an object with a [name] and a [url]
    whose [url] is a string, a list or a dictionary. *)
Definition analysable (site : pyval) : Prop :=
  ∃ entry name url, site = PDict entry ∧
    PyVal.assoc_get "name" entry = Some name ∧
    PyVal.assoc_get "url" entry = Some url ∧
    searchable url.

(** The result answers the site entry: it carries the entry's name and the
    prepared form of its URL, which for a string is [prepare_url] of it. *)
Definition answers `{!PyLib} (site : pyval) (r : SiteTester.site_result)
    : Prop :=
  ∃ entry url, site = PDict entry ∧
    PyVal.assoc_get "name" entry = Some (result_site r) ∧
    PyVal.assoc_get "url" entry = Some url ∧
    SiteTester.prepare_url_value url = Some (result_url r) ∧
    ∀ u, url = PStr u → result_url r = PStr (SiteTester.prepare_url u).

(** A result the matrix can render: an object whose [site] is a string. *)
Definition renderable (result : pyval) : Prop :=
  ∃ d site, result = PDict d ∧ PyVal.assoc_get "site" d = Some (PStr site).

(** The number of line feeds in a text: one less than the number of its
    lines. *)
Fixpoint line_feeds (s : string) : nat :=
  match s with
  | EmptyString => 0
  | String c rest =>
      (if Ascii.eqb c (Ascii.ascii_of_N 10) then 1 else 0) + line_feeds rest
  end.

(** The keys a data row reads besides [site]. *)
Definition matrix_keys : list string :=
  [ "is_shopify"; "is_headless_shopify"; "has_axon"; "has_gtm"; "has_ga";
    "has_ga4"; "has_land_event"; "has_page_view_event";
    "has_page_viewed_event"; "has_matching_aleid"; "has_matching_alart";
    "has_axon_ai_requests"; "has_albss_requests"; "has_applovin_requests" ].

(** * Properties *)

(** ** Facts on substrings *)

Section substring_facts.
Implicit Types p s a b : string.

Lemma append_nil_r s : s +:+ "" = s.
Proof. induction s as [|c s IH]; simpl; congruence. Qed.

Lemma append_assoc a b c : (a +:+ b) +:+ c = a +:+ (b +:+ c).
Proof. induction a as [|x a IH]; simpl; congruence. Qed.

Lemma startswith_iff p s : startswith p s = true ↔ ∃ r, s = p +:+ r.
Proof.
  revert s. induction p as [|a p IH]; intros s; simpl.
  - split; [intros _; by exists s | done].
  - destruct s as [|b s].
    + split; [done | intros [r Hr]; discriminate].
    + rewrite andb_true_iff, Ascii.eqb_eq, IH. split.
      * intros [-> [r ->]]. by exists r.
      * intros [r Hr]. injection Hr as -> ->. eauto.
Qed.

Lemma str_in_iff p s : str_in p s = true ↔ occurs p s.
Proof.
  unfold occurs. induction s as [|c s IH]; simpl.
  - rewrite orb_false_r, startswith_iff. split.
    + intros [r Hr]. by exists "", r.
    + intros [a [b Hab]]. destruct a; simpl in Hab; [by exists b | discriminate].
  - rewrite orb_true_iff, startswith_iff, IH. split.
    + intros [[r Hr] | [a [b Hab]]].
      * by exists "", r.
      * exists (String c a), b. simpl. by rewrite Hab.
    + intros [a [b Hab]]. destruct a as [|x a]; simpl in Hab.
      * left. by exists b.
      * right. injection Hab as _ ->. by exists a, b.
Qed.

Lemma str_in_false_iff p s : str_in p s = false ↔ ¬ occurs p s.
Proof. rewrite <- str_in_iff. by destruct (str_in p s). Qed.

Lemma occurs_trans p q s : occurs p q → occurs q s → occurs p s.
Proof.
  intros [a [b ->]] [c [d ->]]. exists (c +:+ a), (b +:+ d).
  by rewrite !append_assoc.
Qed.

Lemma str_in_trans p q s :
  str_in p q = true → str_in q s = true → str_in p s = true.
Proof. rewrite !str_in_iff. apply occurs_trans. Qed.

Lemma occurs_app_l p s t : occurs p s → occurs p (s +:+ t).
Proof.
  intros [a [b ->]]. exists a, (b +:+ t). by rewrite !append_assoc.
Qed.

Lemma occurs_app_r p s t : occurs p t → occurs p (s +:+ t).
Proof.
  intros [a [b ->]]. exists (s +:+ a), b. by rewrite !append_assoc.
Qed.

Lemma nonempty_true s : nonempty s = true ↔ s ≠ "".
Proof. by destruct s. Qed.

End substring_facts.

Section monotone.
Import SiteAnalyzer Session Constants.
Context `{!PyLib}.
Implicit Types (s self : analyzer) (m : gmap string bool).

Lemma flags_le_refl m : flags_le m m.
Proof. by intros k. Qed.

Lemma flags_le_insert_true m k : flags_le m (<[k := true]> m).
Proof.
  intros k' Hk'. destruct (decide (k = k')) as [->|Hne].
  - by rewrite lookup_insert_eq.
  - by rewrite lookup_insert_ne.
Qed.

Lemma grows_refl s : grows s s.
Proof. split; auto using flags_le_refl. Qed.

Lemma grows_trans s1 s2 s3 : grows s1 s2 → grows s2 s3 → grows s1 s3.
Proof.
  intros [He1 Hm1 Hh1 Hv1] [He2 Hm2 Hh2 Hv2].
  split; [intros k Hk .. | intros Hk]; auto.
Qed.

Lemma grows_set_event k s : grows s (set_event k true s).
Proof. split; simpl; auto using flags_le_refl, flags_le_insert_true. Qed.

Lemma grows_set_parameter_match k s : grows s (set_parameter_match k true s).
Proof. split; simpl; auto using flags_le_refl, flags_le_insert_true. Qed.

Lemma grows_set_headless_indicator k s :
  grows s (set_headless_indicator k true s).
Proof. split; simpl; auto using flags_le_refl, flags_le_insert_true. Qed.

Lemma grows_set_verdict s :
  grows s (set_content_indicator "headless_shopify" true s).
Proof.
  split; simpl; auto using flags_le_refl. intros _. by rewrite lookup_insert_eq.
Qed.

Lemma grows_set_other_indicator k v s :
  k ≠ "headless_shopify" → grows s (set_content_indicator k v s).
Proof.
  intros Hk. split; simpl; auto using flags_le_refl.
  by rewrite lookup_insert_ne.
Qed.

Lemma grows_append_request k r s : grows s (append_request k r s).
Proof. split; simpl; auto using flags_le_refl. Qed.

Lemma grows_foldl {A} (f : analyzer → A → analyzer) (l : list A) s :
  (∀ s x, x ∈ l → grows s (f s x)) → grows s (foldl f s l).
Proof.
  revert s. induction l as [|x l IH]; intros s Hf; simpl.
  - apply grows_refl.
  - eapply grows_trans; [apply Hf; left|].
    apply IH. intros s' y Hy. apply Hf. by right.
Qed.

Ltac grows_step :=
  repeat match goal with
  | |- grows ?s ?s => apply grows_refl
  | |- grows _ (if ?b then _ else _) => destruct b
  | |- grows _ (append_request _ _ _) =>
      eapply grows_trans; [|apply grows_append_request]
  | |- grows _ (set_event _ true _) =>
      eapply grows_trans; [|apply grows_set_event]
  | |- grows _ (set_parameter_match _ true _) =>
      eapply grows_trans; [|apply grows_set_parameter_match]
  | |- grows _ (set_headless_indicator _ true _) =>
      eapply grows_trans; [|apply grows_set_headless_indicator]
  | |- grows _ (set_content_indicator "headless_shopify" true _) =>
      eapply grows_trans; [|apply grows_set_verdict]
  end.

Lemma grows_log_event_data s event_name version art event_id ua ue :
  grows s (log_event_data s event_name version art event_id ua ue).
Proof. unfold log_event_data. grows_step. Qed.

Lemma grows_script_step st script :
  grows st.1 (script_step st script).1.
Proof.
  destruct st as [s n]. unfold script_step.
  repeat match goal with
  | |- context [if ?b then _ else _] => destruct b
  | |- context [match ?o with Some _ => _ | None => _ end] => destruct o
  end; simpl; grows_step.
Qed.

Lemma grows_scripts_loop scripts st :
  grows st.1 (foldl script_step st scripts).1.
Proof.
  revert st. induction scripts as [|x l IH]; intros st; simpl.
  - apply grows_refl.
  - eapply grows_trans; [apply grows_script_step | apply IH].
Qed.

Lemma grows_check_headless_shopify_scripts s page :
  grows s (_check_headless_shopify_scripts s page).
Proof.
  unfold _check_headless_shopify_scripts.
  destruct (Page.query_selector_all page "script") as [scripts|]; [|apply grows_refl].
  pose proof (grows_scripts_loop scripts (s, 0)) as Hloop.
  destruct (foldl script_step (s, 0) scripts) as [s' n]. simpl in Hloop.
  destruct (2 <=? n); [|done].
  eapply grows_trans; [exact Hloop | apply grows_set_verdict].
Qed.

Lemma grows_check_headless_shopify_meta_tags s page :
  grows s (_check_headless_shopify_meta_tags s page).
Proof.
  unfold _check_headless_shopify_meta_tags.
  destruct (Page.query_selector_all page "meta"); grows_step.
Qed.

Lemma tracking_indicator_keys item :
  item ∈ TRACKING_INDICATORS → item.1 ≠ "headless_shopify".
Proof.
  unfold TRACKING_INDICATORS. rewrite !elem_of_cons, elem_of_nil.
  intros [-> | [-> | [-> | [-> | [-> | []]]]]]; done.
Qed.

Lemma grows_check_page_content s page : grows s (check_page_content s page).
Proof.
  unfold check_page_content.
  destruct (Page.content page) as [text|]; [|apply grows_refl].
  eapply grows_trans; [|apply grows_check_headless_shopify_meta_tags].
  eapply grows_trans; [|apply grows_check_headless_shopify_scripts].
  apply grows_foldl. intros s' [k pats] Hin. simpl.
  apply grows_set_other_indicator. exact (tracking_indicator_keys _ Hin).
Qed.

Lemma grows_log_shopify_api_request s request :
  grows s (_log_shopify_api_request s request).
Proof. apply grows_append_request. Qed.

Lemma grows_endpoint_scan endpoints url request st :
  grows st.1 (endpoint_scan endpoints url request st).1.
Proof.
  induction endpoints as [|e l IH]; simpl; [apply grows_refl|].
  destruct (str_in (lower e) url); [|done].
  destruct st as [s n]; simpl. unfold _log_shopify_api_request. grows_step.
Qed.

Lemma grows_header_scan names headers request st :
  grows st.1 (header_scan names headers request st).1.
Proof.
  induction names as [|e l IH]; simpl; [apply grows_refl|].
  destruct (str_in (lower e) (lower (str_headers headers))); [|done].
  destruct st as [s n]; simpl. unfold _log_shopify_api_request. grows_step.
Qed.

Lemma grows_check_shopify_api_request s request :
  grows s (_check_shopify_api_request s request).
Proof.
  unfold _check_shopify_api_request.
  pose proof (grows_endpoint_scan (api_endpoints HEADLESS_SHOPIFY_INDICATORS)
    (lower (Request.url request)) request (s, 0)) as H1.
  destruct (endpoint_scan _ _ _ _) as [s1 n1] eqn:E1.
  pose proof (grows_header_scan (request_headers HEADLESS_SHOPIFY_INDICATORS)
    (Request.headers request) request (s1, n1)) as H2.
  destruct (header_scan _ _ _ _) as [s2 n2] eqn:E2. simpl in *.
  eapply grows_trans; [exact H1|]. eapply grows_trans; [exact H2|].
  grows_step.
Qed.

Lemma grows_process_pixel_request s request :
  grows s (_process_pixel_request s request).
Proof.
  unfold _process_pixel_request.
  destruct (pixel_request_body s request) as [s'|] eqn:E; [|apply grows_refl].
  unfold pixel_request_body in E.
  repeat match type of E with
  | Some _ = Some _ => injection E as <-
  | None = Some _ => discriminate E
  | mbind _ ?o = Some _ => destruct o as [?|]; simpl in E
  | (let '(_, _) := ?p in _) = Some _ => destruct p; simpl in E
  | match ?o with Some _ => _ | None => _ end = Some _ => destruct o; simpl in E
  | (if ?b then _ else _) = Some _ => destruct b; simpl in E
  end; auto using grows_refl, grows_log_event_data.
Qed.

Lemma grows_domain_step url request s item :
  grows s (domain_step url request s item).
Proof. destruct item as [d info]. unfold domain_step. grows_step. Qed.

Lemma grows_check_request s request : grows s (check_request s request).
Proof.
  unfold check_request.
  set (s' := foldl _ _ _).
  assert (grows s s') as Hs'.
  { subst s'. eapply grows_trans; [apply grows_check_shopify_api_request|].
    apply grows_foldl. intros. apply grows_domain_step. }
  destruct (_ && _); [|done].
  eapply grows_trans; [exact Hs' | apply grows_process_pixel_request].
Qed.

Lemma grows_check_shopify_indicators s page response :
  grows s (check_shopify_indicators s page response).
Proof.
  unfold check_shopify_indicators.
  destruct (shopify_indicators_body s page response) as [s'|] eqn:E;
    [|apply grows_refl].
  unfold shopify_indicators_body in E.
  repeat match type of E with
  | Some _ = Some _ => injection E as <-
  | None = Some _ => discriminate E
  | mbind _ ?o = Some _ => destruct o as [?|]; simpl in E
  | (if ?b then _ else _) = Some _ => destruct b; simpl in E
  end; by apply grows_set_other_indicator.
Qed.

Lemma grows_apply s op : grows s (apply s op).
Proof.
  destruct op; simpl;
    auto using grows_check_page_content, grows_check_request,
               grows_check_shopify_indicators, grows_log_event_data.
Qed.

End monotone.

(** ** C1: which flags are monotone *)

(** C1, as stated, fails: [check_page_content] assigns each tracking
    indicator the result of the current scan, and [check_shopify_indicators]
    assigns [shopify] the result of its DOM probes.  On one page, checked in
    the order the tester uses, [shopify] goes from true to false; a second
    content check of a page without the GA4 tag clears [ga4]. *)
Lemma content_indicator_cleared :
  let s1 := check_page_content init Samples.partner_page in
  let s2 := check_shopify_indicators s1 Samples.partner_page None in
  let s3 := check_page_content s2 Samples.plain_page in
  content_indicators s1 !! "shopify" = Some true ∧
  content_indicators s2 !! "shopify" = Some false ∧
  content_indicators s2 !! "ga4" = Some true ∧
  content_indicators s3 !! "ga4" = Some false.
Proof. vm_compute. done. Qed.

(** C1 (amended): across any sequence of [check_page_content],
    [check_request], [check_shopify_indicators] and [log_event_data] calls,
    from any session state, every flag of [events], [parameter_matches] and
    [headless_indicators], and the [headless_shopify] entry of
    [content_indicators], once true stays true. *)
Theorem session_flags_monotone `{!PyLib} (s : analyzer) (ops : list operation) :
  let s' := run s ops in
  (∀ k, events s !! k = Some true → events s' !! k = Some true) ∧
  (∀ k, parameter_matches s !! k = Some true →
        parameter_matches s' !! k = Some true) ∧
  (∀ k, headless_indicators s !! k = Some true →
        headless_indicators s' !! k = Some true) ∧
  (content_indicators s !! "headless_shopify" = Some true →
   content_indicators s' !! "headless_shopify" = Some true).
Proof.
  assert (grows s (run s ops)) as [He Hm Hh Hv].
  { apply grows_foldl. intros s1 op _. apply grows_apply. }
  by repeat split.
Qed.

Lemma session_flags_monotone_witness :
  let s1 := run (H := PyModel.lib) init
              [ LogEventData (PStr "land") "v1" (PStr "A1") (PStr "E1") "A1" "E1";
                CheckRequest (Samples.request
                  "https://store.myshopify.com/api/graphql" "POST"
                  [("x-shopify-storefront-access-token", "t")] None
                  "https://example.com/") ] in
  let s2 := run (H := PyModel.lib) s1
              [ CheckPageContent Samples.plain_page;
                CheckShopifyIndicators Samples.plain_page None;
                LogEventData (PStr "other") "v1" (PStr "") PNone "A1" "E1" ] in
  events s1 !! "land" = Some true ∧ events s2 !! "land" = Some true ∧
  parameter_matches s1 !! "alart" = Some true ∧
  parameter_matches s2 !! "alart" = Some true ∧
  headless_indicators s2 !! "api_calls" = Some true ∧
  content_indicators s2 !! "headless_shopify" = Some true.
Proof.
  intros s1 s2.
  pose proof (session_flags_monotone (H := PyModel.lib) s1
    [ CheckPageContent Samples.plain_page;
      CheckShopifyIndicators Samples.plain_page None;
      LogEventData (PStr "other") "v1" (PStr "") PNone "A1" "E1" ])
    as (He & Hm & Hh & Hv).
  assert (events s1 !! "land" = Some true) as E1 by (vm_compute; reflexivity).
  assert (parameter_matches s1 !! "alart" = Some true) as E2
    by (vm_compute; reflexivity).
  assert (headless_indicators s1 !! "api_calls" = Some true) as E3
    by (vm_compute; reflexivity).
  assert (content_indicators s1 !! "headless_shopify" = Some true) as E4
    by (vm_compute; reflexivity).
  exact (conj E1 (conj (He _ E1) (conj E2 (conj (Hm _ E2)
          (conj (Hh _ E3) (Hv E4)))))).
Defined.

(** ** C2: the parameter-match flags *)

Lemma correlates_test v u :
  PyVal.truthy v && nonempty u && PyVal.eq_str v u = true ↔ correlates v u.
Proof.
  unfold correlates. rewrite !andb_true_iff, !nonempty_true. split.
  - intros [[Hv Hu] He]. destruct v as [| | |a| |]; try discriminate He.
    simpl in *. apply String.eqb_eq in He. apply nonempty_true in Hv.
    by exists a.
  - intros (a & -> & Ha & Hu & ->). simpl.
    by rewrite nonempty_true, String.eqb_eq.
Qed.

Lemma log_event_data_parameter_matches `{!PyLib} s event_name version art
    event_id url_alart url_aleid :
  parameter_matches
    (log_event_data s event_name version art event_id url_alart url_aleid)
  = (if PyVal.truthy event_id && nonempty url_aleid
        && PyVal.eq_str event_id url_aleid
     then <["aleid" := true]> else id)
      ((if PyVal.truthy art && nonempty url_alart && PyVal.eq_str art url_alart
        then <["alart" := true]> else id) (parameter_matches s)).
Proof.
  unfold log_event_data.
  destruct (PyVal.eq_str event_name "land"),
           (PyVal.eq_str event_name "page_view"),
           (PyVal.eq_str event_name "page_viewed"),
           (PyVal.truthy art && nonempty url_alart), (PyVal.eq_str art url_alart),
           (PyVal.truthy event_id && nonempty url_aleid),
           (PyVal.eq_str event_id url_aleid); reflexivity.
Qed.

(** C2: [log_event_data] sets [parameter_matches['alart']] exactly when
    [art] and [url_alart] are both non-empty and equal as strings, and
    [parameter_matches['aleid']] exactly when [event_id] and [url_aleid]
    are; otherwise the flag keeps its value, so that in a fresh session it
    is true after the call if and only if the two sides correlate, and an
    empty side (empty against empty included) leaves it false. *)
Theorem log_event_data_correlation `{!PyLib} (s : analyzer)
    (event_name : pyval) (version : string) (art event_id : pyval)
    (url_alart url_aleid : string) :
  let s' := log_event_data s event_name version art event_id
                           url_alart url_aleid in
  let fresh := log_event_data (reset_flags s) event_name version art event_id
                              url_alart url_aleid in
  (correlates art url_alart → parameter_matches s' !! "alart" = Some true) ∧
  (¬ correlates art url_alart →
     parameter_matches s' !! "alart" = parameter_matches s !! "alart") ∧
  (correlates event_id url_aleid →
     parameter_matches s' !! "aleid" = Some true) ∧
  (¬ correlates event_id url_aleid →
     parameter_matches s' !! "aleid" = parameter_matches s !! "aleid") ∧
  (parameter_matches fresh !! "alart" = Some true ↔ correlates art url_alart) ∧
  (parameter_matches fresh !! "aleid" = Some true ↔ correlates event_id url_aleid) ∧
  (art = PStr "" ∨ url_alart = "" →
     parameter_matches fresh !! "alart" = Some false) ∧
  (event_id = PStr "" ∨ url_aleid = "" →
     parameter_matches fresh !! "aleid" = Some false).
Proof.
  intros s' fresh. subst s' fresh.
  rewrite !log_event_data_parameter_matches.
  pose proof (correlates_test art url_alart) as Ha.
  pose proof (correlates_test event_id url_aleid) as He.
  assert (¬ correlates (PStr "") url_alart) as Hn1
    by (intros (a & [= <-] & Hne & _); done).
  assert (¬ correlates art "") as Hn2 by (intros (a & _ & _ & Hne & _); done).
  assert (¬ correlates (PStr "") url_aleid) as Hn3
    by (intros (a & [= <-] & Hne & _); done).
  assert (¬ correlates event_id "") as Hn4
    by (intros (a & _ & _ & Hne & _); done).
  assert (parameter_matches (reset_flags s) !! "alart" = Some false) as Ra
    by reflexivity.
  assert (parameter_matches (reset_flags s) !! "aleid" = Some false) as Re
    by reflexivity.
  generalize dependent (parameter_matches (reset_flags s)). intros m0 Ra Re.
  destruct (PyVal.truthy art && nonempty url_alart && PyVal.eq_str art url_alart),
    (PyVal.truthy event_id && nonempty url_aleid
     && PyVal.eq_str event_id url_aleid); simpl;
    repeat (rewrite lookup_insert_eq || rewrite lookup_insert_ne by done);
    rewrite ?Ra, ?Re;
    intuition (subst; first [done | discriminate | tauto]).
Qed.

(** The whole chain on a v2 pixel request: the body is decoded, the page
    URL parameters are read, and both match flags and the event flag are
    set; the request is filed once under [applovin] and once under
    [tracking]. *)
Example check_request_v2_pixel :
  let s' := check_request (H := PyModel.lib) init Samples.v2_pixel in
  parameter_matches s' !! "alart" = Some true ∧
  parameter_matches s' !! "aleid" = Some true ∧
  events s' !! "page_view" = Some true ∧
  events s' !! "land" = Some false ∧
  network_requests s' !! "tracking"
    = Some [TrackingEvent "Axon Event: page_view"] ∧
  request_count "applovin" s' = 1.
Proof. vm_compute. done. Qed.

Lemma log_event_data_correlation_witness :
  let s1 := log_event_data (H := PyModel.lib) (reset_flags init)
              (PStr "page_view") "https://b.applovin.com/v2/pixel"
              (PStr "A1") (PStr "") "A1" "" in
  parameter_matches s1 !! "alart" = Some true ∧
  parameter_matches s1 !! "aleid" = Some false.
Proof.
  intros s1.
  pose proof (log_event_data_correlation (H := PyModel.lib) init
    (PStr "page_view") "https://b.applovin.com/v2/pixel"
    (PStr "A1") (PStr "") "A1" "") as (_ & _ & _ & _ & Ha & _ & _ & He).
  split.
  - apply Ha. exists "A1". by repeat split.
  - apply He. by right.
Defined.

(** ** C3: the headless verdict of a page check *)

Section headless.
Import Headless.
Implicit Types (s : analyzer) (n : nat).

Lemma inline_scan_count patterns text n :
  inline_scan patterns text n
  = n + Nat.b2n (existsb (λ p, str_in (lower p) text) patterns).
Proof.
  induction patterns as [|p l IH]; simpl; [lia|].
  destruct (str_in (lower p) text); simpl; [lia | exact IH].
Qed.

Lemma meta_scan_count patterns name content n :
  meta_scan patterns name content n
  = n + length (List.filter
                  (λ p, str_in (lower p) (lower name)
                        || str_in (lower p) (lower content)) patterns).
Proof.
  revert n. induction patterns as [|p l IH]; intros n; simpl; [lia|].
  rewrite IH. destruct (_ || _); simpl; lia.
Qed.

Lemma script_step_count s n script :
  (script_step (s, n) script).2 = n + script_signals script.
Proof.
  unfold script_step, script_signals, src_of.
  generalize (script_patterns HEADLESS_SHOPIFY_INDICATORS). intros pats.
  destruct (str_in "@shopify/hydrogen" _), (str_in "@shopify/storefront-api" _),
    (str_in "shopify-buy" _), (Element.inner_text script); simpl;
    rewrite ?inline_scan_count; lia.
Qed.

Lemma script_step_content s n script :
  content_indicators (script_step (s, n) script).1 = content_indicators s.
Proof.
  unfold script_step.
  destruct (str_in "@shopify/hydrogen" _), (str_in "@shopify/storefront-api" _),
    (str_in "shopify-buy" _), (Element.inner_text script); reflexivity.
Qed.

Lemma script_step_flag s n script flag pat :
  (flag, pat) ∈ sub_flags →
  headless_indicators (script_step (s, n) script).1 !! flag = Some true ↔
  headless_indicators s !! flag = Some true ∨
  str_in pat (src_of script) = true.
Proof.
  unfold sub_flags. rewrite !elem_of_cons, elem_of_nil.
  unfold script_step. fold (src_of script).
  intros [[= -> ->] | [[= -> ->] | [[= -> ->] | []]]];
    destruct (str_in "@shopify/hydrogen" _),
      (str_in "@shopify/storefront-api" _),
      (str_in "shopify-buy" _), (Element.inner_text script); simpl;
    repeat (rewrite lookup_insert_eq || rewrite lookup_insert_ne by done);
    intuition discriminate.
Qed.

Lemma script_signal_count_cons x l :
  script_signal_count (x :: l) = script_signals x + script_signal_count l.
Proof. reflexivity. Qed.

Lemma meta_signal_count_cons x l :
  meta_signal_count (x :: l) = meta_signals x + meta_signal_count l.
Proof. reflexivity. Qed.

Lemma scripts_loop s n scripts :
  let r := foldl script_step (s, n) scripts in
  r.2 = n + script_signal_count scripts ∧
  content_indicators r.1 = content_indicators s ∧
  ∀ flag pat, (flag, pat) ∈ sub_flags →
    headless_indicators r.1 !! flag = Some true ↔
    headless_indicators s !! flag = Some true ∨
    ∃ sc, sc ∈ scripts ∧ str_in pat (src_of sc) = true.
Proof.
  cbv zeta. revert s n.
  induction scripts as [|x l IH]; intros s n; cbn [foldl].
  - unfold script_signal_count; simpl. split; [lia|]. split; [done|].
    intros flag pat _. split; [by left|].
    intros [|(sc & Hsc & _)]; [done|]. by apply elem_of_nil in Hsc.
  - destruct (script_step (s, n) x) as [s1 n1] eqn:E.
    pose proof (script_step_count s n x) as Hn.
    pose proof (script_step_content s n x) as Hc.
    pose proof (script_step_flag s n x) as Hf.
    rewrite E in Hn, Hc, Hf. simpl in Hn, Hc, Hf.
    destruct (IH s1 n1) as (IHn & IHc & IHf).
    split; [|split].
    + rewrite IHn, Hn, script_signal_count_cons. lia.
    + by rewrite IHc.
    + intros flag pat Hin. rewrite (IHf flag pat Hin), (Hf flag pat Hin).
      split.
      * intros [[|]|(sc & Hsc & Hp)]; [by left | right | right].
        -- exists x. split; [left | done].
        -- exists sc. split; [by right | done].
      * intros [|(sc & Hsc & Hp)]; [by left; left|].
        apply elem_of_cons in Hsc as [->|Hsc]; [left; by right|].
        right. by exists sc.
Qed.

Lemma metas_loop n metas :
  foldl meta_step n metas = n + meta_signal_count metas.
Proof.
  revert n. induction metas as [|x l IH]; intros n; cbn [foldl].
  - unfold meta_signal_count; simpl. lia.
  - rewrite IH, meta_signal_count_cons. unfold meta_step.
    rewrite meta_scan_count. unfold meta_signals. lia.
Qed.

Lemma check_headless_shopify_scripts_spec s page :
  let s' := _check_headless_shopify_scripts s page in
  content_indicators s'
    = (if 2 <=? script_signal_count (scripts_of page)
       then <["headless_shopify" := true]> else id) (content_indicators s) ∧
  ∀ flag pat, (flag, pat) ∈ sub_flags →
    headless_indicators s' !! flag = Some true ↔
    headless_indicators s !! flag = Some true ∨
    ∃ sc, sc ∈ scripts_of page ∧ str_in pat (src_of sc) = true.
Proof.
  cbv zeta. unfold _check_headless_shopify_scripts, scripts_of.
  destruct (Page.query_selector_all page "script") as [scripts|].
  - change (default [] (Some scripts)) with scripts.
    destruct (scripts_loop s 0 scripts) as (Hn & Hc & Hf).
    destruct (foldl script_step (s, 0) scripts) as [s1 n1].
    cbn [fst snd Nat.add] in Hn, Hc, Hf. subst n1.
    destruct (2 <=? script_signal_count scripts); cbn [content_indicators
      headless_indicators set_content_indicator id]; rewrite ?Hc; split; done.
  - change (default [] None) with (@nil Element.t).
    change (2 <=? script_signal_count []) with false. cbv iota.
    split; [done|]. intros flag pat _. split; [by left|].
    intros [|(sc & Hsc & _)]; [done|]. by apply elem_of_nil in Hsc.
Qed.

Lemma check_headless_shopify_meta_tags_spec s page :
  let s' := _check_headless_shopify_meta_tags s page in
  content_indicators s'
    = (if 2 <=? meta_signal_count (metas_of page)
       then <["headless_shopify" := true]> else id) (content_indicators s) ∧
  headless_indicators s' = headless_indicators s.
Proof.
  cbv zeta. unfold _check_headless_shopify_meta_tags, metas_of.
  destruct (Page.query_selector_all page "meta") as [metas|]; [|done].
  change (default [] (Some metas)) with metas.
  rewrite metas_loop. cbn [Nat.add].
  by destruct (2 <=? meta_signal_count metas).
Qed.

Lemma indicators_loop text s items :
  (∀ item, item ∈ items → item.1 ≠ "headless_shopify") →
  let s' := foldl (indicator_step text) s items in
  headless_indicators s' = headless_indicators s ∧
  content_indicators s' !! "headless_shopify"
    = content_indicators s !! "headless_shopify".
Proof.
  cbv zeta. revert s. induction items as [|[k pats] l IH]; intros s Hk;
    cbn [foldl]; [done|].
  destruct (IH (indicator_step text s (k, pats))) as [Hh Hc].
  { intros item Hin. apply Hk. by right. }
  rewrite Hh, Hc. simpl. split; [done|].
  apply lookup_insert_ne. apply (Hk (k, pats)). by left.
Qed.

Lemma verdict_lookup (b : bool) (m : gmap string bool) :
  (if b then <["headless_shopify" := true]> else id) m !! "headless_shopify"
  = if b then Some true else m !! "headless_shopify".
Proof. destruct b; [apply lookup_insert_eq | done]. Qed.

Lemma indicators_loop_other text s items k :
  k ∉ items.*1 →
  content_indicators (foldl (indicator_step text) s items) !! k
  = content_indicators s !! k.
Proof.
  revert s. induction items as [|[k' pats'] l IH]; intros s Hk;
    cbn [foldl]; [done|].
  rewrite fmap_cons in Hk. apply not_elem_of_cons in Hk as [Hne Hk].
  rewrite IH by done. simpl. by apply lookup_insert_ne.
Qed.

Lemma indicators_loop_assigned text s items k pats :
  NoDup items.*1 → (k, pats) ∈ items →
  content_indicators (foldl (indicator_step text) s items) !! k
  = Some (existsb (λ p, str_in (lower p) text) pats).
Proof.
  revert s. induction items as [|[k' pats'] l IH]; intros s Hnd Hin;
    cbn [foldl].
  - by apply elem_of_nil in Hin.
  - rewrite fmap_cons in Hnd. apply NoDup_cons in Hnd as [Hk' Hnd].
    apply elem_of_cons in Hin as [[= <- <-]|Hin]; [|by apply IH].
    rewrite indicators_loop_other by done. simpl. apply lookup_insert_eq.
Qed.

(** What makes the tracking indicators non-monotone: a content check
    assigns each of them the result of its own scan. *)
Lemma check_page_content_assigns s page text k pats :
  Page.content page = Some text → (k, pats) ∈ TRACKING_INDICATORS →
  content_indicators (check_page_content s page) !! k
  = Some (existsb (λ p, str_in (lower p) (lower text)) pats).
Proof.
  intros Htext Hin. unfold check_page_content. rewrite Htext.
  pose proof (tracking_indicator_keys _ Hin) as Hk. simpl in Hk.
  set (s0 := foldl (indicator_step (lower text)) s TRACKING_INDICATORS).
  destruct (check_headless_shopify_scripts_spec s0 page) as [Hc1 _].
  set (s1 := _check_headless_shopify_scripts s0 page) in *.
  destruct (check_headless_shopify_meta_tags_spec s1 page) as [-> _].
  rewrite Hc1.
  assert (∀ (b : bool) (m : gmap string bool),
    (if b then <["headless_shopify" := true]> else id) m !! k = m !! k) as Hskip.
  { intros [] m; [by apply lookup_insert_ne | done]. }
  rewrite !Hskip. subst s0. apply indicators_loop_assigned; [|done].
  apply (bool_decide_unpack _). by vm_compute.
Qed.

End headless.

(** C3: a page content check sets [content_indicators['headless_shopify']]
    only when the script signals (package paths in [src], a pattern in the
    inline text) number at least 2, or the meta-tag signals number at least
    2, each tally on its own; with one script signal and fewer than two meta
    signals the flag keeps its value, false in a fresh session; and each of
    [hydrogen], [storefront_api] and [buy_sdk] is true after the check as
    soon as one script [src] holds its package path, whatever the tallies. *)
Theorem check_page_content_headless (s : analyzer) (page : Page.t) :
  let s' := check_page_content s page in
  let scripts := Headless.scripts_of page in
  let metas := Headless.metas_of page in
  (content_indicators s' !! "headless_shopify" = Some true ↔
     content_indicators s !! "headless_shopify" = Some true ∨
     (is_Some (Page.content page) ∧
      (2 ≤ Headless.script_signal_count scripts ∨
       2 ≤ Headless.meta_signal_count metas))) ∧
  (Headless.script_signal_count scripts = 1 →
   Headless.meta_signal_count metas < 2 →
   content_indicators s' !! "headless_shopify"
     = content_indicators s !! "headless_shopify") ∧
  (∀ flag pat, (flag, pat) ∈ Headless.sub_flags →
     headless_indicators s' !! flag = Some true ↔
     headless_indicators s !! flag = Some true ∨
     (is_Some (Page.content page) ∧
      ∃ sc, sc ∈ scripts ∧ occurs pat (Headless.src_of sc))).
Proof.
  cbv zeta. unfold check_page_content.
  destruct (Page.content page) as [text|].
  2:{ split; [|split]; [| done |].
      - split; [by left | intros [|[[? [=]] _]]; done].
      - intros flag pat _. split; [by left | intros [|[[? [=]] _]]; done]. }
  destruct (indicators_loop (lower text) s TRACKING_INDICATORS
              tracking_indicator_keys) as [Hh0 Hc0].
  set (s0 := foldl (indicator_step (lower text)) s TRACKING_INDICATORS) in *.
  destruct (check_headless_shopify_scripts_spec s0 page) as [Hc1 Hf1].
  set (s1 := _check_headless_shopify_scripts s0 page) in *.
  destruct (check_headless_shopify_meta_tags_spec s1 page) as [Hc2 Hh2].
  set (s2 := _check_headless_shopify_meta_tags s1 page) in *.
  assert (content_indicators s2 !! "headless_shopify"
          = if (2 <=? Headless.meta_signal_count (Headless.metas_of page))
               || (2 <=? Headless.script_signal_count (Headless.scripts_of page))
            then Some true else content_indicators s !! "headless_shopify")
    as Hv.
  { rewrite Hc2, verdict_lookup, Hc1, verdict_lookup, Hc0.
    by destruct (2 <=? Headless.meta_signal_count _). }
  split; [|split].
  - rewrite Hv. destruct (_ || _) eqn:E.
    + apply orb_true_iff in E. rewrite !Nat.leb_le in E.
      split; [intros _; right; split; [eauto | tauto] | done].
    + apply orb_false_iff in E. rewrite !Nat.leb_gt in E.
      split; [by left | intros [|[_ [|]]]; [done | lia | lia]].
  - intros Hs Hm. rewrite Hv.
    destruct (_ || _) eqn:E; [|done].
    apply orb_true_iff in E. rewrite !Nat.leb_le in E. lia.
  - intros flag pat Hin. rewrite Hh2, (Hf1 flag pat Hin), Hh0.
    setoid_rewrite str_in_iff.
    split; [intros [|]; [by left | right; eauto] | intros [|[_ ?]]; eauto].
Qed.

Lemma check_page_content_headless_witness :
  let one_signal :=
    Samples.page "https://shop.example/" "<html></html>"
      [Samples.script (Some "https://cdn.example/shopify-buy.js") ""]
      [Samples.meta "shopify-digital-wallet" "/wallets"] in
  let two_metas :=
    Samples.page "https://shop.example/" "<html></html>" []
      [ Samples.meta "shopify-digital-wallet" "/wallets";
        Samples.meta "shopify-checkout-api-token" "abc" ] in
  content_indicators (check_page_content init one_signal) !! "headless_shopify"
    = Some false ∧
  headless_indicators (check_page_content init one_signal) !! "buy_sdk"
    = Some true ∧
  content_indicators (check_page_content init two_metas) !! "headless_shopify"
    = Some true.
Proof.
  intros one_signal two_metas.
  destruct (check_page_content_headless init one_signal) as (_ & Hone & Hflag).
  destruct (check_page_content_headless init two_metas) as (Htwo & _ & _).
  split; [|split].
  - rewrite Hone; vm_compute; [reflexivity | reflexivity | lia].
  - apply (Hflag "buy_sdk" "shopify-buy"); [vm_compute; by right; right; left|].
    right. split; [by eexists|].
    exists (Samples.script (Some "https://cdn.example/shopify-buy.js") "").
    split; [by left|]. apply str_in_iff. vm_compute; reflexivity.
  - apply Htwo. right. split; [by eexists|]. right. vm_compute. lia.
Defined.

(** ** C4: the Shopify-API check of a request *)

Section api_check.
Import ApiCheck.
Context `{!PyLib}.
Implicit Types (s : analyzer) (n : nat).

Lemma endpoint_scan_spec endpoints url request s n :
  endpoint_scan endpoints url request (s, n)
  = if existsb (λ e, str_in (lower e) url) endpoints
    then (_log_shopify_api_request
            (set_headless_indicator "api_calls" true s) request, S n)
    else (s, n).
Proof.
  induction endpoints as [|e l IH]; simpl; [done|].
  by destruct (str_in (lower e) url).
Qed.

Lemma header_scan_spec names headers request s n :
  header_scan names headers request (s, n)
  = if existsb (λ h, str_in (lower h) (lower (str_headers headers))) names
    then (_log_shopify_api_request
            (set_headless_indicator "api_calls" true s) request, S n)
    else (s, n).
Proof.
  induction names as [|e l IH]; simpl; [done|].
  by destruct (str_in (lower e) (lower (str_headers headers))).
Qed.

Lemma check_shopify_api_request_spec s request :
  _check_shopify_api_request s request
  = let s1 := if endpoint_match request then log_match request s else s in
    let s2 := if header_match request then log_match request s1 else s1 in
    if endpoint_match request && header_match request
    then set_content_indicator "headless_shopify" true s2 else s2.
Proof.
  unfold _check_shopify_api_request, endpoint_match, header_match.
  rewrite endpoint_scan_spec.
  generalize (api_endpoints HEADLESS_SHOPIFY_INDICATORS).
  generalize (request_headers HEADLESS_SHOPIFY_INDICATORS). intros hs es.
  destruct (existsb _ es); rewrite header_scan_spec;
    destruct (existsb _ hs); reflexivity.
Qed.

Lemma endpoint_match_iff request :
  endpoint_match request = true ↔
  ∃ e, e ∈ api_endpoints HEADLESS_SHOPIFY_INDICATORS ∧
       occurs (lower e) (lower (Request.url request)).
Proof.
  unfold endpoint_match. rewrite existsb_exists.
  setoid_rewrite str_in_iff. by setoid_rewrite list_elem_of_In.
Qed.

Lemma header_match_iff request :
  header_match request = true ↔
  ∃ h, h ∈ request_headers HEADLESS_SHOPIFY_INDICATORS ∧
       occurs (lower h) (lower (str_headers (Request.headers request))).
Proof.
  unfold header_match. rewrite existsb_exists.
  setoid_rewrite str_in_iff. by setoid_rewrite list_elem_of_In.
Qed.

Lemma lookup_alter_app {A} (k : string) (x : list A) (m : gmap string (list A)) :
  alter (λ l, l ++ x) k m !! k = (λ l, l ++ x) <$> m !! k.
Proof. apply lookup_alter_eq. Qed.

End api_check.

(** C4: the Shopify-API check sets [headless_indicators['api_calls']] as
    soon as an endpoint substring occurs in the URL or a Shopify header name
    occurs in the stringified headers, and appends the request to
    [shopify_api] for each of the two matches; it sets
    [content_indicators['headless_shopify']] exactly when the request
    matches both an endpoint and a header name, and leaves the three
    entries as they were when nothing matches. *)
Theorem check_shopify_api_request_flags `{!PyLib} (s : analyzer)
    (request : Request.t) :
  let s' := _check_shopify_api_request s request in
  let e := ApiCheck.endpoint_match request in
  let h := ApiCheck.header_match request in
  headless_indicators s' !! "api_calls"
    = (if e || h then Some true else headless_indicators s !! "api_calls") ∧
  network_requests s' !! "shopify_api"
    = (λ l, l ++ replicate (Nat.b2n e + Nat.b2n h) (ApiCheck.api_record request))
        <$> network_requests s !! "shopify_api" ∧
  content_indicators s' !! "headless_shopify"
    = (if e && h then Some true
       else content_indicators s !! "headless_shopify").
Proof.
  cbv zeta. rewrite check_shopify_api_request_spec. unfold log_match.
  destruct (ApiCheck.endpoint_match request), (ApiCheck.header_match request);
    cbn [orb andb Nat.b2n Nat.add replicate content_indicators
         headless_indicators network_requests set_content_indicator
         set_headless_indicator append_request];
    rewrite ?lookup_alter_app, ?lookup_insert_eq;
    (split; [done|]); (split; [|done]);
    destruct (network_requests s !! "shopify_api") as [l|]; simpl;
    rewrite <- ?app_assoc, ?app_nil_r; done.
Qed.

Lemma check_shopify_api_request_flags_witness :
  let by_url := Samples.request "https://demo.Shopify.com/api/graphql" "POST"
                  [("content-type", "application/json")] None
                  "https://example.com/" in
  let s' := _check_shopify_api_request (H := PyModel.lib) init by_url in
  headless_indicators s' !! "api_calls" = Some true ∧
  network_requests s' !! "shopify_api" = Some [ApiCheck.api_record by_url] ∧
  content_indicators s' !! "headless_shopify" = Some false.
Proof.
  intros by_url s'. subst s'.
  destruct (check_shopify_api_request_flags (H := PyModel.lib) init by_url)
    as (Ha & Hn & Hc).
  split; [|split].
  - rewrite Ha. vm_compute; reflexivity.
  - rewrite Hn. vm_compute; reflexivity.
  - rewrite Hc. vm_compute; reflexivity.
Defined.

(** ** C5: how many records one request event appends *)

Section appends.
Context `{!PyLib}.
Implicit Types (s : analyzer) (k : string).

Lemma appends_to_same k s s' :
  network_requests s' = network_requests s → appends_to k 0 s s'.
Proof.
  intros E. exists []. split; [done|]. rewrite E.
  destruct (network_requests s !! k); simpl; by rewrite ?app_nil_r.
Qed.

Lemma appends_to_trans k n m s1 s2 s3 :
  appends_to k n s1 s2 → appends_to k m s2 s3 → appends_to k (n + m) s1 s3.
Proof.
  intros (x & Hx & E1) (y & Hy & E2). exists (x ++ y). split.
  - rewrite length_app. lia.
  - rewrite E2, E1. destruct (network_requests s1 !! k); simpl;
      by rewrite ?app_assoc.
Qed.

Lemma appends_to_append k k' r s :
  appends_to k (if bool_decide (k = k') then 1 else 0) s (append_request k' r s).
Proof.
  case_bool_decide as Hk.
  - subst k'. exists [r]. split; [done|]. simpl. apply lookup_alter_eq.
  - exists []. split; [done|]. simpl. rewrite lookup_alter_ne by done.
    destruct (network_requests s !! k); simpl; by rewrite ?app_nil_r.
Qed.

Lemma appends_to_weaken k n m s s' :
  n ≤ m → appends_to k n s s' → appends_to k m s s'.
Proof. intros Hnm (x & Hx & E). exists x. split; [lia | done]. Qed.

Lemma appends_to_domain_step k url request s item :
  appends_to k
    (if str_in item.1 url && bool_decide (category_of item.1 = Some k)
     then 1 else 0)
    s (domain_step url request s item).
Proof.
  destruct item as [d info]. unfold domain_step, category_of. simpl.
  destruct (str_in d url); simpl; [|by apply appends_to_same].
  destruct (String.eqb d "applovin.com");
    [|destruct (String.eqb d "axon.ai");
      [|destruct (String.eqb d "albss.com")]].
  - eapply appends_to_weaken; [|apply appends_to_append].
    repeat case_bool_decide; naive_solver lia.
  - eapply appends_to_weaken; [|apply appends_to_append].
    repeat case_bool_decide; naive_solver lia.
  - eapply appends_to_weaken; [|apply appends_to_append].
    repeat case_bool_decide; naive_solver lia.
  - by apply appends_to_same.
Qed.

Lemma appends_to_domains k url request s :
  appends_to k (if is_domain_category k then 1 else 0) s
    (foldl (domain_step url request) s DOMAINS_OF_INTEREST).
Proof.
  unfold DOMAINS_OF_INTEREST. cbn [foldl].
  set (a := ("applovin.com", _)). set (b := ("axon.ai", _)).
  set (c := ("albss.com", _)).
  pose proof (appends_to_domain_step k url request s a) as Ha.
  pose proof (appends_to_domain_step k url request
                (domain_step url request s a) b) as Hb.
  pose proof (appends_to_domain_step k url request
                (domain_step url request (domain_step url request s a) b) c) as Hc.
  eapply appends_to_weaken;
    [|exact (appends_to_trans _ _ _ _ _ _
               (appends_to_trans _ _ _ _ _ _ Ha Hb) Hc)].
  subst a b c. unfold is_domain_category. cbn [fst].
  change (category_of "applovin.com") with (Some "applovin").
  change (category_of "axon.ai") with (Some "axon_ai").
  change (category_of "albss.com") with (Some "albss").
  destruct (decide (k = "applovin")) as [->|N1];
    [|destruct (decide (k = "axon_ai")) as [->|N2];
      [|destruct (decide (k = "albss")) as [->|N3]]];
    repeat match goal with
    | |- context [bool_decide ?P] =>
        first [ rewrite (bool_decide_eq_true_2 P) by done
              | rewrite (bool_decide_eq_false_2 P) by congruence ]
    end;
    destruct (str_in "applovin.com" url), (str_in "axon.ai" url),
      (str_in "albss.com" url); simpl; lia.
Qed.

Lemma network_requests_log_event_data s event_name version art event_id ua ue :
  network_requests (log_event_data s event_name version art event_id ua ue)
  = alter (λ l, l ++ [TrackingEvent ("Axon Event: " +:+ py_str event_name)])
          "tracking" (network_requests s).
Proof.
  unfold log_event_data.
  destruct (PyVal.eq_str event_name "land"),
           (PyVal.eq_str event_name "page_view"),
           (PyVal.eq_str event_name "page_viewed"),
           (PyVal.truthy art && nonempty ua), (PyVal.eq_str art ua),
           (PyVal.truthy event_id && nonempty ue),
           (PyVal.eq_str event_id ue); reflexivity.
Qed.

Lemma appends_to_log_event_data k s event_name version art event_id ua ue :
  appends_to k (if bool_decide (k = "tracking") then 1 else 0) s
    (log_event_data s event_name version art event_id ua ue).
Proof.
  pose proof (appends_to_append k "tracking"
    (TrackingEvent ("Axon Event: " +:+ py_str event_name)) s)
    as (x & Hx & E).
  exists x. split; [done|].
  by rewrite network_requests_log_event_data.
Qed.

Lemma pixel_request_body_cases s request s' :
  pixel_request_body s request = Some s' →
  s' = s ∨
  ∃ event_name version art event_id ua ue,
    s' = log_event_data s event_name version art event_id ua ue.
Proof.
  unfold pixel_request_body. intros E.
  repeat match type of E with
  | Some _ = Some _ => injection E as <-
  | None = Some _ => discriminate E
  | mbind _ ?o = Some _ => destruct o as [?|]; simpl in E
  | (let '(_, _) := ?p in _) = Some _ => destruct p; simpl in E
  | match ?o with Some _ => _ | None => _ end = Some _ => destruct o; simpl in E
  | (if ?b then _ else _) = Some _ => destruct b; simpl in E
  end; eauto 10.
Qed.

Lemma appends_to_process_pixel_request k s request :
  appends_to k (if bool_decide (k = "tracking") then 1 else 0) s
    (_process_pixel_request s request).
Proof.
  unfold _process_pixel_request.
  destruct (pixel_request_body s request) as [s'|] eqn:E.
  - apply pixel_request_body_cases in E as [-> | (? & ? & ? & ? & ? & ? & ->)].
    + eapply appends_to_weaken; [|by apply appends_to_same]. lia.
    + apply appends_to_log_event_data.
  - eapply appends_to_weaken; [|by apply appends_to_same]. lia.
Qed.

Lemma appends_to_check_shopify_api_request k s request :
  appends_to k
    (if bool_decide (k = "shopify_api")
     then Nat.b2n (ApiCheck.endpoint_match request)
          + Nat.b2n (ApiCheck.header_match request)
     else 0)
    s (_check_shopify_api_request s request).
Proof.
  rewrite check_shopify_api_request_spec. unfold log_match. cbv zeta.
  set (r := ApiCheck.api_record request).
  pose proof (λ s, appends_to_append k "shopify_api" r s) as Happ.
  destruct (ApiCheck.endpoint_match request), (ApiCheck.header_match request);
    cbn [andb Nat.b2n Nat.add].
  - eapply appends_to_weaken;
      [|eapply appends_to_trans; [eapply appends_to_trans|]];
      [| apply (Happ (set_headless_indicator "api_calls" true s))
       | apply (Happ (set_headless_indicator "api_calls" true
                        (append_request "shopify_api" r
                           (set_headless_indicator "api_calls" true s))))
       | by apply appends_to_same ].
    case_bool_decide; lia.
  - eapply appends_to_weaken;
      [|apply (Happ (set_headless_indicator "api_calls" true s))].
    case_bool_decide; lia.
  - eapply appends_to_weaken;
      [|apply (Happ (set_headless_indicator "api_calls" true s))].
    case_bool_decide; lia.
  - eapply appends_to_weaken; [|by apply appends_to_same].
    case_bool_decide; lia.
Qed.

(** Every category but [shopify_api] receives at most one record from one
    request event; [shopify_api] receives at most two. *)
Lemma check_request_appends k s request :
  appends_to k (if bool_decide (k = "shopify_api") then 2 else 1) s
    (check_request s request).
Proof.
  unfold check_request.
  pose proof (appends_to_check_shopify_api_request k s request) as H1.
  set (s1 := _check_shopify_api_request s request) in *.
  pose proof (appends_to_domains k (lower (Request.url request)) request s1)
    as H2.
  set (s2 := foldl _ s1 _) in *.
  pose proof (appends_to_process_pixel_request k s2 request) as H3.
  destruct (_ && _).
  - eapply appends_to_weaken;
      [|exact (appends_to_trans _ _ _ _ _ _
                 (appends_to_trans _ _ _ _ _ _ H1 H2) H3)].
    unfold is_domain_category.
    destruct (ApiCheck.endpoint_match request),
      (ApiCheck.header_match request); simpl;
      repeat case_bool_decide; simplify_eq; simpl; lia.
  - eapply appends_to_weaken;
      [|exact (appends_to_trans _ _ _ _ _ _ H1 H2)].
    unfold is_domain_category.
    destruct (ApiCheck.endpoint_match request),
      (ApiCheck.header_match request); simpl;
      repeat case_bool_decide; simplify_eq; simpl; lia.
Qed.

End appends.

(** A request that matches both an endpoint and a header name is appended
    twice by the Shopify-API check. *)
Lemma check_shopify_api_request_logs_twice `{!PyLib} (s : analyzer)
    (request : Request.t) (l : list request_info) :
  ApiCheck.endpoint_match request = true →
  ApiCheck.header_match request = true →
  network_requests s !! "shopify_api" = Some l →
  network_requests (_check_shopify_api_request s request) !! "shopify_api"
    = Some (l ++ [ApiCheck.api_record request; ApiCheck.api_record request]).
Proof.
  intros He Hh Hl.
  rewrite check_shopify_api_request_spec, He, Hh. unfold log_match.
  cbn [andb network_requests set_content_indicator set_headless_indicator
       append_request].
  rewrite !lookup_alter_app, Hl. simpl. by rewrite <- app_assoc.
Qed.

(** C5 fails at this input: one request event of a fresh session leaves two
    records of the same request in [shopify_api], and the results count two
    API calls. *)
Theorem check_request_logs_twice :
  let s' := check_request (H := PyModel.lib) init storefront_call in
  network_requests s' !! "shopify_api"
    = Some [ ApiCheck.api_record storefront_call;
             ApiCheck.api_record storefront_call ] ∧
  api_calls_count
    (headless_shopify_details (get_results s' (PStr "shop") (PStr "u") None))
  = 2.
Proof. vm_compute. done. Qed.

(** ** C6: the v1 pixel format *)

(** C6, as stated, fails: a payload whose [applovin] entry is present but
    empty is answered with the [axon] entry. *)
Lemma parse_v1_request_empty_applovin :
  let d := [ ("name", PStr "land"); ("applovin", PDict []);
             ("axon", PDict [("art", PStr "A1")]) ] in
  PyVal.assoc_get "applovin" d = Some (PDict []) ∧
  RequestParser.parse_v1_request (PDict d)
    = Some (PStr "land", PDict [("art", PStr "A1")]) ∧
  RequestParser.parse_v1_request (PDict d)
    ≠ Some (PStr "land", vendor_data_if_absent d).
Proof. vm_compute. by repeat split. Qed.

(** C6 (amended): on a payload object, [parse_v1_request] returns the
    [name] entry (the empty string when missing) and, as vendor data, the
    [applovin] entry when it is present and truthy; when [applovin] is
    missing or falsy (empty object, null, empty string, zero, false, empty
    list) it returns the [axon] entry, or the empty object when [axon] is
    missing too.  On [{name: land, applovin: {art: A1, eventId: E1}}] the
    result is [(land, {art: A1, eventId: E1})]. *)
Theorem parse_v1_request_spec (d : list (string * pyval)) :
  ∃ event_name vendor,
    RequestParser.parse_v1_request (PDict d) = Some (event_name, vendor) ∧
    event_name = default (PStr "") (PyVal.assoc_get "name" d) ∧
    (∀ v, PyVal.assoc_get "applovin" d = Some v → PyVal.truthy v = true →
          vendor = v) ∧
    ((PyVal.assoc_get "applovin" d = None ∨
      ∃ v, PyVal.assoc_get "applovin" d = Some v ∧ PyVal.truthy v = false) →
     vendor = default (PDict []) (PyVal.assoc_get "axon" d)) ∧
    RequestParser.parse_v1_request
      (PDict [ ("name", PStr "land");
               ("applovin", PDict [("art", PStr "A1"); ("eventId", PStr "E1")]) ])
    = Some (PStr "land", PDict [("art", PStr "A1"); ("eventId", PStr "E1")]).
Proof.
  unfold RequestParser.parse_v1_request. simpl.
  destruct (PyVal.assoc_get "applovin" d) as [v|] eqn:Ea; simpl.
  - destruct (PyVal.truthy v) eqn:Et; simpl;
      eexists _, _; (split; [reflexivity|]); repeat split.
    + by intros ? [= ->].
    + intros [|(w & [= <-] & Hw)]; congruence.
    + intros w [= <-]. congruence.
  - eexists _, _; (split; [reflexivity|]); repeat split. intros ? [=].
Qed.

Lemma parse_v1_request_spec_witness :
  RequestParser.parse_v1_request
    (PDict [("name", PStr "page_view"); ("applovin", PStr "");
            ("axon", PDict [("eventId", PStr "E7")])])
  = Some (PStr "page_view", PDict [("eventId", PStr "E7")]).
Proof.
  destruct (parse_v1_request_spec
    [("name", PStr "page_view"); ("applovin", PStr "");
     ("axon", PDict [("eventId", PStr "E7")])])
    as (n & v & -> & -> & _ & Hv & _).
  rewrite Hv; [reflexivity|]. right. by exists (PStr "").
Defined.

(** ** C7: static analysis *)

Section static.
Import Static.
Context `{!PyLib}.
Implicit Types (s : analyzer) (qp : gmap string (list string)).

Lemma names_applovin_test_iff qp param :
  names_applovin_test qp param = true ↔ names_applovin qp param.
Proof.
  unfold names_applovin_test, names_applovin.
  destruct (qp !! param) as [[|v vs]|]; split;
    try discriminate; try (intros (? & ? & [=] & _); fail).
  - intros E%String.eqb_eq. by exists v, vs.
  - intros (? & ? & [= <- <-] & E). by apply String.eqb_eq.
Qed.

Lemma tracking_params_loop qp params s tp :
  (∀ k, qp !! k ≠ Some []) →
  ∃ s' tp',
    foldl (tracking_param_step qp) (Some (s, tp)) params = Some (s', tp') ∧
    content_indicators s' = content_indicators s ∧
    parameter_matches s' = parameter_matches s ∧
    events s' = (if existsb (names_applovin_test qp) params
                 then <["land" := true]> else id) (events s).
Proof.
  intros Hne. revert s tp.
  induction params as [|p l IH]; intros s tp; cbn [foldl existsb].
  - by exists s, tp.
  - unfold tracking_param_step at 2, names_applovin_test at 1. simpl.
    destruct (qp !! p) as [[|v vs]|] eqn:E; simpl.
    + by destruct (Hne p).
    + destruct (String.eqb (lower v) "applovin"); simpl.
      * destruct (IH (set_event "land" true s) (<[p := true]> tp))
          as (s' & tp' & -> & Hc & Hm & He).
        exists s', tp'. rewrite Hc, Hm, He. simpl.
        repeat split. destruct (existsb _ l); simpl; [|done].
        apply insert_insert_eq.
      * destruct (IH s (<[p := true]> tp)) as (s' & tp' & -> & Hc & Hm & He).
        by exists s', tp'.
    + destruct (IH s tp) as (s' & tp' & -> & Hc & Hm & He).
      by exists s', tp'.
Qed.

Lemma shopify_domain_test domain :
  str_in ".myshopify.com" domain || str_in "shopify.com" domain = true
  ↔ occurs "shopify.com" domain.
Proof.
  rewrite <- str_in_iff, orb_true_iff. split; [|by right].
  intros [Hm|]; [|done].
  eapply str_in_trans; [|exact Hm]. reflexivity.
Qed.

End static.

(** C7, as stated, fails: the comparison with [applovin] sits inside the
    loop over the three UTM parameters, so [utm_medium=applovin] alone
    flags the land event of a URL whose query has no [utm_source]. *)
Lemma analyze_static_land_without_utm_source :
  let url := "https://example.com/?utm_medium=applovin" in
  (parsed ← PyModel.model_urlparse url;
   Some (PyModel.model_parse_qs (query parsed) !! "utm_source")) = Some None ∧
  (event_land ∘ snd) <$> analyze_static (H := PyModel.lib) init (PStr "example") url
    = Some true.
Proof. vm_compute. done. Qed.

(** C7 (amended): when [urlparse] accepts the URL ([parse_qs] maps no key
    to an empty list of values), [analyze_static] returns
    a result whose land event is true if and only if the first value of
    [utm_source], [utm_medium] or [utm_campaign] in the query is [applovin]
    in any letter case, and whose shopify indicator is true if and only if
    [shopify.com] occurs in the lower-cased network location, hence whenever
    [myshopify.com] or [shopify.com] occurs in it. *)
Theorem analyze_static_spec `{!PyLib} (self : analyzer)
    (site_name : pyval) (url : string) (parsed : ParseResult) :
  urlparse url = Some parsed →
  (∀ k, parse_qs (query parsed) !! k ≠ Some []) →
  ∃ s' r,
    analyze_static self site_name url = Some (s', r) ∧
    (event_land r = true ↔
       ∃ param, param ∈ Static.utm_parameters ∧
                Static.names_applovin (parse_qs (query parsed)) param) ∧
    (indicator_shopify r = true ↔
       occurs "shopify.com" (lower (netloc parsed))) ∧
    (occurs "myshopify.com" (lower (netloc parsed)) ∨
     occurs "shopify.com" (lower (netloc parsed)) →
     indicator_shopify r = true).
Proof.
  intros Hurl Hne. unfold analyze_static. rewrite Hurl.
  cbn [mbind option_bind].
  set (qp := parse_qs (query parsed)) in *.
  set (d := lower (netloc parsed)).
  pose proof (shopify_domain_test d) as Hd.
  set (is_shop := str_in ".myshopify.com" d || str_in "shopify.com" d) in *.
  match goal with
  | |- context [foldl (tracking_param_step qp) (Some (?s0, ?tp0)) ?ps] =>
      destruct (tracking_params_loop qp ps s0 tp0 Hne)
        as (s' & tp' & -> & Hc & Hm & He)
  end.
  cbn [mbind option_bind]. eexists _, _. split; [reflexivity|].
  cbn [event_land indicator_shopify].
  assert (events s' !!! "land"
          = existsb (Static.names_applovin_test qp) Static.utm_parameters)
    as ->.
  { rewrite He. unfold Static.utm_parameters.
    destruct (existsb _ _), is_shop, (bool_decide (is_Some (qp !! "aleid"))),
      (bool_decide (is_Some (qp !! "alart"))); reflexivity. }
  assert (content_indicators s' !!! "shopify" = is_shop) as ->.
  { rewrite Hc.
    destruct is_shop, (bool_decide (is_Some (qp !! "aleid"))),
      (bool_decide (is_Some (qp !! "alart"))); reflexivity. }
  split; [|split].
  - rewrite existsb_exists. setoid_rewrite names_applovin_test_iff.
    setoid_rewrite <- list_elem_of_In. done.
  - exact Hd.
  - intros [Hm'|Hs]; apply Hd; [|done].
    eapply occurs_trans; [|exact Hm']. apply str_in_iff. reflexivity.
Qed.

Lemma analyze_static_spec_witness :
  ∃ s' r,
    analyze_static (H := PyModel.lib) init (PStr "shop")
      "https://shop.myshopify.com/?utm_source=applovin" = Some (s', r) ∧
    indicator_shopify r = true ∧ event_land r = true.
Proof.
  destruct (analyze_static_spec (H := PyModel.lib) init (PStr "shop")
    "https://shop.myshopify.com/?utm_source=applovin"
    {| netloc := "shop.myshopify.com"; query := "utm_source=applovin" |})
    as (s' & r & E & Hland & _ & Hshop).
  - vm_compute; reflexivity.
  - intros k. simpl. unfold PyModel.model_parse_qs. simpl.
    unfold PyModel.parse_qs_step. simpl. rewrite lookup_empty. simpl.
    destruct (decide (k = "utm_source")) as [->|Hk].
    + by rewrite lookup_insert_eq.
    + by rewrite lookup_insert_ne, lookup_empty.
  - exists s', r. split; [exact E|]. split.
    + apply Hshop. left. apply str_in_iff. vm_compute; reflexivity.
    + apply Hland. exists "utm_source". split; [by left|].
      exists "applovin", []. split; vm_compute; reflexivity.
Defined.

(** ** C8: a pixel request without a usable body *)

(** C8: when the POST body of a pixel request is absent or empty, or
    [json.loads] rejects it, [_process_pixel_request] returns and the session
    is the one it was called on: no flag and no request list has changed. *)
Theorem process_pixel_request_bad_body `{!PyLib} (s : analyzer)
    (request : Request.t) :
  Request.post_data request = None ∨
  Request.post_data request = Some "" ∨
  (∃ body, Request.post_data request = Some body ∧ json_loads body = None) →
  _process_pixel_request s request = s.
Proof.
  intros Hbody. unfold _process_pixel_request, pixel_request_body.
  destruct (Request.frame_page_url request) as [current_url|]; simpl; [|done].
  destruct (RequestParser.parse_url_parameters current_url) as [[ua ue]|];
    simpl; [|done].
  destruct Hbody as [-> | [-> | (body & -> & Hjson)]]; [done | done |].
  destruct (nonempty body); simpl; [|done].
  by rewrite Hjson.
Qed.

Lemma process_pixel_request_bad_body_witness :
  let absent := Samples.request "https://b.applovin.com/v1/pixel" "POST" []
                  None "https://example.com/?alart=A1&aleid=E1" in
  let broken := Samples.request "https://b.applovin.com/v1/pixel" "POST" []
                  (Some "{name: land") "https://example.com/?alart=A1&aleid=E1" in
  let s := run (H := PyModel.lib) init
             [LogEventData (PStr "land") "v1" (PStr "A1") PNone "A1" "E1"] in
  _process_pixel_request (H := PyModel.lib) s absent = s ∧
  _process_pixel_request (H := PyModel.lib) s broken = s.
Proof.
  intros absent broken s. split.
  - apply (process_pixel_request_bad_body (H := PyModel.lib)). by left.
  - apply (process_pixel_request_bad_body (H := PyModel.lib)). right. right.
    exists "{name: land". split; [reflexivity | vm_compute; reflexivity].
Defined.

(** ** C9: URL preparation *)

(** C9: a URL in which neither [aleid=] nor [alart=] occurs gets the test
    parameters appended, after [&] when [?] occurs in it and after [?]
    otherwise; a URL in which one of them occurs is returned as it is. *)
Theorem prepare_url_spec (url : string) :
  (¬ occurs "aleid=" url → ¬ occurs "alart=" url → occurs "?" url →
     SiteTester.prepare_url url = url +:+ "&" +:+ test_parameters) ∧
  (¬ occurs "aleid=" url → ¬ occurs "alart=" url → ¬ occurs "?" url →
     SiteTester.prepare_url url = url +:+ "?" +:+ test_parameters) ∧
  (occurs "aleid=" url ∨ occurs "alart=" url →
     SiteTester.prepare_url url = url).
Proof.
  unfold SiteTester.prepare_url, test_parameters.
  rewrite <- !str_in_false_iff, <- !str_in_iff.
  destruct (str_in "aleid=" url), (str_in "alart=" url), (str_in "?" url);
    simpl; intuition discriminate.
Qed.

Lemma prepare_url_spec_witness :
  SiteTester.prepare_url "https://example.com/shop?ref=1"
    = "https://example.com/shop?ref=1&alart=test_identifier1234&aleid=test_identifier5678" ∧
  SiteTester.prepare_url "https://example.com/"
    = "https://example.com/?alart=test_identifier1234&aleid=test_identifier5678" ∧
  SiteTester.prepare_url "https://example.com/?aleid=E1" = "https://example.com/?aleid=E1".
Proof.
  split; [|split].
  - apply (prepare_url_spec "https://example.com/shop?ref=1");
      try (apply str_in_false_iff; vm_compute; reflexivity).
    apply str_in_iff. vm_compute; reflexivity.
  - apply (prepare_url_spec "https://example.com/");
      apply str_in_false_iff; vm_compute; reflexivity.
  - apply (prepare_url_spec "https://example.com/?aleid=E1").
    left. apply str_in_iff. vm_compute; reflexivity.
Defined.

(** ** The keys of the session *)

Section keys.
Context `{!PyLib}.
Implicit Types (s : analyzer) (k : string).

Lemma dom_insert_known {A} (m : gmap string A) k v (K : gset string) :
  dom m = K → k ∈ K → dom (<[k := v]> m) = K.
Proof.
  intros <- Hk. rewrite dom_insert_L. apply subseteq_union_1_L.
  by apply singleton_subseteq_l.
Qed.

Lemma well_keyed_reset s : well_keyed (reset_flags s).
Proof.
  split; simpl; rewrite !dom_insert_L, dom_empty_L;
    unfold content_keys, request_keys, event_keys, match_keys, headless_keys;
    simpl; by rewrite !(right_id_L ∅ (∪)).
Qed.

Lemma well_keyed_set_content k v s :
  k ∈ content_keys → well_keyed s → well_keyed (set_content_indicator k v s).
Proof. intros Hk []. split; simpl; auto using dom_insert_known. Qed.

Lemma well_keyed_set_event k v s :
  k ∈ event_keys → well_keyed s → well_keyed (set_event k v s).
Proof. intros Hk []. split; simpl; auto using dom_insert_known. Qed.

Lemma well_keyed_set_match k v s :
  k ∈ match_keys → well_keyed s → well_keyed (set_parameter_match k v s).
Proof. intros Hk []. split; simpl; auto using dom_insert_known. Qed.

Lemma well_keyed_set_headless k v s :
  k ∈ headless_keys → well_keyed s → well_keyed (set_headless_indicator k v s).
Proof. intros Hk []. split; simpl; auto using dom_insert_known. Qed.

Lemma well_keyed_append k r s :
  well_keyed s → well_keyed (append_request k r s).
Proof. intros []. split; simpl; try done. by rewrite dom_alter_L. Qed.

Ltac well_keyed_step :=
  repeat match goal with
  | |- well_keyed (if ?b then _ else _) => destruct b
  | |- well_keyed (append_request _ _ _) => apply well_keyed_append
  | |- well_keyed (set_event _ _ _) =>
      apply well_keyed_set_event; [unfold event_keys; set_solver|]
  | |- well_keyed (set_parameter_match _ _ _) =>
      apply well_keyed_set_match; [unfold match_keys; set_solver|]
  | |- well_keyed (set_headless_indicator _ _ _) =>
      apply well_keyed_set_headless; [unfold headless_keys; set_solver|]
  | |- well_keyed (set_content_indicator _ _ _) =>
      apply well_keyed_set_content; [unfold content_keys; set_solver|]
  | |- well_keyed _ => assumption
  end.

Lemma well_keyed_log_event_data s event_name version art event_id ua ue :
  well_keyed s →
  well_keyed (log_event_data s event_name version art event_id ua ue).
Proof. intros Hs. unfold log_event_data. well_keyed_step. Qed.

Lemma well_keyed_foldl {A} (f : analyzer → A → analyzer) (l : list A) s :
  (∀ s x, x ∈ l → well_keyed s → well_keyed (f s x)) →
  well_keyed s → well_keyed (foldl f s l).
Proof.
  revert s. induction l as [|x l IH]; intros s Hf Hs; simpl; [done|].
  apply IH; [|apply Hf; [left | done]].
  intros s' y Hy. apply Hf. by right.
Qed.

Lemma well_keyed_script_step st script :
  well_keyed st.1 → well_keyed (script_step st script).1.
Proof.
  destruct st as [s n]. simpl. intros Hs. unfold script_step.
  repeat match goal with
  | |- context [if ?b then _ else _] => destruct b
  | |- context [match ?o with Some _ => _ | None => _ end] => destruct o
  end; simpl; well_keyed_step.
Qed.

Lemma well_keyed_scripts_loop scripts st :
  well_keyed st.1 → well_keyed (foldl script_step st scripts).1.
Proof.
  revert st. induction scripts as [|x l IH]; intros st Hs; simpl; [done|].
  by apply IH, well_keyed_script_step.
Qed.

Lemma well_keyed_check_page_content s page :
  well_keyed s → well_keyed (check_page_content s page).
Proof.
  intros Hs. unfold check_page_content.
  destruct (Page.content page) as [text|]; [|done].
  assert (well_keyed (foldl (indicator_step (lower text)) s TRACKING_INDICATORS))
    as H0.
  { apply well_keyed_foldl; [|done]. intros s' [k pats] Hin Hs'. simpl.
    apply well_keyed_set_content; [|done].
    unfold TRACKING_INDICATORS in Hin. unfold content_keys.
    rewrite !elem_of_cons, elem_of_nil in Hin.
    destruct Hin as [[= <- _]|[[= <- _]|[[= <- _]|[[= <- _]|[[= <- _]|[]]]]]];
      set_solver. }
  set (s0 := foldl _ s TRACKING_INDICATORS) in *.
  assert (well_keyed (_check_headless_shopify_scripts s0 page)) as H1.
  { unfold _check_headless_shopify_scripts.
    destruct (Page.query_selector_all page "script") as [scripts|]; [|done].
    pose proof (well_keyed_scripts_loop scripts (s0, 0) H0) as Hl.
    destruct (foldl script_step (s0, 0) scripts) as [s' n]. simpl in Hl.
    well_keyed_step. }
  unfold _check_headless_shopify_meta_tags.
  destruct (Page.query_selector_all page "meta"); well_keyed_step.
Qed.

Lemma well_keyed_check_request s request :
  well_keyed s → well_keyed (check_request s request).
Proof.
  intros Hs. unfold check_request.
  assert (well_keyed (_check_shopify_api_request s request)) as H1.
  { rewrite check_shopify_api_request_spec. unfold log_match. cbv zeta.
    well_keyed_step. }
  assert (well_keyed
            (foldl (domain_step (lower (Request.url request)) request)
               (_check_shopify_api_request s request) DOMAINS_OF_INTEREST))
    as H2.
  { apply well_keyed_foldl; [|done]. intros s' [d info] _ Hs'.
    unfold domain_step. well_keyed_step. }
  destruct (_ && _); [|done].
  unfold _process_pixel_request.
  destruct (pixel_request_body _ request) as [s'|] eqn:E; [|done].
  apply pixel_request_body_cases in E as [-> | (? & ? & ? & ? & ? & ? & ->)];
    [done|].
  by apply well_keyed_log_event_data.
Qed.

Lemma well_keyed_check_shopify_indicators s page response :
  well_keyed s → well_keyed (check_shopify_indicators s page response).
Proof.
  intros Hs. unfold check_shopify_indicators.
  destruct (shopify_indicators_body s page response) as [s'|] eqn:E; [|done].
  unfold shopify_indicators_body in E.
  repeat match type of E with
  | Some _ = Some _ => injection E as <-
  | None = Some _ => discriminate E
  | mbind _ ?o = Some _ => destruct o as [?|]; simpl in E
  | (if ?b then _ else _) = Some _ => destruct b; simpl in E
  end; well_keyed_step.
Qed.

Lemma well_keyed_apply s op : well_keyed s → well_keyed (Session.apply s op).
Proof.
  destruct op; simpl;
    auto using well_keyed_check_page_content, well_keyed_check_request,
               well_keyed_check_shopify_indicators, well_keyed_log_event_data.
Qed.

End keys.

(** ** C10: the request counters of the results *)

(** C10: in the dictionary built by [get_results], [has_axon_ai_requests],
    [has_albss_requests] and [has_applovin_requests] are the lengths of the
    [axon_ai], [albss] and [applovin] lists, and [api_calls_count] is the
    length of the [shopify_api] list.  This holds on any state that has the
    four lists, and every state of a session has them: [reset_flags]
    creates them and no operation removes one, so none of the four lookups
    of [get_results] fails.  Right after [reset_flags] the four lists are
    there and empty, and the four values are 0. *)
Theorem get_results_counts `{!PyLib} (s0 : analyzer) (ops : list operation)
    (site_name site_url : pyval) (warning : option string) :
  let s := run (reset_flags s0) ops in
  let r := get_results s site_name site_url warning in
  let r0 := get_results (reset_flags s) site_name site_url warning in
  (∃ axon_ai albss applovin shopify_api,
     network_requests s !! "axon_ai" = Some axon_ai ∧
     network_requests s !! "albss" = Some albss ∧
     network_requests s !! "applovin" = Some applovin ∧
     network_requests s !! "shopify_api" = Some shopify_api ∧
     has_axon_ai_requests r = length axon_ai ∧
     has_albss_requests r = length albss ∧
     has_applovin_requests r = length applovin ∧
     api_calls_count (headless_shopify_details r) = length shopify_api) ∧
  (network_requests (reset_flags s) !! "axon_ai" = Some [] ∧
   network_requests (reset_flags s) !! "albss" = Some [] ∧
   network_requests (reset_flags s) !! "applovin" = Some [] ∧
   network_requests (reset_flags s) !! "shopify_api" = Some []) ∧
  (has_axon_ai_requests r0 = 0 ∧ has_albss_requests r0 = 0 ∧
   has_applovin_requests r0 = 0 ∧
   api_calls_count (headless_shopify_details r0) = 0) ∧
  (∀ (s' : analyzer) axon_ai albss applovin shopify_api,
     network_requests s' !! "axon_ai" = Some axon_ai →
     network_requests s' !! "albss" = Some albss →
     network_requests s' !! "applovin" = Some applovin →
     network_requests s' !! "shopify_api" = Some shopify_api →
     let r' := get_results s' site_name site_url warning in
     has_axon_ai_requests r' = length axon_ai ∧
     has_albss_requests r' = length albss ∧
     has_applovin_requests r' = length applovin ∧
     api_calls_count (headless_shopify_details r') = length shopify_api).
Proof.
  cbv zeta.
  assert (∀ (s' : analyzer) axon_ai albss applovin shopify_api,
     network_requests s' !! "axon_ai" = Some axon_ai →
     network_requests s' !! "albss" = Some albss →
     network_requests s' !! "applovin" = Some applovin →
     network_requests s' !! "shopify_api" = Some shopify_api →
     has_axon_ai_requests (get_results s' site_name site_url warning)
       = length axon_ai ∧
     has_albss_requests (get_results s' site_name site_url warning)
       = length albss ∧
     has_applovin_requests (get_results s' site_name site_url warning)
       = length applovin ∧
     api_calls_count
       (headless_shopify_details (get_results s' site_name site_url warning))
       = length shopify_api) as Hlen.
  { intros s' l1 l2 l3 l4 H1 H2 H3 H4.
    cbn [get_results has_axon_ai_requests has_albss_requests
         has_applovin_requests headless_shopify_details api_calls_count].
    unfold request_count. by rewrite H1, H2, H3, H4. }
  assert (well_keyed (run (reset_flags s0) ops)) as [_ Hkeys _ _ _].
  { apply well_keyed_foldl; [|apply well_keyed_reset].
    intros s op _. apply well_keyed_apply. }
  assert (∀ k, k ∈ request_keys →
            is_Some (network_requests (run (reset_flags s0) ops) !! k))
    as Hsome.
  { intros k Hk. apply elem_of_dom. by rewrite Hkeys. }
  destruct (Hsome "axon_ai") as [l1 H1]; [unfold request_keys; set_solver|].
  destruct (Hsome "albss") as [l2 H2]; [unfold request_keys; set_solver|].
  destruct (Hsome "applovin") as [l3 H3]; [unfold request_keys; set_solver|].
  destruct (Hsome "shopify_api") as [l4 H4]; [unfold request_keys; set_solver|].
  split; [|split; [|split]].
  - exists l1, l2, l3, l4. pose proof (Hlen _ _ _ _ _ H1 H2 H3 H4). tauto.
  - by repeat split.
  - apply (Hlen (reset_flags _) [] [] [] []); reflexivity.
  - exact Hlen.
Qed.

(** Two beacons to the analytics host: the field holds the count 2. *)
Example get_results_counts_two :
  let s := run (H := PyModel.lib) init
             [ CheckRequest Samples.axon_beacon;
               CheckRequest Samples.axon_beacon ] in
  let r := get_results s (PStr "shop") (PStr "https://shop.example/") None in
  has_axon_ai_requests r = 2 ∧ has_applovin_requests r = 0.
Proof. vm_compute. done. Qed.

(** * Further properties *)

(** ** src/utils/request_handlers.py *)

Section request_handlers.
Import RequestHandlers.

Lemma domain_scan_interesting items url :
  (domain_scan items url).1 = true ↔ ∃ d, d ∈ items.*1 ∧ occurs d url.
Proof.
  induction items as [|[d info] l IH]; simpl.
  - split; [done | intros (d & Hd & _); by apply elem_of_nil in Hd].
  - destruct (str_in d url) eqn:E; simpl.
    + split; [intros _ | done]. exists d. split; [left | by apply str_in_iff].
    + rewrite IH. apply str_in_false_iff in E. split.
      * intros (d' & Hd' & Ho). exists d'. split; [by right | done].
      * intros (d' & Hd' & Ho). apply elem_of_cons in Hd' as [->|Hd']; [done|].
        by exists d'.
Qed.

End request_handlers.

(** X1: [is_domain_of_interest] reports a URL as interesting exactly when a
    registry domain occurs in its lower-cased text, and as critical exactly
    when [applovin.com] occurs in it: the registry lists the one critical
    domain first, so it wins over any other domain in the same URL. *)
Theorem is_domain_of_interest_spec (url : string) :
  ((RequestHandlers.is_domain_of_interest url).1 = true ↔
     ∃ d, d ∈ registry_domains ∧ occurs d (lower url)) ∧
  ((RequestHandlers.is_domain_of_interest url).2 = true ↔
     occurs "applovin.com" (lower url)) ∧
  ((RequestHandlers.is_domain_of_interest url).1 = false →
     (RequestHandlers.is_domain_of_interest url).2 = false).
Proof.
  unfold RequestHandlers.is_domain_of_interest. split; [|split].
  - apply domain_scan_interesting.
  - rewrite <- str_in_iff. unfold DOMAINS_OF_INTEREST. simpl.
    destruct (str_in "applovin.com" (lower url)),
      (str_in "axon.ai" (lower url)), (str_in "albss.com" (lower url));
      simpl; done.
  - unfold DOMAINS_OF_INTEREST. simpl.
    destruct (str_in "applovin.com" (lower url)),
      (str_in "axon.ai" (lower url)), (str_in "albss.com" (lower url));
      simpl; done.
Qed.

(** X2: [should_ignore_error] holds exactly when one of the four ignored
    error names occurs in the text, letter case included; so it never holds
    for the empty text, and an ignored text stays ignored inside any longer
    message. *)
Theorem should_ignore_error_spec (error_text : string) :
  (RequestHandlers.should_ignore_error error_text = true ↔
     ∃ err, err ∈ IGNORED_ERRORS ∧ occurs err error_text) ∧
  RequestHandlers.should_ignore_error "" = false ∧
  (∀ before after,
     RequestHandlers.should_ignore_error error_text = true →
     RequestHandlers.should_ignore_error (before +:+ error_text +:+ after)
       = true).
Proof.
  assert (∀ text, RequestHandlers.should_ignore_error text = true ↔
            ∃ err, err ∈ IGNORED_ERRORS ∧ occurs err text) as Hiff.
  { intros text. unfold RequestHandlers.should_ignore_error.
    rewrite existsb_exists. setoid_rewrite str_in_iff.
    by setoid_rewrite list_elem_of_In. }
  split; [apply Hiff|]. split; [reflexivity|].
  intros before after. rewrite !Hiff. intros (err & Hin & Ho).
  exists err. split; [done|].
  by apply occurs_app_r, occurs_app_l.
Qed.

(** ** src/browser/browser_manager.py *)

Section browser_manager.
Import RequestHandlers BrowserManager.
Implicit Types (bm : manager) (ev : event) (trace : list event) (u : string).

Lemma handle_request_failed_eq bm r failure :
  _handle_request_failed bm r failure
  = {| failed_requests :=
         failed_requests bm
         ++ (if str_in "applovin.com" (lower (Request.url r))
             then [create_failed_request_info r (failure_text failure)]
             else []);
       pending_requests := pending_requests bm ∖ {[Request.url r]} |}.
Proof.
  unfold _handle_request_failed, is_domain_of_interest, failure_text.
  unfold DOMAINS_OF_INTEREST. simpl.
  destruct (str_in "applovin.com" (lower (Request.url r))),
    (str_in "axon.ai" (lower (Request.url r))),
    (str_in "albss.com" (lower (Request.url r)));
    simpl; by rewrite ?app_nil_r.
Qed.

Lemma failed_requests_dispatch bm ev :
  failed_requests (dispatch bm ev) = failed_requests bm ++ recorded_failures [ev].
Proof.
  destruct ev as [r|r failure|r]; simpl; rewrite ?app_nil_r; try done.
  by rewrite handle_request_failed_eq.
Qed.

Lemma recorded_failures_cons ev trace :
  recorded_failures (ev :: trace)
  = recorded_failures [ev] ++ recorded_failures trace.
Proof. unfold recorded_failures. simpl. by rewrite app_nil_r. Qed.

Lemma failed_requests_trace bm trace :
  failed_requests (foldl dispatch bm trace)
  = failed_requests bm ++ recorded_failures trace.
Proof.
  revert bm. induction trace as [|ev l IH]; intros bm; cbn [foldl].
  - unfold recorded_failures. simpl. by rewrite app_nil_r.
  - rewrite IH, failed_requests_dispatch, (recorded_failures_cons ev l).
    by rewrite app_assoc.
Qed.

Lemma pending_dispatch bm ev u :
  u ∈ pending_requests (dispatch bm ev) ↔
  (∃ r, ev = Requested r ∧ Request.url r = u) ∨
  (u ∈ pending_requests bm ∧ ¬ completes u ev).
Proof.
  destruct ev as [r|r failure|r]; simpl;
    rewrite ?handle_request_failed_eq; simpl.
  - rewrite elem_of_union, elem_of_singleton. split.
    + intros [? | ->]; [right; tauto | left; eauto].
    + intros [(r' & [= <-] & <-)|[? _]]; tauto.
  - rewrite elem_of_difference, elem_of_singleton. split.
    + intros [? ?]. right. split; [done | congruence].
    + intros [(r' & [=] & _)|[? ?]]. split; [done | congruence].
  - rewrite elem_of_difference, elem_of_singleton. split.
    + intros [? ?]. right. split; [done | congruence].
    + intros [(r' & [=] & _)|[? ?]]. split; [done | congruence].
Qed.

Lemma in_flight_cons u ev trace :
  in_flight u (ev :: trace) ↔
  ((∃ r, ev = Requested r ∧ Request.url r = u) ∧
   ∀ ev', ev' ∈ trace → ¬ completes u ev') ∨
  in_flight u trace.
Proof.
  unfold in_flight. split.
  - intros (pre & r & post & E & Hu & Hpost). destruct pre as [|e pre].
    + injection E as -> ->. left. eauto.
    + injection E as -> ->. right. by exists pre, r, post.
  - intros [[(r & -> & Hu) Hpost] | (pre & r & post & -> & Hu & Hpost)].
    + by exists [], r, trace.
    + by exists (ev :: pre), r, post.
Qed.

Lemma pending_trace bm trace u :
  u ∈ pending_requests (foldl dispatch bm trace) ↔
  in_flight u trace ∨
  (u ∈ pending_requests bm ∧ ∀ ev, ev ∈ trace → ¬ completes u ev).
Proof.
  revert bm. induction trace as [|ev l IH]; intros bm; cbn [foldl].
  - split.
    + intros Hu. right. split; [done|]. intros ev Hev.
      by apply elem_of_nil in Hev.
    + intros [(pre & r & post & E & _)|[? _]]; [|done].
      by destruct pre.
  - rewrite IH, pending_dispatch, in_flight_cons. split.
    + intros [?|[[?|[? ?]] Hl]]; [tauto | tauto |].
      right. split; [done|]. intros ev' [->|?]%elem_of_cons; auto.
    + intros [[?|?]|[? Hall]]; [tauto | tauto |].
      right. split.
      * right. split; [done|]. apply Hall. by left.
      * intros ev' Hev'. apply Hall. by right.
Qed.

End browser_manager.

(** X3: [_handle_request_failed] always drops the URL from the pending
    set, and records the failure exactly when [applovin.com] occurs in the
    lower-cased URL: failures of the other domains of interest, which are
    not critical, are never recorded.  A missing or empty failure text is
    recorded as [Unknown error]. *)
Theorem handle_request_failed_spec (bm : BrowserManager.manager)
    (request : Request.t) (failure : option string) :
  let bm' := BrowserManager._handle_request_failed bm request failure in
  BrowserManager.pending_requests bm'
    = BrowserManager.pending_requests bm ∖ {[Request.url request]} ∧
  (occurs "applovin.com" (lower (Request.url request)) →
   BrowserManager.failed_requests bm'
     = BrowserManager.failed_requests bm
       ++ [RequestHandlers.create_failed_request_info request
             (failure_text failure)]) ∧
  (¬ occurs "applovin.com" (lower (Request.url request)) →
   BrowserManager.failed_requests bm' = BrowserManager.failed_requests bm) ∧
  failure_text None = "Unknown error" ∧
  failure_text (Some "") = "Unknown error".
Proof.
  cbv zeta. rewrite handle_request_failed_eq. simpl.
  rewrite <- str_in_false_iff, <- str_in_iff.
  destruct (str_in "applovin.com" (lower (Request.url request)));
    rewrite ?app_nil_r; repeat split; done.
Qed.

(** X4: after any trace of notifications, a URL is in the pending set
    exactly when a request to it was started and none to it has failed or
    finished since, or it was pending before and none to it has failed or
    finished.  The set holds URLs, not requests: the end of one request
    clears the URL for every other request to the same URL. *)
Theorem pending_requests_after_trace (bm : BrowserManager.manager)
    (trace : list BrowserManager.event) (u : string) :
  u ∈ BrowserManager.pending_requests (foldl BrowserManager.dispatch bm trace)
  ↔ in_flight u trace ∨
    (u ∈ BrowserManager.pending_requests bm ∧
     ∀ ev, ev ∈ trace → ¬ completes u ev).
Proof. apply pending_trace. Qed.

(** X5: [load_page] starts from an empty failure list and an empty pending
    set, so what it returns and the manager it leaves do not depend on the
    manager it was called on; the failure list it returns holds the
    failures delivered during this navigation for URLs with [applovin.com],
    in order of delivery, and is the list the manager keeps. *)
Theorem load_page_failures (bm bm' : BrowserManager.manager) (url : string)
    (nav : BrowserManager.navigation) :
  BrowserManager.load_page bm url nav = BrowserManager.load_page bm' url nav ∧
  (BrowserManager.load_page bm url nav).2.2 = recorded_failures (delivered nav) ∧
  BrowserManager.failed_requests (BrowserManager.load_page bm url nav).1
    = recorded_failures (delivered nav).
Proof.
  split; [reflexivity|].
  unfold BrowserManager.load_page, delivered.
  destruct (BrowserManager.goto_outcome nav) as [e|response]; simpl.
  - rewrite failed_requests_trace, app_nil_r. done.
  - assert (BrowserManager.failed_requests
              (foldl BrowserManager.dispatch
                 (foldl BrowserManager.dispatch
                    {| BrowserManager.failed_requests := [];
                       BrowserManager.pending_requests := ∅ |}
                    (BrowserManager.goto_events nav))
                 (BrowserManager.idle_events nav))
            = recorded_failures
                (BrowserManager.goto_events nav ++ BrowserManager.idle_events nav))
      as E.
    { rewrite <- foldl_app, failed_requests_trace. done. }
    destruct (BrowserManager.idle_outcome nav) as [e|]; [|by rewrite !E].
    case_bool_decide; simpl; by rewrite !E.
Qed.

(** X6: [load_page] warns with a page-load message and returns no response
    whenever [goto] raises; when [goto] returns and the idle wait does too,
    it returns the response without warning; when the idle wait raises, it
    warns exactly when some URL holding a domain of interest is still in
    flight among the notifications of this navigation. *)
Theorem load_page_warning (bm : BrowserManager.manager) (url : string)
    (nav : BrowserManager.navigation) :
  let '(warning, response, _) := (BrowserManager.load_page bm url nav).2 in
  match BrowserManager.goto_outcome nav, BrowserManager.idle_outcome nav with
  | inl e, _ => warning = Some ("Page load timeout: " +:+ e) ∧ response = None
  | inr r, None => warning = None ∧ response = r
  | inr r, Some e =>
      response = r ∧
      (is_Some warning ↔
       ∃ u, in_flight u (delivered nav) ∧
            ∃ d, d ∈ registry_domains ∧ occurs d (lower u))
  end.
Proof.
  unfold BrowserManager.load_page, delivered.
  destruct (BrowserManager.goto_outcome nav) as [e|r]; simpl; [done|].
  destruct (BrowserManager.idle_outcome nav) as [e|]; simpl; [|done].
  rewrite <- foldl_app.
  set (trace := BrowserManager.goto_events nav ++ BrowserManager.idle_events nav).
  set (pending := BrowserManager.pending_requests _).
  assert ((∃ u, u ∈ BrowserManager.important_pending pending) ↔
          ∃ u, in_flight u trace ∧
               ∃ d, d ∈ registry_domains ∧ occurs d (lower u)) as Himp.
  { unfold BrowserManager.important_pending.
    setoid_rewrite elem_of_filter. subst pending.
    setoid_rewrite pending_trace. setoid_rewrite existsb_exists.
    setoid_rewrite str_in_iff. unfold registry_domains. split.
    - intros (u & ([d info] & Hin & Ho) & [?|[Hu _]]); [|by simpl in Hu].
      exists u. split; [done|]. exists d. split; [|done].
      apply list_elem_of_In in Hin. apply list_elem_of_fmap.
      by exists (d, info).
    - intros (u & Hfl & d & Hd & Ho). exists u. split; [|by left].
      apply list_elem_of_fmap in Hd as ([d' info] & -> & Hin).
      exists (d', info). split; [by apply list_elem_of_In | done]. }
  case_bool_decide as Hne; simpl.
  - split; [done|]. split; [intros _ | by eauto].
    apply Himp. by apply set_choose_L.
  - split; [done|]. split; [by intros [? [=]]|].
    intros Hex. apply Himp in Hex as [u Hu].
    rewrite Hne in Hu. by apply elem_of_empty in Hu.
Qed.

(** ** src/parsers/request_parser.py *)

(** X7: [parse_v2_request] returns exactly when the payload is an object
    whose [applovin] and [event] entries, where present, are objects too (a
    [null] or a string there raises); it then returns the [name] of
    [event] and the [art] and [eventId] of [applovin], each the empty
    string when missing, so the empty object gives three empty strings. *)
Theorem parse_v2_request_spec (payload : pyval) :
  (is_Some (RequestParser.parse_v2_request payload) ↔
     ∃ d a e, payload = PDict d ∧
       default (PDict []) (PyVal.assoc_get "applovin" d) = PDict a ∧
       default (PDict []) (PyVal.assoc_get "event" d) = PDict e) ∧
  (∀ d a e, payload = PDict d →
     default (PDict []) (PyVal.assoc_get "applovin" d) = PDict a →
     default (PDict []) (PyVal.assoc_get "event" d) = PDict e →
     RequestParser.parse_v2_request payload
       = Some (default (PStr "") (PyVal.assoc_get "name" e),
               default (PStr "") (PyVal.assoc_get "art" a),
               default (PStr "") (PyVal.assoc_get "eventId" a))) ∧
  RequestParser.parse_v2_request (PDict []) = Some (PStr "", PStr "", PStr "").
Proof.
  assert (∀ d, RequestParser.parse_v2_request (PDict d)
               = match default (PDict []) (PyVal.assoc_get "applovin" d),
                       default (PDict []) (PyVal.assoc_get "event" d) with
                 | PDict a, PDict e =>
                     Some (default (PStr "") (PyVal.assoc_get "name" e),
                           default (PStr "") (PyVal.assoc_get "art" a),
                           default (PStr "") (PyVal.assoc_get "eventId" a))
                 | _, _ => None
                 end) as Hdict.
  { intros d. unfold RequestParser.parse_v2_request.
    cbn [PyVal.get mbind option_bind].
    generalize (default (PDict []) (PyVal.assoc_get "applovin" d)).
    generalize (default (PDict []) (PyVal.assoc_get "event" d)).
    intros [| | | | |e] [| | | | |a]; reflexivity. }
  split; [|split; [|reflexivity]].
  - split.
    + destruct payload as [| | | | |d]; try by intros [? [=]].
      rewrite Hdict.
      destruct (default (PDict []) (PyVal.assoc_get "applovin" d))
        as [| | | | |a] eqn:Ea; try by intros [? [=]].
      destruct (default (PDict []) (PyVal.assoc_get "event" d))
        as [| | | | |e] eqn:Ee; try by intros [? [=]].
      intros _. by exists d, a, e.
    + intros (d & a & e & -> & Ea & Ee). rewrite Hdict, Ea, Ee. eauto.
  - intros d a e -> Ea Ee. by rewrite Hdict, Ea, Ee.
Qed.

(** X8: the two pixel formats agree on the identifiers when the payload
    carries a non-empty [applovin] object: whatever [parse_v2_request]
    returns as [art] and [eventId] is what the v1 path reads from the
    vendor data of [parse_v1_request].  They differ without [applovin]: the
    v1 path then reads the [axon] object, the v2 path returns empty
    strings. *)
Theorem parse_v1_v2_identifiers (d : list (string * pyval)) :
  (∀ a name art event_id,
     PyVal.assoc_get "applovin" d = Some (PDict a) → a ≠ [] →
     RequestParser.parse_v2_request (PDict d) = Some (name, art, event_id) →
     ∃ name1,
       RequestParser.parse_v1_request (PDict d) = Some (name1, PDict a) ∧
       PyVal.get (PDict a) "art" (PStr "") = Some art ∧
       PyVal.get (PDict a) "eventId" (PStr "") = Some event_id) ∧
  (∀ name art event_id,
     PyVal.assoc_get "applovin" d = None →
     RequestParser.parse_v2_request (PDict d) = Some (name, art, event_id) →
     art = PStr "" ∧ event_id = PStr "" ∧
     ∃ name1,
       RequestParser.parse_v1_request (PDict d)
       = Some (name1, default (PDict []) (PyVal.assoc_get "axon" d))).
Proof.
  unfold RequestParser.parse_v2_request, RequestParser.parse_v1_request.
  cbn [PyVal.get mbind option_bind]. split.
  - intros a name art event_id Ha Hne. rewrite Ha.
    cbn [default from_option id mbind option_bind PyVal.get].
    destruct (default (PDict []) (PyVal.assoc_get "event" d))
      as [| | | | |e]; try done.
    cbn [mbind option_bind PyVal.get]. intros [= <- <- <-].
    destruct a; [done|]. cbn [PyVal.truthy negb]. eauto.
  - intros name art event_id Ha. rewrite Ha.
    cbn [default from_option id mbind option_bind PyVal.get].
    destruct (default (PDict []) (PyVal.assoc_get "event" d))
      as [| | | | |e]; try done.
    cbn [mbind option_bind PyVal.get PyVal.assoc_get default from_option id].
    intros [= <- <- <-]. cbn [PyVal.truthy negb mbind option_bind]. eauto.
Qed.

Lemma parse_v1_v2_identifiers_witness :
  let d := [ ("applovin", PDict [("art", PStr "A1"); ("eventId", PStr "E1")]);
             ("event", PDict [("name", PStr "page_view")]) ] in
  ∃ name1 vendor,
    RequestParser.parse_v1_request (PDict d) = Some (name1, vendor) ∧
    PyVal.get vendor "art" (PStr "") = Some (PStr "A1") ∧
    PyVal.get vendor "eventId" (PStr "") = Some (PStr "E1").
Proof.
  intros d.
  destruct (parse_v1_v2_identifiers d) as [Hsame _].
  destruct (Hsame [("art", PStr "A1"); ("eventId", PStr "E1")]
              (PStr "page_view") (PStr "A1") (PStr "E1"))
    as (name1 & E & Ha & He); [reflexivity | done | reflexivity |].
  by exists name1, (PDict [("art", PStr "A1"); ("eventId", PStr "E1")]).
Defined.

(** ** src/analyzers/site_analyzer.py: what one request appends *)

Section request_records.
Context `{!PyLib}.
Implicit Types (s : analyzer) (k : string).

Lemma fmap_app_nil {A} (o : option (list A)) : (λ l, l ++ []) <$> o = o.
Proof. destruct o; simpl; by rewrite ?app_nil_r. Qed.

Lemma fmap_app_app {A} (x y : list A) (o : option (list A)) :
  (λ l, l ++ y) <$> ((λ l, l ++ x) <$> o) = (λ l, l ++ (x ++ y)) <$> o.
Proof. destruct o; simpl; by rewrite ?app_assoc. Qed.

Lemma append_request_lookup k k' r s :
  network_requests (append_request k' r s) !! k
  = (λ l, l ++ (if bool_decide (k = k') then [r] else []))
      <$> network_requests s !! k.
Proof.
  simpl. case_bool_decide as Hk.
  - subst. apply lookup_alter_eq.
  - rewrite lookup_alter_ne by done. by rewrite fmap_app_nil.
Qed.

Lemma domain_step_requests url request s item k :
  network_requests (domain_step url request s item) !! k
  = (λ l, l ++ (if str_in item.1 url
                   && bool_decide (category_of item.1 = Some k)
                then [DomainRequest url (Request.method request)
                        (Request.resource_type request) (critical item.2)]
                else []))
      <$> network_requests s !! k.
Proof.
  destruct item as [d info]. unfold domain_step, category_of. cbn [fst snd].
  destruct (str_in d url); cbn [andb]; [|by rewrite fmap_app_nil].
  destruct (String.eqb d "applovin.com");
    [|destruct (String.eqb d "axon.ai");
      [|destruct (String.eqb d "albss.com")]];
    rewrite ?append_request_lookup;
    repeat case_bool_decide; simplify_eq; by rewrite ?fmap_app_nil.
Qed.

Lemma domain_loop_requests url request s k :
  network_requests (foldl (domain_step url request) s DOMAINS_OF_INTEREST) !! k
  = (λ l, l ++ filed_under k url request) <$> network_requests s !! k.
Proof.
  unfold filed_under, DOMAINS_OF_INTEREST. cbn [foldl flat_map].
  rewrite !domain_step_requests, !fmap_app_app. by rewrite app_nil_r.
Qed.

Lemma domain_loop_frame url request s :
  content_indicators (foldl (domain_step url request) s DOMAINS_OF_INTEREST)
    = content_indicators s ∧
  events (foldl (domain_step url request) s DOMAINS_OF_INTEREST) = events s ∧
  parameter_matches (foldl (domain_step url request) s DOMAINS_OF_INTEREST)
    = parameter_matches s ∧
  headless_indicators (foldl (domain_step url request) s DOMAINS_OF_INTEREST)
    = headless_indicators s.
Proof.
  unfold DOMAINS_OF_INTEREST. cbn [foldl]. unfold domain_step. simpl.
  destruct (str_in "applovin.com" url), (str_in "axon.ai" url),
    (str_in "albss.com" url); done.
Qed.

Lemma process_pixel_request_other k s request :
  k ≠ "tracking" →
  network_requests (_process_pixel_request s request) !! k
  = network_requests s !! k.
Proof.
  intros Hk. unfold _process_pixel_request.
  destruct (pixel_request_body s request) as [s'|] eqn:E; [|done].
  apply pixel_request_body_cases in E as [-> | (? & ? & ? & ? & ? & ? & ->)];
    [done|].
  rewrite network_requests_log_event_data. by apply lookup_alter_ne.
Qed.

Lemma check_shopify_api_request_requests k s request :
  network_requests (_check_shopify_api_request s request) !! k
  = (λ l, l ++ (if bool_decide (k = "shopify_api")
                then replicate (Nat.b2n (ApiCheck.endpoint_match request)
                                + Nat.b2n (ApiCheck.header_match request))
                               (ApiCheck.api_record request)
                else []))
      <$> network_requests s !! k.
Proof.
  rewrite check_shopify_api_request_spec. unfold log_match. cbv zeta.
  destruct (ApiCheck.endpoint_match request), (ApiCheck.header_match request);
    cbn [andb Nat.b2n Nat.add replicate network_requests
         set_content_indicator];
    rewrite ?append_request_lookup; cbn [network_requests set_headless_indicator];
    rewrite ?append_request_lookup; cbn [network_requests set_headless_indicator];
    rewrite ?fmap_app_app; destruct (bool_decide (k = "shopify_api"));
    cbn [app]; by rewrite ?fmap_app_nil.
Qed.

Lemma filed_under_shopify_api url request :
  filed_under "shopify_api" url request = [].
Proof.
  unfold filed_under, DOMAINS_OF_INTEREST. cbn [flat_map fst snd].
  change (category_of "applovin.com") with (Some "applovin").
  change (category_of "axon.ai") with (Some "axon_ai").
  change (category_of "albss.com") with (Some "albss").
  rewrite !bool_decide_eq_false_2 by done. by rewrite !andb_false_r.
Qed.

(** The records one request event appends to a category other than
    [tracking]. *)
Lemma check_request_requests k s request :
  k ≠ "tracking" →
  network_requests (check_request s request) !! k
  = (λ l, l ++ (if bool_decide (k = "shopify_api")
                then replicate (Nat.b2n (ApiCheck.endpoint_match request)
                                + Nat.b2n (ApiCheck.header_match request))
                               (ApiCheck.api_record request)
                else filed_under k (lower (Request.url request)) request))
      <$> network_requests s !! k.
Proof.
  intros Hk. unfold check_request.
  assert (network_requests
            (foldl (domain_step (lower (Request.url request)) request)
               (_check_shopify_api_request s request) DOMAINS_OF_INTEREST) !! k
          = (λ l, l ++ (if bool_decide (k = "shopify_api")
                then replicate (Nat.b2n (ApiCheck.endpoint_match request)
                                + Nat.b2n (ApiCheck.header_match request))
                               (ApiCheck.api_record request)
                else filed_under k (lower (Request.url request)) request))
              <$> network_requests s !! k) as E.
  { rewrite domain_loop_requests, check_shopify_api_request_requests,
      fmap_app_app.
    case_bool_decide as Hapi; [|done].
    subst k. by rewrite filed_under_shopify_api, app_nil_r. }
  destruct (_ && _); [|exact E].
  by rewrite process_pixel_request_other.
Qed.

Lemma filed_under_domains url request :
  filed_under "applovin" url request
    = (if str_in "applovin.com" url
       then [DomainRequest url (Request.method request)
               (Request.resource_type request) true] else []) ∧
  filed_under "axon_ai" url request
    = (if str_in "axon.ai" url
       then [DomainRequest url (Request.method request)
               (Request.resource_type request) false] else []) ∧
  filed_under "albss" url request
    = (if str_in "albss.com" url
       then [DomainRequest url (Request.method request)
               (Request.resource_type request) false] else []).
Proof.
  unfold filed_under, DOMAINS_OF_INTEREST. cbn [flat_map fst snd critical].
  change (category_of "applovin.com") with (Some "applovin").
  change (category_of "axon.ai") with (Some "axon_ai").
  change (category_of "albss.com") with (Some "albss").
  repeat match goal with
  | |- context [bool_decide ?P] =>
      first [ rewrite (bool_decide_eq_true_2 P) by done
            | rewrite (bool_decide_eq_false_2 P) by done ]
  end.
  rewrite !andb_true_r, !andb_false_r.
  destruct (str_in "applovin.com" url), (str_in "axon.ai" url),
    (str_in "albss.com" url); done.
Qed.

Lemma check_request_stream k s (requests : list Request.t) l :
  k ≠ "tracking" → network_requests s !! k = Some l →
  network_requests (foldl check_request s requests) !! k
  = Some (l ++ flat_map
            (λ q, if bool_decide (k = "shopify_api")
                  then replicate (Nat.b2n (ApiCheck.endpoint_match q)
                                  + Nat.b2n (ApiCheck.header_match q))
                                 (ApiCheck.api_record q)
                  else filed_under k (lower (Request.url q)) q)
            requests).
Proof.
  intros Hk. revert s l.
  induction requests as [|q qs IH]; intros s l Hl; cbn [foldl flat_map].
  - by rewrite app_nil_r.
  - rewrite (IH (check_request s q) _
               ltac:(rewrite check_request_requests, Hl by done; reflexivity)).
    by rewrite app_assoc.
Qed.

End request_records.

Section request_counts.
Context `{!PyLib}.
Implicit Types (s : analyzer) (k : string).

Lemma length_flat_map_sum {A B} (f : A → list B) (l : list A) :
  length (flat_map f l) = sum_list ((λ x, length (f x)) <$> l).
Proof.
  induction l as [|x l IH]; simpl; [done|]. by rewrite length_app, IH.
Qed.

Lemma sum_list_hits {A} (p : A → bool) (l : list A) :
  sum_list ((λ x, Nat.b2n (p x)) <$> l) = length (List.filter p l).
Proof.
  induction l as [|x l IH]; [done|]. rewrite fmap_cons. cbn [sum_list List.filter].
  rewrite IH. by destruct (p x).
Qed.

Lemma request_count_stream_domain k domain crit s0 (requests : list Request.t) :
  k ≠ "tracking" → k ≠ "shopify_api" →
  network_requests (reset_flags s0) !! k = Some [] →
  (∀ url q, filed_under k url q
            = if str_in domain url
              then [DomainRequest url (Request.method q)
                      (Request.resource_type q) crit] else []) →
  request_count k (foldl check_request (reset_flags s0) requests)
  = length (List.filter (λ q, str_in domain (lower (Request.url q))) requests).
Proof.
  intros Hk Hapi Hreset Hfiled. unfold request_count.
  rewrite (check_request_stream k _ requests [] Hk Hreset).
  rewrite bool_decide_eq_false_2 by done. cbn [default from_option id app].
  rewrite length_flat_map_sum, <- sum_list_hits. f_equal.
  apply list_fmap_ext. intros _ q _. rewrite Hfiled.
  by destruct (str_in domain (lower (Request.url q))).
Qed.

Lemma check_request_frame s request :
  is_pixel_request request = false →
  events (check_request s request) = events s ∧
  parameter_matches (check_request s request) = parameter_matches s.
Proof.
  unfold is_pixel_request, check_request. intros ->.
  destruct (domain_loop_frame (lower (Request.url request)) request
              (_check_shopify_api_request s request)) as (_ & -> & -> & _).
  rewrite check_shopify_api_request_spec. unfold log_match.
  by destruct (ApiCheck.endpoint_match request),
    (ApiCheck.header_match request).
Qed.

End request_counts.

(** X9: feed any stream of requests to a fresh session: in the results,
    [has_applovin_requests], [has_axon_ai_requests] and
    [has_albss_requests] are the numbers of requests whose lower-cased URL
    holds [applovin.com], [axon.ai] and [albss.com], and [api_calls_count]
    is the number of endpoint matches plus the number of header matches
    over the stream. *)
Theorem request_counters_over_stream `{!PyLib} (s0 : analyzer)
    (requests : list Request.t) (site_name site_url : pyval)
    (warning : option string) :
  let s := foldl check_request (reset_flags s0) requests in
  let r := get_results s site_name site_url warning in
  let hits domain :=
    length (List.filter (λ q, str_in domain (lower (Request.url q)))
                        requests) in
  has_applovin_requests r = hits "applovin.com" ∧
  has_axon_ai_requests r = hits "axon.ai" ∧
  has_albss_requests r = hits "albss.com" ∧
  api_calls_count (headless_shopify_details r)
    = sum_list ((λ q, Nat.b2n (ApiCheck.endpoint_match q)
                      + Nat.b2n (ApiCheck.header_match q)) <$> requests).
Proof.
  cbv zeta. cbn [get_results has_applovin_requests has_axon_ai_requests
                 has_albss_requests api_calls_count headless_shopify_details].
  split; [|split; [|split]].
  - apply (request_count_stream_domain _ _ true); try done.
    intros url q. apply filed_under_domains.
  - apply (request_count_stream_domain _ _ false); try done.
    intros url q. apply filed_under_domains.
  - apply (request_count_stream_domain _ _ false); try done.
    intros url q. apply filed_under_domains.
  - unfold request_count.
    rewrite (check_request_stream "shopify_api" _ requests []) by done.
    rewrite bool_decide_eq_true_2 by done. cbn [default from_option id app].
    rewrite length_flat_map_sum. apply (f_equal sum_list).
    apply list_fmap_ext. intros _ q _. by rewrite length_replicate.
Qed.

(** X10: on a session whose three domain lists exist, one request event
    adds a record to some domain list exactly when
    [is_domain_of_interest] calls its URL interesting. *)
Theorem check_request_files_interesting `{!PyLib} (s : analyzer)
    (request : Request.t) :
  (∀ k, is_domain_category k = true → is_Some (network_requests s !! k)) →
  ((RequestHandlers.is_domain_of_interest (Request.url request)).1 = true ↔
   ∃ k, is_domain_category k = true ∧
        request_count k (check_request s request) = S (request_count k s)).
Proof.
  intros Hkeys.
  assert (∀ k, is_domain_category k = true →
    request_count k (check_request s request)
    = request_count k s
      + length (filed_under k (lower (Request.url request)) request)) as Hcount.
  { intros k Hk. unfold request_count.
    assert (k ≠ "tracking" ∧ k ≠ "shopify_api") as [Ht Ha].
    { unfold is_domain_category in Hk. split; intros ->; discriminate Hk. }
    rewrite check_request_requests by done.
    rewrite bool_decide_eq_false_2 by done.
    destruct (Hkeys k Hk) as [l ->]. simpl. by rewrite length_app. }
  destruct (filed_under_domains (lower (Request.url request)) request)
    as (F1 & F2 & F3).
  unfold RequestHandlers.is_domain_of_interest, DOMAINS_OF_INTEREST.
  cbn [RequestHandlers.domain_scan fst snd]. split.
  - intros Hint.
    destruct (str_in "applovin.com" (lower (Request.url request))) eqn:E1;
      [exists "applovin"; split; [done|]; rewrite Hcount, F1, ?E1 by done;
       simpl; lia|].
    destruct (str_in "axon.ai" (lower (Request.url request))) eqn:E2;
      [exists "axon_ai"; split; [done|]; rewrite Hcount, F2, ?E2 by done;
       simpl; lia|].
    destruct (str_in "albss.com" (lower (Request.url request))) eqn:E3;
      [exists "albss"; split; [done|]; rewrite Hcount, F3, ?E3 by done;
       simpl; lia|].
    discriminate Hint.
  - intros (k & Hk & Hinc). rewrite Hcount in Hinc by done.
    unfold is_domain_category in Hk.
    repeat (apply orb_true_iff in Hk as [Hk|Hk]);
      apply bool_decide_eq_true in Hk; subst k;
      rewrite ?F1, ?F2, ?F3 in Hinc;
      destruct (str_in "applovin.com" (lower (Request.url request))),
        (str_in "axon.ai" (lower (Request.url request))),
        (str_in "albss.com" (lower (Request.url request)));
      simpl in *; (done || lia).
Qed.

Lemma check_request_files_interesting_witness :
  (RequestHandlers.is_domain_of_interest
     (Request.url Samples.axon_beacon)).1 = true ∧
  ∃ k, is_domain_category k = true ∧
       request_count k (check_request (H := PyModel.lib) init Samples.axon_beacon)
       = S (request_count k init).
Proof.
  assert ((RequestHandlers.is_domain_of_interest
             (Request.url Samples.axon_beacon)).1 = true) as E
    by (vm_compute; reflexivity).
  split; [exact E|].
  apply (check_request_files_interesting (H := PyModel.lib) init
           Samples.axon_beacon); [|exact E].
  intros k Hk. unfold is_domain_category in Hk.
  repeat (apply orb_true_iff in Hk as [Hk|Hk]);
    apply bool_decide_eq_true in Hk; subst k; by eexists.
Defined.

(** X11: a request whose URL holds no domain of interest and no API
    endpoint, and whose headers hold no Shopify header name, leaves the
    session exactly as it was. *)
Theorem check_request_ignores `{!PyLib} (s : analyzer) (request : Request.t) :
  (RequestHandlers.is_domain_of_interest (Request.url request)).1 = false →
  ApiCheck.endpoint_match request = false →
  ApiCheck.header_match request = false →
  check_request s request = s.
Proof.
  unfold RequestHandlers.is_domain_of_interest, DOMAINS_OF_INTEREST.
  cbn [RequestHandlers.domain_scan fst snd]. intros Hd He Hh.
  unfold check_request.
  rewrite check_shopify_api_request_spec, He, Hh. cbn [andb].
  unfold DOMAINS_OF_INTEREST. cbn [foldl]. unfold domain_step.
  destruct (str_in "applovin.com" (lower (Request.url request))) eqn:E1;
    [discriminate Hd|].
  destruct (str_in "axon.ai" (lower (Request.url request))) eqn:E2;
    [discriminate Hd|].
  destruct (str_in "albss.com" (lower (Request.url request))) eqn:E3;
    [discriminate Hd|].
  destruct (str_in "https://b.applovin.com/" (lower (Request.url request)))
    eqn:Eb; [|done].
  assert (str_in "applovin.com" (lower (Request.url request)) = true) as E
    by (eapply str_in_trans; [|exact Eb]; reflexivity).
  congruence.
Qed.

Lemma check_request_ignores_witness :
  let request := Samples.request "https://cdn.example.org/app.js" "GET"
                   [("accept", "*/*")] None "https://shop.example/" in
  check_request (H := PyModel.lib) init request = init.
Proof.
  intros request.
  apply (check_request_ignores (H := PyModel.lib) init request);
    vm_compute; reflexivity.
Defined.

(** X12: only a pixel request, a [POST] whose lower-cased URL holds
    [https://b.applovin.com/] and [pixel], can change an event flag or a
    parameter-match flag; any other request leaves both dictionaries as
    they were. *)
Theorem check_request_keeps_events `{!PyLib} (s : analyzer)
    (request : Request.t) :
  is_pixel_request request = false →
  events (check_request s request) = events s ∧
  parameter_matches (check_request s request) = parameter_matches s.
Proof. apply check_request_frame. Qed.

Lemma check_request_keeps_events_witness :
  let get := Samples.request "https://b.applovin.com/shopify/v2/pixel" "GET"
               [] (Some Samples.v2_body)
               "https://shop.example/?alart=A1&aleid=E1" in
  events (check_request (H := PyModel.lib) init get) = events init ∧
  parameter_matches (check_request (H := PyModel.lib) init get)
    = parameter_matches init.
Proof.
  intros get.
  apply (check_request_keeps_events (H := PyModel.lib) init get).
  vm_compute; reflexivity.
Defined.

(** ** src/analyzers/site_analyzer.py: the keys of the session *)

(** X13: whatever operations a session receives after [reset_flags], its
    five dictionaries keep exactly the keys [reset_flags] created: no
    operation adds a key or removes one, so every lookup of [get_results]
    finds its key. *)
Theorem session_keys_invariant `{!PyLib} (s0 : analyzer)
    (ops : list operation) :
  let s := run (reset_flags s0) ops in
  dom (content_indicators s) = content_keys ∧
  dom (network_requests s) = request_keys ∧
  dom (events s) = event_keys ∧
  dom (parameter_matches s) = match_keys ∧
  dom (headless_indicators s) = headless_keys.
Proof.
  assert (well_keyed (run (reset_flags s0) ops)) as [].
  { apply well_keyed_foldl; [|apply well_keyed_reset].
    intros s op _. apply well_keyed_apply. }
  done.
Qed.

(** ** src/analyzers/site_analyzer.py: what the checks leave alone *)

Section frames.
Context `{!PyLib}.
Implicit Types (s : analyzer) (k : string).

Lemma same_records_refl s : same_records s s.
Proof. done. Qed.

Lemma same_records_trans s1 s2 s3 :
  same_records s1 s2 → same_records s2 s3 → same_records s1 s3.
Proof. intros (? & ? & ?) (? & ? & ?). repeat split; congruence. Qed.

Lemma same_records_foldl {A} (f : analyzer → A → analyzer) (l : list A) s :
  (∀ s x, same_records s (f s x)) → same_records s (foldl f s l).
Proof.
  intros Hf. revert s. induction l as [|x l IH]; intros s; simpl; [done|].
  eapply same_records_trans; [apply Hf | apply IH].
Qed.

Lemma same_records_script_step st script :
  same_records st.1 (script_step st script).1.
Proof.
  destruct st as [s n]. unfold script_step.
  repeat match goal with
  | |- context [if ?b then _ else _] => destruct b
  | |- context [match ?o with Some _ => _ | None => _ end] => destruct o
  end; done.
Qed.

Lemma same_records_scripts_loop scripts st :
  same_records st.1 (foldl script_step st scripts).1.
Proof.
  revert st. induction scripts as [|x l IH]; intros st; simpl; [done|].
  eapply same_records_trans; [apply same_records_script_step | apply IH].
Qed.

Lemma same_records_check_page_content s page :
  same_records s (check_page_content s page).
Proof.
  unfold check_page_content.
  destruct (Page.content page) as [text|]; [|done].
  eapply same_records_trans;
    [apply (same_records_foldl (indicator_step (lower text)));
     by intros s' [k pats]|].
  set (s0 := foldl _ s TRACKING_INDICATORS).
  eapply (same_records_trans _ (_check_headless_shopify_scripts s0 page)).
  - unfold _check_headless_shopify_scripts.
    destruct (Page.query_selector_all page "script") as [scripts|]; [|done].
    pose proof (same_records_scripts_loop scripts (s0, 0)) as Hl.
    destruct (foldl script_step (s0, 0) scripts) as [s' n]. simpl in Hl.
    by destruct (2 <=? n).
  - unfold _check_headless_shopify_meta_tags.
    destruct (Page.query_selector_all page "meta") as [metas|]; [|done].
    by destruct (2 <=? _).
Qed.

Lemma check_shopify_indicators_cases s page response :
  check_shopify_indicators s page response = s ∨
  ∃ b, check_shopify_indicators s page response
       = set_content_indicator "shopify" b s.
Proof.
  unfold check_shopify_indicators.
  destruct (shopify_indicators_body s page response) as [s'|] eqn:E;
    [|by left].
  right. unfold shopify_indicators_body in E.
  repeat match type of E with
  | Some _ = Some _ => injection E as <-
  | None = Some _ => discriminate E
  | mbind _ ?o = Some _ => destruct o as [?|]; simpl in E
  | (if ?b then _ else _) = Some _ => destruct b; simpl in E
  end; eauto.
Qed.

Lemma extends_apply s op k l :
  network_requests s !! k = Some l →
  ∃ extra, network_requests (Session.apply s op) !! k = Some (l ++ extra).
Proof.
  intros Hl. destruct op as [page|request|page response|name v art eid ua ue];
    cbn [Session.apply].
  - destruct (same_records_check_page_content s page) as (-> & _).
    exists []. by rewrite app_nil_r.
  - destruct (check_request_appends k s request) as (extra & _ & ->).
    rewrite Hl. by exists extra.
  - destruct (check_shopify_indicators_cases s page response)
      as [-> | [b ->]]; exists []; by rewrite app_nil_r.
  - destruct (appends_to_log_event_data k s name v art eid ua ue)
      as (extra & _ & ->).
    rewrite Hl. by exists extra.
Qed.

End frames.

(** X14: the request lists are append-only: across any sequence of
    operations, the list a category held before is a prefix of the list it
    holds after. *)
Theorem network_requests_append_only `{!PyLib} (s : analyzer)
    (ops : list operation) (k : string) (l : list request_info) :
  network_requests s !! k = Some l →
  ∃ extra, network_requests (run s ops) !! k = Some (l ++ extra).
Proof.
  unfold run. revert s l.
  induction ops as [|op ops IH]; intros s l Hl; cbn [foldl].
  - exists []. by rewrite app_nil_r.
  - destruct (extends_apply s op k l Hl) as [x Hx].
    destruct (IH _ _ Hx) as [y Hy]. exists (x ++ y).
    by rewrite Hy, app_assoc.
Qed.

Lemma network_requests_append_only_witness :
  ∃ extra,
    network_requests
      (run (H := PyModel.lib)
         (check_request (H := PyModel.lib) init Samples.axon_beacon)
         [ CheckRequest Samples.v2_pixel;
           CheckPageContent Samples.plain_page ]) !! "axon_ai"
    = Some ([DomainRequest "https://cdn.axon.ai/t.gif" "GET" "fetch" false]
            ++ extra).
Proof.
  apply (network_requests_append_only (H := PyModel.lib)).
  vm_compute; reflexivity.
Defined.

(** X15: the two page checks never touch the request lists, the event
    flags or the match flags; [check_shopify_indicators] changes nothing at
    all but the [shopify] entry of [content_indicators]. *)
Theorem page_checks_frame (s : analyzer) (page : Page.t)
    (response : option Response.t) :
  (network_requests (check_page_content s page) = network_requests s ∧
   events (check_page_content s page) = events s ∧
   parameter_matches (check_page_content s page) = parameter_matches s) ∧
  (check_shopify_indicators s page response = s ∨
   ∃ b, check_shopify_indicators s page response
        = set_content_indicator "shopify" b s).
Proof.
  split; [apply same_records_check_page_content|].
  apply check_shopify_indicators_cases.
Qed.

(** X16: [log_event_data] sets the event flag named by the event name when
    that name is [land], [page_view] or [page_viewed], and leaves the event
    flags alone for any other name or value; either way it appends one
    summary line naming the event to the [tracking] list. *)
Theorem log_event_data_events `{!PyLib} (s : analyzer) (event_name : pyval)
    (version : string) (art event_id : pyval) (url_alart url_aleid : string) :
  let s' := log_event_data s event_name version art event_id
                           url_alart url_aleid in
  (∀ k, k ∈ known_events → event_name = PStr k →
        events s' = <[k := true]> (events s)) ∧
  ((∀ k, k ∈ known_events → event_name ≠ PStr k) → events s' = events s) ∧
  network_requests s' !! "tracking"
    = (λ l, l ++ [TrackingEvent ("Axon Event: " +:+ py_str event_name)])
        <$> network_requests s !! "tracking".
Proof.
  cbv zeta. split; [|split].
  - intros k Hk ->. unfold known_events in Hk.
    rewrite !elem_of_cons, elem_of_nil in Hk.
    destruct Hk as [->|[->|[->|[]]]]; unfold log_event_data; simpl;
      repeat match goal with
      | |- context [if ?b then _ else _] => destruct b
      end; reflexivity.
  - intros Hother. unfold log_event_data.
    assert (∀ k, k ∈ known_events → PyVal.eq_str event_name k = false) as Hno.
    { intros k Hk. destruct event_name as [| | |name| |]; try done. simpl.
      destruct (String.eqb name k) eqn:E; [|done].
      apply String.eqb_eq in E as ->. by destruct (Hother k Hk). }
    rewrite !Hno by (unfold known_events; set_solver).
    repeat match goal with
    | |- context [if ?b then _ else _] => destruct b
    end; reflexivity.
  - rewrite network_requests_log_event_data. apply lookup_alter_eq.
Qed.

(** ** src/analyzers/site_analyzer.py: the Shopify verdict *)

(** X17: [check_shopify_indicators] decides the [shopify] flag on its own,
    whatever the flag was: a [server] header naming Shopify or
    [myshopify.com] in the page URL makes it true; otherwise, when the
    three probes answer, it is true exactly when a link or a script
    matches its selector or [Shopify.shop] occurs in the page content, and
    false if not, also after a content check that had set it; and when a
    probe raises, the session is left as it was. *)
Theorem check_shopify_indicators_verdict (s : analyzer) (page : Page.t)
    (response : option Response.t) :
  let s' := check_shopify_indicators s page response in
  (server_says_shopify response ∨ occurs "myshopify.com" (Page.url page) →
   content_indicators s' !! "shopify" = Some true) ∧
  (¬ server_says_shopify response → ¬ occurs "myshopify.com" (Page.url page) →
   ∀ link script text,
     Page.query_selector page link_selector = Some link →
     Page.query_selector page script_selector = Some script →
     Page.content page = Some text →
     (content_indicators s' !! "shopify" = Some true ↔
        is_Some link ∨ is_Some script ∨ occurs "Shopify.shop" text) ∧
     (content_indicators s' !! "shopify" = Some true ∨
      content_indicators s' !! "shopify" = Some false)) ∧
  (¬ server_says_shopify response → ¬ occurs "myshopify.com" (Page.url page) →
   Page.query_selector page link_selector = None ∨
   Page.query_selector page script_selector = None ∨
   Page.content page = None →
   s' = s).
Proof.
  cbv zeta. unfold check_shopify_indicators, shopify_indicators_body.
  fold link_selector script_selector.
  set (by_server := match response with
                    | Some r => str_in "shopify" _
                    | None => false
                    end).
  assert (by_server = true ↔ server_says_shopify response) as Hserver.
  { unfold server_says_shopify, by_server. destruct response as [r|].
    - rewrite str_in_iff. split; [by exists r | by intros (? & [= <-] & ?)].
    - split; [done | by intros (? & [=] & _)]. }
  rewrite <- str_in_iff in *.
  split; [|split].
  - intros [Hs%Hserver | Hu].
    + rewrite Hs. simpl. apply lookup_insert_eq.
    + destruct by_server; [simpl; apply lookup_insert_eq|].
      rewrite Hu. simpl. apply lookup_insert_eq.
  - intros Hs Hu link script text -> -> ->.
    destruct by_server; [by destruct Hs; apply Hserver|].
    destruct (str_in "myshopify.com" (Page.url page)); [done|].
    cbn [mbind option_bind content_indicators set_content_indicator].
    rewrite lookup_insert_eq.
    set (b := bool_decide (is_Some link) || bool_decide (is_Some script)
              || str_in "Shopify.shop" text).
    assert (b = true ↔
            is_Some link ∨ is_Some script ∨ occurs "Shopify.shop" text)
      as Hb.
    { unfold b. rewrite !orb_true_iff, !bool_decide_eq_true, str_in_iff.
      tauto. }
    destruct b; split; [| by left | | by right].
    + split; [intros _; by apply Hb | done].
    + split; [done | intros HP; by apply Hb in HP].
  - intros Hs Hu Hraise.
    destruct by_server; [by destruct Hs; apply Hserver|].
    destruct (str_in "myshopify.com" (Page.url page)); [done|].
    destruct Hraise as [-> | [-> | ->]]; simpl; [done| |].
    + by destruct (Page.query_selector page link_selector).
    + by destruct (Page.query_selector page link_selector),
        (Page.query_selector page script_selector).
Qed.

(** ** src/analyzers/site_analyzer.py: static analysis of the query *)

Section static_tracking.
Context `{!PyLib}.
Implicit Types (s : analyzer) (qp : gmap string (list string))
  (tp : gmap string bool).

Lemma tracking_params_loop_marks qp params s tp :
  (∀ k, qp !! k ≠ Some []) →
  ∃ s', foldl (tracking_param_step qp) (Some (s, tp)) params
        = Some (s', foldl (mark_present qp) tp params).
Proof.
  intros Hne. revert s tp.
  induction params as [|p l IH]; intros s tp; cbn [foldl]; [by exists s|].
  unfold tracking_param_step at 2, mark_present at 2.
  cbn [mbind option_bind].
  destruct (qp !! p) as [[|v vs]|] eqn:E.
  - by destruct (Hne p).
  - rewrite bool_decide_eq_true_2 by eauto. cbn [head mbind option_bind].
    destruct (String.eqb (lower v) "applovin"); apply IH.
  - rewrite bool_decide_eq_false_2 by (by intros [? [=]]). apply IH.
Qed.

Lemma marks_lookup qp params tp k :
  foldl (mark_present qp) tp params !! k = Some true ↔
  tp !! k = Some true ∨ (k ∈ params ∧ is_Some (qp !! k)).
Proof.
  revert tp. induction params as [|p l IH]; intros tp; cbn [foldl].
  - split; [by left | intros [|[Hk _]]; [done | by apply elem_of_nil in Hk]].
  - rewrite IH. unfold mark_present. rewrite elem_of_cons.
    case_bool_decide as Hp.
    + destruct (decide (p = k)) as [->|Hpk].
      * rewrite lookup_insert_eq. tauto.
      * rewrite lookup_insert_ne by done. split; [|intros [|[[|] ?]]]; try tauto.
        congruence.
    + split; [tauto|]. intros [|[[->|] ?]]; tauto.
Qed.

Lemma marks_other qp params tp k :
  k ∉ params → foldl (mark_present qp) tp params !! k = tp !! k.
Proof.
  revert tp. induction params as [|p l IH]; intros tp Hk; cbn [foldl]; [done|].
  apply not_elem_of_cons in Hk as [Hne Hk]. rewrite IH by done.
  unfold mark_present. case_bool_decide; [|done].
  by apply lookup_insert_ne.
Qed.

Lemma any_value_true tp :
  existsb id (map_to_list tp).*2 = true ↔ ∃ k, tp !! k = Some true.
Proof.
  rewrite existsb_exists. split.
  - intros (b & Hin & Hb). unfold id in Hb. subst b.
    apply list_elem_of_In, list_elem_of_fmap in Hin as ([k b] & -> & Hin).
    apply elem_of_map_to_list in Hin. by exists k.
  - intros (k & Hk). exists true. split; [|done].
    apply list_elem_of_In, list_elem_of_fmap. exists (k, true).
    split; [done|]. by apply elem_of_map_to_list.
Qed.

End static_tracking.

(** X18: when [urlparse] accepts the URL ([parse_qs] maps no key to an
    empty list), static analysis reports [aleid], [alart] and each UTM
    parameter as true exactly when the parameter is present in the query,
    whatever its value: the match flags of the static mode mean presence,
    not agreement with a payload.  [tracking_present] is true exactly when
    one of the five is present, in particular whenever the land event is
    flagged. *)
Theorem analyze_static_tracking `{!PyLib} (self : analyzer)
    (site_name : pyval) (url : string) (parsed : ParseResult) :
  urlparse url = Some parsed →
  (∀ k, parse_qs (query parsed) !! k ≠ Some []) →
  ∃ s' r,
    analyze_static self site_name url = Some (s', r) ∧
    (∀ k, k ∈ tracked_parameters →
       (tracking_parameters r !! k = Some true ↔
        is_Some (parse_qs (query parsed) !! k))) ∧
    (parameter_matches s' !! "aleid" = Some true ↔
       is_Some (parse_qs (query parsed) !! "aleid")) ∧
    (parameter_matches s' !! "alart" = Some true ↔
       is_Some (parse_qs (query parsed) !! "alart")) ∧
    (indicator_tracking_present r = true ↔
       ∃ k, k ∈ tracked_parameters ∧ is_Some (parse_qs (query parsed) !! k)) ∧
    (event_land r = true → indicator_tracking_present r = true).
Proof.
  intros Hurl Hne. unfold analyze_static. rewrite Hurl.
  cbn [mbind option_bind].
  set (qp := parse_qs (query parsed)) in *.
  set (is_shop := str_in ".myshopify.com" _ || str_in "shopify.com" _).
  set (tp0 := list_to_map _ : gmap string bool).
  match goal with
  | |- context [foldl (tracking_param_step qp) (Some (?s0, tp0)) ?ps] =>
      destruct (tracking_params_loop qp ps s0 tp0 Hne)
        as (s' & tp' & E & Hc & Hm & He);
      destruct (tracking_params_loop_marks qp ps s0 tp0 Hne) as (s'' & E');
      set (s1 := s0) in *; set (params := ps) in *
  end.
  assert (tp' = foldl (mark_present qp) tp0 params) as Htp by congruence.
  clear E' s''. rewrite E.
  cbn [mbind option_bind]. eexists _, _. split; [reflexivity|].
  cbn [tracking_parameters indicator_tracking_present event_land].
  set (has_aleid := bool_decide (is_Some (qp !! "aleid"))) in *.
  set (has_alart := bool_decide (is_Some (qp !! "alart"))) in *.
  assert (parameter_matches s' !! "aleid" = Some has_aleid ∧
          parameter_matches s' !! "alart" = Some has_alart) as [Hpa Hpb].
  { rewrite Hm. subst s1. by destruct has_alart, has_aleid, is_shop. }
  assert (parameter_matches s' !!! "aleid" = has_aleid ∧
          parameter_matches s' !!! "alart" = has_alart) as [-> ->].
  { split; apply lookup_total_correct; done. }
  assert (∀ k, tp' !! k = Some true ↔ k ∈ params ∧ is_Some (qp !! k)) as Hmark.
  { intros k. rewrite Htp, marks_lookup. split; [|tauto].
    intros [Hk|]; [|done]. exfalso. revert Hk. unfold tp0.
    destruct (decide (k = "utm_source")) as [->|]; [done|].
    destruct (decide (k = "utm_medium")) as [->|]; [done|].
    destruct (decide (k = "utm_campaign")) as [->|]; [done|].
    simpl. by rewrite !lookup_insert_ne, lookup_empty by done. }
  assert (events s' !!! "land" = true → ∃ k, tp' !! k = Some true) as Hland.
  { rewrite He. intros Hl.
    destruct (existsb (Static.names_applovin_test qp) params) eqn:Ex.
    - apply existsb_exists in Ex as (p & Hin & Hp).
      apply names_applovin_test_iff in Hp as (v & vs & Hv & _).
      exists p. apply Hmark. split; [by apply list_elem_of_In | by eexists].
    - exfalso. revert Hl. subst s1.
      by destruct has_alart, has_aleid, is_shop. }
  assert (tp' !! "aleid" = None ∧ tp' !! "alart" = None) as [Na Nb].
  { rewrite Htp. split; (rewrite marks_other; [reflexivity|]); subst params;
      intros Hin; rewrite !elem_of_cons, elem_of_nil in Hin;
      by destruct Hin as [|[|[|]]]. }
  split; [|split; [|split; [|split]]].
  - intros k Hk. unfold tracked_parameters in Hk.
    rewrite !elem_of_cons, elem_of_nil in Hk.
    destruct Hk as [->|[->|Hutm]].
    + rewrite lookup_union_r by done.
      simpl. rewrite lookup_insert_eq. unfold has_aleid.
      destruct (bool_decide_reflect (is_Some (qp !! "aleid"))); split;
        try done; by intros [=].
    + rewrite lookup_union_r by done.
      simpl. rewrite lookup_insert_ne, lookup_insert_eq by done.
      unfold has_alart.
      destruct (bool_decide_reflect (is_Some (qp !! "alart"))); split;
        try done; by intros [=].
    + assert (k ∈ params) as Hin
        by (subst params; rewrite !elem_of_cons, elem_of_nil; tauto).
      split.
      * intros Hu. apply lookup_union_Some_raw in Hu as [Hu|[Hnone Hu]].
        -- by apply Hmark in Hu as [_ ?].
        -- exfalso. revert Hu. simpl.
           destruct Hutm as [->|[->|[->|[]]]];
             by rewrite !lookup_insert_ne, lookup_empty by done.
      * intros Hq. apply lookup_union_Some_raw. left. by apply Hmark.
  - rewrite Hpa. unfold has_aleid.
    destruct (bool_decide_reflect (is_Some (qp !! "aleid"))); split;
      try done; by intros [=].
  - rewrite Hpb. unfold has_alart.
    destruct (bool_decide_reflect (is_Some (qp !! "alart"))); split;
      try done; by intros [=].
  - rewrite !orb_true_iff, any_value_true. unfold tracked_parameters.
    setoid_rewrite Hmark. unfold has_aleid, has_alart.
    rewrite !bool_decide_eq_true. split.
    + intros [[(k & Hin & Hk)|?]|?].
      * exists k. split; [|done]. subst params.
        rewrite !elem_of_cons, elem_of_nil in *. tauto.
      * exists "aleid". split; [by left | done].
      * exists "alart". split; [right; by left | done].
    + intros (k & Hin & Hk). rewrite !elem_of_cons, elem_of_nil in Hin.
      destruct Hin as [->|[->|Hutm]]; [tauto | tauto |].
      left. left. exists k. split; [|done]. subst params.
      rewrite !elem_of_cons, elem_of_nil. tauto.
  - intros Hl. rewrite !orb_true_iff, any_value_true. left. left.
    by apply Hland.
Qed.

(** The model of [parse_qs] maps no key to an empty list. *)
Lemma model_parse_qs_nonempty (qs k : string) :
  PyModel.model_parse_qs qs !! k ≠ Some [].
Proof.
  unfold PyModel.model_parse_qs.
  assert (∀ l (m : gmap string (list string)),
            (∀ k, m !! k ≠ Some []) →
            ∀ k, foldl PyModel.parse_qs_step m l !! k ≠ Some []) as Hfold.
  { induction l as [|nv l IH]; intros m Hm; cbn [foldl]; [done|].
    apply IH. intros k'. unfold PyModel.parse_qs_step.
    destruct (PyModel.split_once _ nv) as [[n v]|]; [|done].
    destruct (nonempty v); [|done].
    destruct (decide (PyModel.unquote (PyModel.plus_to_space n) = k'))
      as [->|Hne].
    - rewrite lookup_insert_eq. intros [=]. by destruct (default [] _).
    - by rewrite lookup_insert_ne. }
  apply Hfold. intros k'. by rewrite lookup_empty.
Qed.

Lemma analyze_static_tracking_witness :
  ∃ s' r,
    analyze_static (H := PyModel.lib) init (PStr "shop")
      "https://shop.example/?aleid=E1&utm_medium=cpc" = Some (s', r) ∧
    tracking_parameters r !! "aleid" = Some true ∧
    indicator_tracking_present r = true.
Proof.
  destruct (analyze_static_tracking (H := PyModel.lib) init (PStr "shop")
    "https://shop.example/?aleid=E1&utm_medium=cpc"
    {| netloc := "shop.example"; query := "aleid=E1&utm_medium=cpc" |})
    as (s' & r & E & Hk & _ & _ & Hp & _).
  - vm_compute; reflexivity.
  - intros k. apply model_parse_qs_nonempty.
  - exists s', r. split; [exact E|]. split.
    + apply Hk; [unfold tracked_parameters; by left|]. vm_compute. by eexists.
    + apply Hp. exists "aleid". split; [by left|]. vm_compute. by eexists.
Defined.

(** ** src/testers/site_tester.py *)

(** X19: [prepare_url] only ever appends to the URL, its result holds
    [aleid=] or [alart=], and preparing a prepared URL changes nothing. *)
Theorem prepare_url_idempotent (url : string) :
  SiteTester.prepare_url (SiteTester.prepare_url url)
    = SiteTester.prepare_url url ∧
  (occurs "aleid=" (SiteTester.prepare_url url) ∨
   occurs "alart=" (SiteTester.prepare_url url)) ∧
  ∃ suffix, SiteTester.prepare_url url = url +:+ suffix.
Proof.
  assert (∀ sep, str_in "aleid="
            (url +:+ sep +:+ "alart=test_identifier1234&aleid=test_identifier5678")
          = true) as Happ.
  { intros sep. apply str_in_iff. do 2 apply occurs_app_r.
    apply str_in_iff. reflexivity. }
  unfold SiteTester.prepare_url.
  destruct (str_in "aleid=" url) eqn:Ea; [|destruct (str_in "alart=" url) eqn:Eb];
    cbn [negb andb].
  - rewrite Ea. cbn [negb andb]. split; [done|]. split.
    + left. by apply str_in_iff.
    + exists "". by rewrite append_nil_r.
  - rewrite Ea, Eb. cbn [negb andb]. split; [done|]. split.
    + right. by apply str_in_iff.
    + exists "". by rewrite append_nil_r.
  - rewrite Happ. cbn [negb andb]. split; [done|]. split.
    + left. apply str_in_iff, Happ.
    + eauto.
Qed.

Section tester.
Context `{!PyLib}.
Variable browse :
  SiteTester.TesterConfig → pyval → analyzer → SiteTester.browsed.

Lemma analyze_static_fields self site_name url s' r :
  analyze_static self site_name url = Some (s', r) →
  static_site r = site_name ∧ static_url r = url.
Proof.
  unfold analyze_static.
  destruct (urlparse url) as [parsed|]; [|done]. cbn [mbind option_bind].
  destruct (foldl _ _ _) as [[s1 tp]|]; [|done]. cbn [mbind option_bind].
  by intros [= <- <-].
Qed.

Lemma prepare_url_value_some url :
  is_Some (SiteTester.prepare_url_value url) ↔ searchable url.
Proof.
  destruct url as [| | |u|l|d]; cbn; split; try done;
    try (by intros [? [=]]); intros _; try (by eexists);
    by destruct (negb _ && negb _).
Qed.

Lemma analysable_has_name_and_url site :
  analysable site → has_name_and_url site.
Proof.
  intros (entry & name & url & -> & Hn & Hu & _).
  exists entry. split; [done|]. split; by eexists.
Qed.

Lemma analyze_single_site_answer config self entry name url :
  PyVal.assoc_get "name" entry = Some name →
  PyVal.assoc_get "url" entry = Some url →
  searchable url →
  ∃ s' r,
    SiteTester.analyze_single_site browse config self (PDict entry)
      = inr (s', r) ∧
    answers (PDict entry) r.
Proof.
  intros Hn Hu Hs.
  apply prepare_url_value_some in Hs as [url' Hp].
  assert (∀ r, result_site r = name → result_url r = url' →
               answers (PDict entry) r) as Hanswers.
  { intros r Hsite Hurl. exists entry, url. rewrite Hsite, Hurl.
    repeat split; try done. intros u ->. cbn in Hp. congruence. }
  unfold SiteTester.analyze_single_site. rewrite Hn, Hu. cbv zeta. rewrite Hp.
  destruct (SiteTester.static_analysis_only config).
  - destruct url' as [| | |u'|l|d]; try (eexists _, _; split; [done|];
      by apply Hanswers).
    destruct (analyze_static _ name u') as [[s' r]|] eqn:E.
    + apply analyze_static_fields in E as [? ?].
      eexists _, _. split; [done|]. apply Hanswers; cbn; congruence.
    + eexists _, _. split; [done|]. by apply Hanswers.
  - destruct (browse config _ _) as [s' failed|s' warning failed];
      eexists _, _; (split; [done|]); by apply Hanswers.
Qed.

Lemma analyze_single_site_cases config self site :
  (analysable site ∧
   ∃ s' r, SiteTester.analyze_single_site browse config self site
             = inr (s', r) ∧ answers site r) ∨
  (has_name_and_url site ∧ ¬ analysable site ∧
   SiteTester.analyze_single_site browse config self site
     = inl SiteTester.TypeError) ∨
  (¬ has_name_and_url site ∧
   SiteTester.analyze_single_site browse config self site
     = inl SiteTester.ValueError).
Proof.
  destruct site as [| | | | |entry];
    try (right; right; split; [by intros (? & [=] & _) | done]).
  destruct (PyVal.assoc_get "name" entry) as [name|] eqn:Hn; cycle 1.
  { right; right. split.
    - intros (? & [= <-] & [? Hx] & _). congruence.
    - unfold SiteTester.analyze_single_site. by rewrite Hn. }
  destruct (PyVal.assoc_get "url" entry) as [url|] eqn:Hu; cycle 1.
  { right; right. split.
    - intros (? & [= <-] & _ & [? Hx]). congruence.
    - unfold SiteTester.analyze_single_site. by rewrite Hn, Hu. }
  destruct (SiteTester.prepare_url_value url) as [url'|] eqn:Hp.
  - left. assert (searchable url) as Hs.
    { apply prepare_url_value_some. by eexists. }
    split; [by exists entry, name, url|].
    by apply (analyze_single_site_answer config self entry name url).
  - right; left. split; [|split].
    + exists entry. split; [done|]. split; by eexists.
    + intros (? & ? & ? & [= <-] & ? & Hu' & Hs).
      rewrite Hu in Hu'. injection Hu' as <-.
      apply prepare_url_value_some in Hs as [? Hs]. congruence.
    + unfold SiteTester.analyze_single_site. rewrite Hn, Hu. cbv zeta.
      by rewrite Hp.
Qed.

Lemma run_sites_spec config self sites acc :
  match SiteTester.run_sites browse config self sites acc with
  | inr results =>
      Forall analysable sites ∧
      ∃ rs, results = acc ++ rs ∧ Forall2 answers sites rs
  | inl e =>
      ∃ before bad after,
        sites = before ++ bad :: after ∧
        Forall analysable before ∧ ¬ analysable bad ∧
        (e = SiteTester.ValueError ↔ ¬ has_name_and_url bad)
  end.
Proof.
  revert self acc. induction sites as [|site sites IH]; intros self acc;
    cbn [SiteTester.run_sites].
  - split; [by constructor|]. exists []. by rewrite app_nil_r.
  - destruct (analyze_single_site_cases config self site)
      as [(Ha & s' & r & -> & Hr) | [(Hh & Hna & ->) | (Hnh & ->)]].
    + specialize (IH s' (acc ++ [r])).
      destruct (SiteTester.run_sites _ _ _ _ _) as [e|results].
      * destruct IH as (before & bad & after & -> & Hb & Hbad & He).
        exists (site :: before), bad, after. split; [done|].
        split; [by constructor | done].
      * destruct IH as (Hall & rs & -> & Hrs). split; [by constructor|].
        exists (r :: rs). rewrite <- app_assoc. split; [done|].
        by constructor.
    + exists [], site, sites. split; [done|]. split; [by constructor|].
      split; [done|]. split; [done | tauto].
    + exists [], site, sites. split; [done|]. split; [by constructor|].
      split; [|done]. intros ?. by apply Hnh, analysable_has_name_and_url.
Qed.

End tester.


(** X21: [run_tests], from the decoded sites.json on.  A value that is not
    an object with a [sites] entry raises [ValueError].  Over a [sites]
    list, the loop returns exactly when every item is an object with a
    [name] and a [url] that is a string, a list or a dictionary; it then
    returns one result per item, in the order of the items, each carrying
    its item's name and prepared URL.  Otherwise the first item that is
    not of this kind, wherever it stands, raises out of the loop and no
    result of any site is returned: a [ValueError] when it is not an
    object with a [name] and a [url], a [TypeError] when its [url] is
    [null], a boolean or a number. *)
Theorem run_tests_spec `{!PyLib}
    (browse : SiteTester.TesterConfig → pyval → analyzer → SiteTester.browsed)
    (config : SiteTester.TesterConfig) (self : analyzer)
    (sites_config : pyval) :
  ((¬ ∃ d, sites_config = PDict d ∧ is_Some (PyVal.assoc_get "sites" d)) →
   SiteTester.run_tests browse config self sites_config
     = inl SiteTester.ValueError) ∧
  (∀ d sites,
     sites_config = PDict d →
     PyVal.assoc_get "sites" d = Some (PList sites) →
     ((∃ results,
         SiteTester.run_tests browse config self sites_config = inr results)
      ↔ Forall analysable sites) ∧
     (∀ results,
        SiteTester.run_tests browse config self sites_config = inr results →
        length results = length sites ∧ Forall2 answers sites results) ∧
     (∀ e,
        SiteTester.run_tests browse config self sites_config = inl e →
        ∃ before bad after,
          sites = before ++ bad :: after ∧
          Forall analysable before ∧ ¬ analysable bad ∧
          (e = SiteTester.ValueError ↔ ¬ has_name_and_url bad))).
Proof.
  split.
  - intros Hno. unfold SiteTester.run_tests.
    destruct sites_config as [| | | | |d]; try done.
    destruct (PyVal.assoc_get "sites" d) as [sites|] eqn:E; [|done].
    destruct Hno. exists d. split; [done | by eexists].
  - intros d sites -> Hsites. unfold SiteTester.run_tests.
    rewrite Hsites. cbn [SiteTester.iterate].
    pose proof (run_sites_spec browse config self sites []) as Hspec.
    destruct (SiteTester.run_sites _ _ _ _ _) as [e|results].
    + destruct Hspec as (before & bad & after & -> & Hb & Hbad & He).
      split; [|split].
      * split; [by intros [? [=]]|].
        intros [_ [Hx _]%Forall_cons]%Forall_app. done.
      * done.
      * intros e' [= <-]. by exists before, bad, after.
    + destruct Hspec as (Hall & rs & -> & Hrs). split; [|split].
      * split; [done | by eexists].
      * intros results [= <-]. simpl. split; [|done].
        symmetry. by eapply Forall2_length.
      * done.
Qed.

(** A static run over three entries: the second, whose URL is a list
    holding [aleid=], yields an error dictionary with the list as its
    URL; a fourth entry with a [null] URL makes the whole run raise. *)
Example run_tests_static :
  let browse := λ _ _ s, SiteTester.BrowseRaised s [] in
  let config := {| SiteTester.intercept_requests := false;
                   SiteTester.static_analysis_only := true |} in
  let entry name url := PDict [("name", PStr name); ("url", url)] in
  let sites :=
    [ entry "a" (PStr "https://a.example/");
      entry "b" (PList [PStr "aleid="]);
      entry "c" (PStr "https://c.example/?aleid=E1") ] in
  match SiteTester.run_tests (H := PyModel.lib) browse config init
          (PDict [("sites", PList sites)]) with
  | inr results => Some (result_url <$> results)
  | inl _ => None
  end
  = Some [ PStr ("https://a.example/?alart=test_identifier1234"
                 +:+ "&aleid=test_identifier5678");
           PList [PStr "aleid="];
           PStr "https://c.example/?aleid=E1" ] ∧
  SiteTester.run_tests (H := PyModel.lib) browse config init
    (PDict [("sites", PList (sites ++ [entry "d" PNone]))])
  = inl SiteTester.TypeError ∧
  SiteTester.run_tests (H := PyModel.lib) browse config init
    (PDict [("sites", PList (PStr "a" :: sites))])
  = inl SiteTester.ValueError.
Proof. vm_compute. done. Qed.

(** ** src/utils/gen_matrix.py *)

Section gen_matrix.
Context `{!PyLib}.

Lemma row_some result :
  is_Some (GenMatrix.row result) ↔ renderable result.
Proof.
  unfold renderable, GenMatrix.row. split.
  - destruct result as [| | | | |d]; try by intros [? [=]].
    destruct (PyVal.assoc_get "site" d) as [[| | |site| |]|] eqn:E;
      try by intros [? [=]].
    intros _. by exists d, site.
  - intros (d & site & -> & ->). by eexists.
Qed.

Lemma row_length result cells :
  GenMatrix.row result = Some cells → length cells = length GenMatrix.headers.
Proof.
  unfold GenMatrix.row. destruct result as [| | | | |d]; try done.
  destruct (PyVal.assoc_get "site" d) as [[| | |site| |]|]; try done.
  by intros [= <-].
Qed.

Lemma data_rows_spec results matrix :
  (is_Some (GenMatrix.data_rows results matrix) ↔ Forall renderable results) ∧
  ∀ lines, GenMatrix.data_rows results matrix = Some lines →
    ∃ rows, lines = matrix ++ (GenMatrix.row_line <$> rows) ∧
            Forall2 (λ result cells, GenMatrix.row result = Some cells)
                    results rows.
Proof.
  revert matrix. induction results as [|result results IH]; intros matrix;
    cbn [GenMatrix.data_rows].
  - split; [split; [by constructor | by eexists]|].
    intros lines [= <-]. exists []. by rewrite app_nil_r.
  - destruct (GenMatrix.row result) as [cells|] eqn:E; cbn [mbind option_bind].
    + destruct (IH (matrix ++ [GenMatrix.row_line cells])) as [IHsome IHres].
      split.
      * rewrite IHsome, Forall_cons, <- row_some, E. split; [|tauto].
        intros ?. split; [by eexists | done].
      * intros lines Hl. destruct (IHres _ Hl) as (rows & -> & Hrows).
        exists (cells :: rows). rewrite <- app_assoc. split; [done|].
        by constructor.
    + split; [|done]. split; [by intros [? [=]]|].
      intros [Hr _]%Forall_cons. apply row_some in Hr as [? Hr]. congruence.
Qed.

End gen_matrix.

Section line_feeds.

Lemma line_feeds_app a b : line_feeds (a +:+ b) = line_feeds a + line_feeds b.
Proof. induction a as [|c a IH]; simpl; [done|]. rewrite IH. lia. Qed.

Lemma line_feeds_join sep items :
  line_feeds (GenMatrix.join sep items)
  = sum_list (line_feeds <$> items) + line_feeds sep * (length items - 1).
Proof.
  induction items as [|x [|y items] IH]; [simpl; lia | simpl; lia |].
  change (GenMatrix.join sep (x :: y :: items))
    with (x +:+ sep +:+ GenMatrix.join sep (y :: items)).
  rewrite !line_feeds_app, IH. simpl. lia.
Qed.

Lemma line_feeds_cells cells :
  Forall (λ cell, line_feeds cell = 0) cells →
  sum_list (line_feeds <$> cells) = 0.
Proof.
  induction 1 as [|c cells Hc _ IH]; [done|].
  rewrite fmap_cons. cbn [sum_list].
  change (id (line_feeds c)) with (line_feeds c). by rewrite Hc, IH.
Qed.

Lemma line_feeds_row_line cells :
  Forall (λ cell, line_feeds cell = 0) cells →
  line_feeds (GenMatrix.row_line cells) = 0.
Proof.
  intros Hcells. unfold GenMatrix.row_line.
  rewrite !line_feeds_app, line_feeds_join, line_feeds_cells by done.
  reflexivity.
Qed.

Lemma line_feeds_rows rows :
  Forall (Forall (λ cell, line_feeds cell = 0)) rows →
  sum_list (line_feeds <$> (GenMatrix.row_line <$> rows)) = 0.
Proof.
  induction 1 as [|cells rows Hc _ IH]; [done|].
  rewrite !fmap_cons. cbn [sum_list].
  change (id ?n) with n. by rewrite line_feeds_row_line, IH.
Qed.

Lemma sum_list_fmap_app {A} (f : A → nat) l1 l2 :
  sum_list (f <$> (l1 ++ l2)) = sum_list (f <$> l1) + sum_list (f <$> l2).
Proof. by rewrite fmap_app, sum_list_with_app. Qed.

End line_feeds.

(** X22: [generate_matrix] returns a document exactly when every result
    is an object whose [site] is a string; any other entry raises.  The
    document it returns is the join, with line feeds, of the three header
    items, one data row per result in the order of the results, and the
    fourteen summary items; every data row has as many cells as the header
    has columns.  Three of the fixed items hold line feeds of their own:
    when no cell holds one, the document has 21 line feeds more than there
    are results, that is 22 lines more. *)
Theorem generate_matrix_spec `{!PyLib} (results : list pyval) :
  (is_Some (GenMatrix.generate_matrix results) ↔ Forall renderable results) ∧
  (∀ document, GenMatrix.generate_matrix results = Some document →
     ∃ rows,
       Forall2 (λ result cells,
                  GenMatrix.row result = Some cells ∧
                  length cells = length GenMatrix.headers) results rows ∧
       document
       = GenMatrix.join GenMatrix.nl
           (GenMatrix.heading ++ (GenMatrix.row_line <$> rows)
            ++ GenMatrix.summary) ∧
       (Forall (Forall (λ cell, line_feeds cell = 0)) rows →
        line_feeds document = length results + 21)).
Proof.
  unfold GenMatrix.generate_matrix, GenMatrix.matrix_lines. cbv zeta.
  destruct (data_rows_spec results GenMatrix.heading) as [Hsome Hres]. split.
  - rewrite <- Hsome.
    destruct (GenMatrix.data_rows results GenMatrix.heading);
      cbn [mbind option_bind].
    + split; intros _; by eexists.
    + split; by intros [? [=]].
  - intros document.
    destruct (GenMatrix.data_rows results GenMatrix.heading) as [l|] eqn:E;
      cbn [mbind option_bind]; [|done].
    intros [= <-]. destruct (Hres l eq_refl) as (rows & -> & Hrows).
    exists rows. split; [|split].
    + eapply Forall2_impl; [exact Hrows|]. intros r c Hrc.
      split; [done | exact (row_length _ _ Hrc)].
    + by rewrite <- app_assoc.
    + intros Hcells. rewrite line_feeds_join, <- app_assoc.
      rewrite !sum_list_fmap_app, line_feeds_rows by done.
      rewrite !length_app, length_fmap.
      apply Forall2_length in Hrows as <-.
      change (sum_list (line_feeds <$> GenMatrix.heading)) with 1.
      change (sum_list (line_feeds <$> GenMatrix.summary)) with 4.
      change (line_feeds GenMatrix.nl) with 1.
      change (length GenMatrix.heading) with 3.
      change (length GenMatrix.summary) with 14. lia.
Qed.

(** Two results, the second without any indicator key: 24 lines. *)
Example generate_matrix_two :
  line_feeds
    <$> GenMatrix.generate_matrix (H := PyModel.lib)
          [ PDict [("site", PStr "a"); ("is_shopify", PBool true);
                   ("has_applovin_requests", PInt 3)];
            PDict [("site", PStr "b")] ]
  = Some 23 ∧
  GenMatrix.generate_matrix (H := PyModel.lib)
    [ PDict [("site", PStr "a")]; PDict [("site", PInt 5)] ] = None.
Proof. vm_compute. done. Qed.

(** X23: a result that has none of the fourteen keys a data row reads,
    as the error dictionary of a failed analysis has none, is rendered
    with eleven fail marks and three zero counts: the same row as a site
    on which nothing was detected. *)
Theorem row_of_missing_keys `{!PyLib} (d : list (string * pyval))
    (site : string) :
  PyVal.assoc_get "site" d = Some (PStr site) →
  (∀ k, k ∈ matrix_keys → PyVal.assoc_get k d = None) →
  GenMatrix.row (PDict d)
  = Some (site :: replicate 11 GenMatrix.cross_mark
                 ++ replicate 3 (py_str (PInt 0))) ∧
  GenMatrix.row (PDict d)
  = GenMatrix.row
      (PDict (("site", PStr site)
              :: ((λ k, (k, PBool false)) <$> take 11 matrix_keys)
              ++ ((λ k, (k, PInt 0)) <$> drop 11 matrix_keys))).
Proof.
  intros Hsite Hnone. unfold GenMatrix.row. rewrite Hsite.
  unfold GenMatrix.field.
  rewrite !Hnone by (unfold matrix_keys; set_solver).
  split; reflexivity.
Qed.

Lemma row_of_missing_keys_witness :
  GenMatrix.row (H := PyModel.lib)
    (PDict [ ("site", PStr "Broken Shop"); ("url", PStr "http://[::1/");
             ("error", PStr "Invalid IPv6 URL");
             ("error_type", PStr "ValueError");
             ("failed_requests", PList []) ])
  = Some ("Broken Shop" :: replicate 11 GenMatrix.cross_mark
                        ++ replicate 3 "0").
Proof.
  apply (row_of_missing_keys (H := PyModel.lib)); [reflexivity|].
  intros k Hk. unfold matrix_keys in Hk.
  rewrite !elem_of_cons, elem_of_nil in Hk.
  repeat (destruct Hk as [->|Hk]; [reflexivity|]). done.
Defined.
